(** * BuildFast Shop: the order service

    A shallow embedding of [src/features/orders/services/orderService.js]
    and of the part of the hosted backend it talks to: the authentication
    session and the [orders] and [order_items] relations as the orders
    migration ([02_create_orders_table.sql]) declares them, with their
    column types, constraints, row-level policies and triggers.

    Conventions.
    - A JavaScript [number] is an IEEE-754 binary64 value; it is modelled by
      [spec_float] with precision 53 and maximal exponent 1024, so every
      [+] and [*] of the source is the correctly rounded operation.
    - A [DECIMAL(10,2)] column holds an integer number of cents.
    - An [async] function is a computation over the backend state that
      either returns a value or throws; [try { } catch { }] is a combinator.
    - Every request to the backend and every [console.error] is recorded in
      a trace, latest first. *)

From Stdlib Require Import ZArith List String Bool Arith Lia.
From Stdlib Require Import Floats.SpecFloat.
From Stdlib Require Import Sorting.Permutation Sorting.Sorted.
Import ListNotations.

Local Open Scope string_scope.
Local Open Scope list_scope.

(** ** JavaScript numbers *)

Module Number.

Definition number : Type := spec_float.

Definition prec : Z := 53.
Definition emax : Z := 1024.

(** [a + b] and [a * b] on numbers. *)
Definition add (a b : number) : number := SFadd prec emax a b.
Definition mul (a b : number) : number := SFmul prec emax a b.

(** The literal [0]. *)
Definition zero : number := S754_zero false.

(** An integer literal. *)
Definition of_Z (z : Z) : number := binary_normalize prec emax z 0 false.

(** A decimal literal [n / d] with [n] and [d] small integers, such as
    [89.99 = 8999 / 100]: the binary64 value nearest to the quotient. *)
Definition of_decimal (n : Z) (d : positive) : number :=
  SFdiv prec emax (of_Z n) (of_Z (Zpos d)).

(** The number the client receives for an amount of [c] cents: the backend
    prints the decimal and the client parses it. *)
Definition of_cents (c : Z) : number := of_decimal c 100.

Definition eqb (a b : number) : bool := SFeqb a b.
Definition ltb (a b : number) : bool := SFltb a b.

(** [parseFloat(x)] applied to a number: [x] is first printed (the
    shortest decimal that reads back as [x]; [-0] prints as ["0"]) and
    the text is parsed again, so only the sign of zero is lost. *)
Definition parseFloat (x : number) : number :=
  match x with
  | S754_zero _ => S754_zero false
  | _ => x
  end.

End Number.

Import Number.

(** ** How the backend reads a number into a column *)

(** SQLSTATE codes of the refusals that occur. *)
Definition not_null_violation : string := "23502".
Definition foreign_key_violation : string := "23503".
Definition check_violation : string := "23514".
Definition numeric_value_out_of_range : string := "22003".
Definition invalid_text_representation : string := "22P02".
Definition insufficient_privilege : string := "42501".

(** The code [.single()] answers with when the request does not select
    exactly one row. *)
Definition PGRST116 : string := "PGRST116".

(** [DECIMAL(10,2)] holds fewer than [10^8] units, that is [10^10] cents. *)
Definition cents_limit : Z := 10 ^ 10.

(** A hundred times the exact value [m * 2^e], as a fraction. *)
Definition hundredfold (m : positive) (e : Z) : Z * Z :=
  match e with
  | Zneg p => (100 * Zpos m, 2 ^ Zpos p)%Z
  | _ => (100 * Zpos m * 2 ^ e, 1)%Z
  end.

(** The cents a positive number [m * 2^e] is read as. The request carries
    the shortest decimal that reads back as the number, and the column
    rounds that decimal to two places, halves away from zero. With [k] the
    whole cents below the exact value, the printed decimal is the half-way
    point [(2k+1)/200] exactly when that point reads back as the number;
    otherwise it lies on the same side of the point as the exact value. *)
Definition round_to_cents (m : positive) (e : Z) : Z :=
  let '(num, den) := hundredfold m e in
  let k := (num / den)%Z in
  if (cents_limit <=? k)%Z then k
  else if eqb (S754_finite false m e) (of_decimal (2 * k + 1) 200) then (k + 1)%Z
  else if (2 * (num mod den) <? den)%Z then k
  else (k + 1)%Z.

(** A number sent for a [DECIMAL(10,2) NOT NULL] column. [NaN] and the
    infinities travel as JSON [null]. *)
Definition to_decimal (x : number) : string + Z :=
  match x with
  | S754_nan | S754_infinity _ => inl not_null_violation
  | S754_zero _ => inr 0%Z
  | S754_finite sgn m e =>
      let c := round_to_cents m e in
      if (cents_limit <=? c)%Z then inl numeric_value_out_of_range
      else inr (if sgn then (- c)%Z else c)
  end.

Definition in_int4 (n : Z) : bool := ((- 2 ^ 31 <=? n) && (n <? 2 ^ 31))%Z.

(** A number sent for an [INTEGER NOT NULL] column: its decimal text must
    be that of a 32-bit integer. *)
Definition to_integer (x : number) : string + Z :=
  match x with
  | S754_nan | S754_infinity _ => inl not_null_violation
  | S754_zero _ => inr 0%Z
  | S754_finite sgn m e =>
      match e with
      | Zneg p =>
          if (Zpos m mod 2 ^ Zpos p =? 0)%Z then
            let n := (Zpos m / 2 ^ Zpos p)%Z in
            let n := if sgn then (- n)%Z else n in
            if in_int4 n then inr n else inl numeric_value_out_of_range
          else inl invalid_text_representation
      | _ =>
          let n := (Zpos m * 2 ^ e)%Z in
          let n := if sgn then (- n)%Z else n in
          if in_int4 n then inr n else inl numeric_value_out_of_range
      end
  end.

(** ** JavaScript values, for the functions that accept anything *)

#[warnings="-register-all"]
Inductive value : Type :=
| VUndefined
| VNull
| VBoolean (b : bool)
| VNumber (n : number)
| VString (s : string)
| VObject (props : list (string * value)).

(** Own data property of a plain object; [undefined] when absent. *)
Fixpoint get_own (props : list (string * value)) (key : string) : value :=
  match props with
  | [] => VUndefined
  | (k, v) :: rest => if String.eqb k key then v else get_own rest key
  end.

(** [v?.key]: [undefined] on [null] and [undefined]; the property of an
    object; primitives are boxed and their prototypes carry no such data
    property, so the read yields [undefined]. *)
Definition optional_get (v : value) (key : string) : value :=
  match v with
  | VObject props => get_own props key
  | _ => VUndefined
  end.

(** [list.includes(v)] for an array of string literals (SameValueZero). *)
Definition includes_value (list : list string) (v : value) : bool :=
  match v with
  | VString s => existsb (String.eqb s) list
  | _ => false
  end.

(** [list.includes(s)] when [s] is known to be a string. *)
Definition includes (list : list string) (s : string) : bool :=
  existsb (String.eqb s) list.

(** ** Rows and payloads *)

(** Order identifiers (UUIDs in the relation) are numbered. *)
Abbreviation OrderId := nat (only parsing).

Record User : Type := mkUser {
  user_id : string;
  email : string
}.

(** A row of [orders]; [total_amount] in cents. *)
Record Order : Type := mkOrder {
  id : OrderId;
  customer_id : string;
  total_amount : Z;
  status : string;
  shipping_address : string;
  created_at : nat;
  updated_at : nat
}.

(** A row of [order_items]; [price_at_time] in cents. *)
Record OrderItem : Type := mkOrderItem {
  item_id : nat;
  order_id : OrderId;
  product_id : string;
  quantity : Z;
  price_at_time : Z;
  item_created_at : nat
}.

(** What [.insert({...})] sends for an order. *)
Record OrderInsert : Type := mkOrderInsert {
  ins_customer_id : string;
  ins_total_amount : number;
  ins_status : string;
  ins_shipping_address : string
}.

(** What [.insert([...])] sends for each line item. *)
Record OrderItemInsert : Type := mkOrderItemInsert {
  ins_order_id : OrderId;
  ins_product_id : option string;
  ins_quantity : number;
  ins_price_at_time : number
}.

(** A cart line as the cart store hands it over: [product_id] and [id] may
    be missing ([None] is [undefined]). *)
Record CartItem : Type := mkCartItem {
  cart_product_id : option string;
  cart_id : option string;
  cart_quantity : number;
  cart_price : number
}.

Record OrderData : Type := mkOrderData {
  shippingAddress : string
}.

(** An order read back with its embedded [order_items]. *)
Record OrderWithItems : Type := mkOrderWithItems {
  order_row : Order;
  order_items_of : list OrderItem
}.

Record OrderStats : Type := mkOrderStats {
  totalOrders : nat;
  totalSpent : number;
  pending_count : nat;
  processing_count : nat;
  shipped_count : nat;
  delivered_count : nat;
  cancelled_count : nat
}.

(** A line item as the columns hold it, before it gets its identifiers. *)
Record Line : Type := mkLine {
  line_product : string;
  line_quantity : Z;
  line_price : Z
}.

(** ** Errors and results *)

Inductive error : Type :=
| JsError (message : string)      (* new Error(message) *)
| TypeError (message : string)    (* property read on null *)
| DbError (code : string).        (* error object returned by the backend *)

(** The [{ data, error }] object, both of the backend client and of the
    service functions. *)
Record Result (A : Type) : Type := mkResult {
  data : option A;
  err : option error
}.

Arguments mkResult {A} _ _.
Arguments data {A} _.
Arguments err {A} _.

Definition ok {A : Type} (a : A) : Result A := mkResult (Some a) None.
Definition failed {A : Type} (e : error) : Result A := mkResult None (Some e).

(** ** The hosted backend *)

Inductive DbOp : Type :=
| InsertOrder
| InsertOrderItems
| SelectOrderById
| UpdateOrderStatus
| SelectOrdersByCustomer.

Inductive Request : Type :=
| PostOrder (p : OrderInsert)
| PostOrderItems (ps : list OrderItemInsert)
| GetOrder (k : OrderId)
| PatchOrderStatus (k : OrderId) (st : string)
| GetOrders (uid : string).

Inductive Event : Type :=
| Sent (r : Request)
| Printed (label : string) (e : error).

Record Backend : Type := mkBackend {
  session : option User;
  (** identifiers of the rows of [products] *)
  products : list string;
  orders : list Order;
  order_items : list OrderItem;
  next_order_id : nat;
  next_item_id : nat;
  now : nat;
  (** requests that fail for a reason outside the relations (network,
      service), with the error code they answer *)
  faults : DbOp -> option string;
  trace : list Event
}.

Definition no_faults : DbOp -> option string := fun _ => None.

(** The state with one more event in the trace. *)
Definition record (ev : Event) (s : Backend) : Backend :=
  mkBackend (session s) (products s) (orders s) (order_items s)
            (next_order_id s) (next_item_id s) (now s) (faults s)
            (ev :: trace s).

(** The state after an accepted write: new relations, new counters, and
    the clock has moved on. *)
Definition set_tables (s : Backend) (os : list Order) (its : list OrderItem)
    (noid niid : nat) : Backend :=
  mkBackend (session s) (products s) os its noid niid (S (now s)) (faults s)
            (trace s).

(** ** Computations: state of the backend plus exceptions *)

(** An [async] body run to completion from backend state [s]: the state it
    leaves, and either the exception it threw or the value it returned. *)
Definition Js (A : Type) : Type := Backend -> Backend * (error + A).

Definition ret {A : Type} (a : A) : Js A := fun s => (s, inr a).

Definition throw {A : Type} (e : error) : Js A := fun s => (s, inl e).

Definition bind {A B : Type} (m : Js A) (k : A -> Js B) : Js B :=
  fun s =>
    match m s with
    | (s', inr a) => k a s'
    | (s', inl e) => (s', inl e)
    end.

(** [try { body } catch (error) { handler }]: effects of [body] up to the
    throw are kept. *)
Definition try_catch {A : Type} (body : Js A) (handler : error -> Js A) : Js A :=
  fun s =>
    match body s with
    | (s', inl e) => handler e s'
    | r => r
    end.

Declare Scope js_scope.
Delimit Scope js_scope with js.
Notation "x <- m ;; k" := (bind m (fun x => k))
  (at level 61, m at next level, right associativity) : js_scope.
Notation "m ;;; k" := (bind m (fun _ => k))
  (at level 61, right associativity) : js_scope.

Local Open Scope js_scope.

(** [console.error(label, error)] *)
Definition console_error (label : string) (e : error) : Js unit :=
  fun s => (record (Printed label e) s, inr tt).

(** [if (e) throw e] *)
Definition throw_if_error (e : option error) : Js unit :=
  match e with
  | Some e' => throw e'
  | None => ret tt
  end.

(** ** The relations, as the migration declares them *)

Definition has_id (k : OrderId) (o : Order) : bool := Nat.eqb (id o) k.

Definition belongs_to (k : OrderId) (it : OrderItem) : bool :=
  Nat.eqb (order_id it) k.

Definition owned_by (uid : string) (o : Order) : bool :=
  String.eqb (customer_id o) uid.

(** The policies on [orders], all [TO authenticated] with
    [auth.uid() = customer_id]. *)
Definition visible (who : option User) (o : Order) : bool :=
  match who with
  | Some u => owned_by (user_id u) o
  | None => false
  end.

(** The order [k] as the session can address it. *)
Definition matches (who : option User) (k : OrderId) (o : Order) : bool :=
  has_id k o && visible who o.

(** [CHECK (status IN (...))] *)
Definition status_domain : list string :=
  ["pending"; "processing"; "shipped"; "delivered"; "cancelled"].

(** [.eq('id', k).single()]: the row, when exactly one row is selected. *)
Definition lookup_order (who : option User) (os : list Order) (k : OrderId)
    : option Order :=
  match filter (matches who k) os with
  | [o] => Some o
  | _ => None
  end.

(** Insert into [orders]: the total is read into [DECIMAL(10,2)], the
    policy "Users can create their own orders" and the two [CHECK]s are
    applied, and the row gets its identifier and both timestamps. *)
Definition accept_order (s : Backend) (p : OrderInsert) : string + Order :=
  match faults s InsertOrder with
  | Some code => inl code
  | None =>
      match to_decimal (ins_total_amount p) with
      | inl code => inl code
      | inr total =>
          let row := mkOrder (next_order_id s) (ins_customer_id p) total
                             (ins_status p) (ins_shipping_address p)
                             (now s) (now s) in
          if negb (visible (session s) row) then inl insufficient_privilege
          else if (total <? 0)%Z then inl check_violation
          else if negb (includes status_domain (ins_status p)) then inl check_violation
          else inr row
      end
  end.

(** One line item read into the columns of [order_items]: [product_id]
    [NOT NULL], [quantity INTEGER CHECK (quantity > 0)],
    [price_at_time DECIMAL(10,2) CHECK (price_at_time >= 0)], and the
    product must exist. *)
Definition coerce_line (catalog : list string) (pid : option string)
    (q p : number) : string + Line :=
  match pid with
  | None => inl not_null_violation
  | Some product =>
      match to_integer q with
      | inl code => inl code
      | inr qty =>
          match to_decimal p with
          | inl code => inl code
          | inr price =>
              if negb (0 <? qty)%Z then inl check_violation
              else if (price <? 0)%Z then inl check_violation
              else if negb (includes catalog product) then inl foreign_key_violation
              else inr (mkLine product qty price)
          end
      end
  end.

Fixpoint coerce_lines (catalog : list string) (ps : list OrderItemInsert)
    : string + list (OrderId * Line) :=
  match ps with
  | [] => inr []
  | p :: rest =>
      match coerce_line catalog (ins_product_id p) (ins_quantity p)
                        (ins_price_at_time p) with
      | inl code => inl code
      | inr l =>
          match coerce_lines catalog rest with
          | inl code => inl code
          | inr ls => inr ((ins_order_id p, l) :: ls)
          end
      end
  end.

(** The rows of a bulk insert get consecutive identifiers. *)
Fixpoint item_rows (first stamp : nat) (ls : list (OrderId * Line))
    : list OrderItem :=
  match ls with
  | [] => []
  | (k, l) :: rest =>
      mkOrderItem first k (line_product l) (line_quantity l) (line_price l) stamp
      :: item_rows (S first) stamp rest
  end.

(** [SUM(quantity * price_at_time)] over line items, in cents; 0 for none. *)
Definition sum_items (items : list OrderItem) : Z :=
  fold_right (fun it acc => (quantity it * price_at_time it + acc)%Z) 0%Z items.

(** [calculate_order_total]: [COALESCE(SUM(quantity * price_at_time), 0)]
    over the line items of the order. *)
Definition calculate_order_total (items : list OrderItem) (k : OrderId) : Z :=
  sum_items (filter (belongs_to k) items).

(** [update_updated_at_column], the trigger function fired before every
    update of a row of [orders]: [NEW.updated_at = NOW()]. *)
Definition update_updated_at_column (stamp : nat) (o : Order) : Order :=
  mkOrder (id o) (customer_id o) (total_amount o) (status o)
          (shipping_address o) (created_at o) stamp.

(** The row after [UPDATE orders SET total_amount = ...]. *)
Definition with_total (total : Z) (stamp : nat) (o : Order) : Order :=
  update_updated_at_column stamp
    (mkOrder (id o) (customer_id o) total (status o) (shipping_address o)
             (created_at o) (updated_at o)).

(** [validate_order_total], fired for one inserted line item of order [k]:
    the total is recalculated and, when the stored one differs, updated. *)
Definition validate_order_total (who : option User) (items : list OrderItem)
    (stamp : nat) (os : list Order) (k : OrderId) : string + list Order :=
  let calculated_total := calculate_order_total items k in
  if (cents_limit <=? Z.abs calculated_total)%Z then inl numeric_value_out_of_range
  else if existsb (fun o => matches who k o
                            && negb (total_amount o =? calculated_total)%Z) os
  then
    if (calculated_total <? 0)%Z then inl check_violation
    else inr (map (fun o => if matches who k o
                            then with_total calculated_total stamp o else o) os)
  else inr os.

(** The trigger [update_order_total_on_items] runs once per inserted row,
    after the statement has stored all of them. *)
Fixpoint run_total_triggers (who : option User) (items : list OrderItem)
    (stamp : nat) (os : list Order) (ks : list OrderId) : string + list Order :=
  match ks with
  | [] => inr os
  | k :: rest =>
      match validate_order_total who items stamp os k with
      | inl code => inl code
      | inr os' => run_total_triggers who items stamp os' rest
      end
  end.

(** Insert into [order_items], all rows or none: the lines are read into
    the columns, the policy "Users can create order items for their
    orders" is applied, the rows are stored and the total trigger runs.
    The outcome is the new rows and the [orders] relation afterwards. *)
Definition accept_items (s : Backend) (ps : list OrderItemInsert)
    : string + (list OrderItem * list Order) :=
  match faults s InsertOrderItems with
  | Some code => inl code
  | None =>
      match coerce_lines (products s) ps with
      | inl code => inl code
      | inr ls =>
          if negb (forallb (fun kl => existsb (matches (session s) (fst kl))
                                              (orders s)) ls)
          then inl insufficient_privilege
          else
            let rows := item_rows (next_item_id s) (now s) ls in
            match run_total_triggers (session s) (order_items s ++ rows) (now s)
                                     (orders s) (map order_id rows) with
            | inl code => inl code
            | inr os => inr (rows, os)
            end
      end
  end.

(** The row after [UPDATE orders SET status = ...]. *)
Definition with_status (st : string) (stamp : nat) (o : Order) : Order :=
  update_updated_at_column stamp
    (mkOrder (id o) (customer_id o) (total_amount o) st (shipping_address o)
             (created_at o) (updated_at o)).

Definition update_rows (who : option User) (k : OrderId) (st : string)
    (stamp : nat) (os : list Order) : list Order :=
  map (fun o => if matches who k o then with_status st stamp o else o) os.

(** Update of the status of order [k] with a singular response: refused as
    a whole unless exactly one row is hit. *)
Definition accept_update (s : Backend) (k : OrderId) (st : string)
    : string + Order :=
  match faults s UpdateOrderStatus with
  | Some code => inl code
  | None =>
      match lookup_order (session s) (orders s) k with
      | Some o =>
          if negb (includes status_domain st) then inl check_violation
          else inr (with_status st (now s) o)
      | None => inl PGRST116
      end
  end.

(** ** The backend client *)

(** [supabase.auth.getUser()], reduced to its [data.user]. *)
Definition auth_getUser : Js (option User) := fun s => (s, inr (session s)).

(** [supabase.from('orders').insert(p).select().single()] *)
Definition insert_order (p : OrderInsert) : Js (Result Order) :=
  fun s =>
    match accept_order s p with
    | inl code => (record (Sent (PostOrder p)) s, inr (failed (DbError code)))
    | inr row =>
        (record (Sent (PostOrder p))
           (set_tables s (orders s ++ [row]) (order_items s)
                       (S (next_order_id s)) (next_item_id s)),
         inr (ok row))
    end.

(** [supabase.from('order_items').insert(ps)]: no [.select()], so no data
    comes back. *)
Definition insert_order_items (ps : list OrderItemInsert) : Js (Result unit) :=
  fun s =>
    match accept_items s ps with
    | inl code => (record (Sent (PostOrderItems ps)) s, inr (failed (DbError code)))
    | inr (rows, os) =>
        (record (Sent (PostOrderItems ps))
           (set_tables s os (order_items s ++ rows)
                       (next_order_id s) (next_item_id s + List.length rows)),
         inr (mkResult None None))
    end.

(** [supabase.from('orders').select('*, order_items(...)').eq('id', k).single()];
    the embedded [products] are left out. *)
Definition select_order_by_id (k : OrderId) : Js (Result OrderWithItems) :=
  fun s =>
    (record (Sent (GetOrder k)) s,
     inr match faults s SelectOrderById with
         | Some code => failed (DbError code)
         | None =>
             match lookup_order (session s) (orders s) k with
             | Some o =>
                 ok (mkOrderWithItems o (filter (belongs_to k) (order_items s)))
             | None => failed (DbError PGRST116)
             end
         end).

(** [supabase.from('orders').update({ status }).eq('id', k).select().single()] *)
Definition update_order_status (k : OrderId) (st : string) : Js (Result Order) :=
  fun s =>
    match accept_update s k st with
    | inl code =>
        (record (Sent (PatchOrderStatus k st)) s, inr (failed (DbError code)))
    | inr row =>
        (record (Sent (PatchOrderStatus k st))
           (set_tables s (update_rows (session s) k st (now s) (orders s))
                       (order_items s) (next_order_id s) (next_item_id s)),
         inr (ok row))
    end.

(** [supabase.from('orders').select('status, total_amount').eq('customer_id', uid)] *)
Definition select_orders_by_customer (uid : string) : Js (Result (list Order)) :=
  fun s =>
    (record (Sent (GetOrders uid)) s,
     inr match faults s SelectOrdersByCustomer with
         | Some code => failed (DbError code)
         | None =>
             ok (filter (fun o => owned_by uid o && visible (session s) o)
                        (orders s))
         end).

(** ** The order service *)

(** [a || b] on optional strings: the empty string and [undefined] are
    falsy. *)
Definition or_else (a b : option string) : option string :=
  match a with
  | Some s => if String.eqb s "" then b else a
  | None => b
  end.

(** The line-item payload built from a cart line for order [k]. *)
Definition order_item_of (k : OrderId) (item : CartItem) : OrderItemInsert :=
  mkOrderItemInsert k (or_else (cart_product_id item) (cart_id item))
                    (cart_quantity item) (cart_price item).

Definition getOrderById (orderId : OrderId) : Js (Result OrderWithItems) :=
  try_catch
    (r <- select_order_by_id orderId ;;
     throw_if_error (err r) ;;;
     ret (mkResult (data r) None))
    (fun e =>
       console_error "Error fetching order:" e ;;;
       ret (failed e)).

Definition createOrder (orderData : OrderData) (cartItems : list CartItem)
    : Js (Result OrderWithItems) :=
  try_catch
    (user <- auth_getUser ;;
     match user with
     | None => throw (JsError "User must be authenticated to create an order")
     | Some user =>
         (* Calculate total amount *)
         let totalAmount :=
           fold_left
             (fun sum item => add sum (mul (cart_price item) (cart_quantity item)))
             cartItems zero in
         (* Create the order *)
         r <- insert_order
                (mkOrderInsert (user_id user) totalAmount "pending"
                               (shippingAddress orderData)) ;;
         throw_if_error (err r) ;;;
         match data r with
         | None => throw (TypeError "Cannot read properties of null (reading 'id')")
         | Some order =>
             (* Create order items *)
             let orderItems := map (order_item_of (id order)) cartItems in
             r' <- insert_order_items orderItems ;;
             throw_if_error (err r') ;;;
             (* Fetch the complete order with items *)
             getOrderById (id order)
         end
     end)
    (fun e =>
       console_error "Error creating order:" e ;;;
       ret (failed e)).

Definition validStatuses : list string :=
  ["pending"; "processing"; "shipped"; "delivered"; "cancelled"].

Definition updateOrderStatus (orderId : OrderId) (newStatus : string)
    : Js (Result Order) :=
  try_catch
    (if negb (includes validStatuses newStatus)
     then throw (JsError ("Invalid status. Must be one of: "
                          ++ String.concat ", " validStatuses))
     else
       r <- update_order_status orderId newStatus ;;
       throw_if_error (err r) ;;;
       ret (mkResult (data r) None))
    (fun e =>
       console_error "Error updating order status:" e ;;;
       ret (failed e)).

Definition cancellable : list string := ["pending"; "processing"].

Definition cancelOrder (orderId : OrderId) : Js (Result Order) :=
  try_catch
    ((* Only allow cancelling pending or processing orders *)
     r <- getOrderById orderId ;;
     match data r with
     | None => throw (JsError "Order not found")
     | Some order =>
         if negb (includes cancellable (status (order_row order)))
         then throw (JsError "Only pending or processing orders can be cancelled")
         else updateOrderStatus orderId "cancelled"
     end)
    (fun e =>
       console_error "Error cancelling order:" e ;;;
       ret (failed e)).

(** [data.filter(o => o.status === st).length] *)
Definition count_status (st : string) (rows : list Order) : nat :=
  List.length (filter (fun o => String.eqb (status o) st) rows).

(** [order.total_amount] as the client reads it from a row. *)
Definition js_total_amount (o : Order) : number := of_cents (total_amount o).

Definition getOrderStats : Js (Result OrderStats) :=
  try_catch
    (user <- auth_getUser ;;
     match user with
     | None => throw (JsError "User must be authenticated")
     | Some user =>
         r <- select_orders_by_customer (user_id user) ;;
         throw_if_error (err r) ;;;
         match data r with
         | None => throw (TypeError "Cannot read properties of null (reading 'length')")
         | Some rows =>
             let stats :=
               mkOrderStats
                 (List.length rows)
                 (fold_left (fun sum order => add sum (parseFloat (js_total_amount order)))
                            rows zero)
                 (count_status "pending" rows)
                 (count_status "processing" rows)
                 (count_status "shipped" rows)
                 (count_status "delivered" rows)
                 (count_status "cancelled" rows) in
             ret (ok stats)
         end
     end)
    (fun e =>
       console_error "Error fetching order stats:" e ;;;
       ret (failed e)).

(** [canCancelOrder] takes whatever the caller passes. *)
Definition canCancelOrder (order : value) : bool :=
  includes_value cancellable (optional_get order "status").

(** An order row as the plain object the client receives. *)
Definition order_to_value (o : Order) : value :=
  VObject
    [ ("id", VNumber (of_Z (Z.of_nat (id o))));
      ("customer_id", VString (customer_id o));
      ("total_amount", VNumber (js_total_amount o));
      ("status", VString (status o));
      ("shipping_address", VString (shipping_address o));
      ("created_at", VNumber (of_Z (Z.of_nat (created_at o))));
      ("updated_at", VNumber (of_Z (Z.of_nat (updated_at o)))) ].

(** The [data] of a result as a value: [null] when absent. *)
Definition data_to_value (d : option Order) : value :=
  match d with
  | Some o => order_to_value o
  | None => VNull
  end.

(** ** Derived notions used in the statements *)

(** The [reduce] of [createOrder], named. *)
Definition order_total (cartItems : list CartItem) : number :=
  fold_left (fun sum item => add sum (mul (cart_price item) (cart_quantity item)))
            cartItems zero.

(** The two payloads [createOrder] sends for principal [u]. *)
Definition order_payload (u : User) (orderData : OrderData)
    (cartItems : list CartItem) : OrderInsert :=
  mkOrderInsert (user_id u) (order_total cartItems) "pending"
                (shippingAddress orderData).

Definition items_payload (k : OrderId) (cartItems : list CartItem)
    : list OrderItemInsert :=
  map (order_item_of k) cartItems.

(** The cart as the columns of [order_items] read it. *)
Fixpoint read_cart (catalog : list string) (cartItems : list CartItem)
    : string + list Line :=
  match cartItems with
  | [] => inr []
  | item :: rest =>
      match coerce_line catalog
                        (or_else (cart_product_id item) (cart_id item))
                        (cart_quantity item) (cart_price item) with
      | inl code => inl code
      | inr l =>
          match read_cart catalog rest with
          | inl code => inl code
          | inr ls => inr (l :: ls)
          end
      end
  end.

(** Sum of quantity times price over lines, in cents. *)
Definition sum_lines (ls : list Line) : Z :=
  fold_right (fun l acc => (line_quantity l * line_price l + acc)%Z) 0%Z ls.

(** The order row inserted for principal [u] in state [s] when the total
    is read as [total] cents. *)
Definition placed_row (s : Backend) (u : User) (orderData : OrderData)
    (total : Z) : Order :=
  mkOrder (next_order_id s) (user_id u) total "pending"
          (shippingAddress orderData) (now s) (now s).

(** The state after the order insert [p] stored [row]. *)
Definition order_inserted (s : Backend) (p : OrderInsert) (row : Order) : Backend :=
  record (Sent (PostOrder p))
         (set_tables s (orders s ++ [row]) (order_items s)
                     (S (next_order_id s)) (next_item_id s)).

(** The state after the line-item insert [ps] stored [rows] and left the
    orders [os]. *)
Definition items_inserted (s : Backend) (ps : list OrderItemInsert)
    (rows : list OrderItem) (os : list Order) : Backend :=
  record (Sent (PostOrderItems ps))
         (set_tables s os (order_items s ++ rows)
                     (next_order_id s) (next_item_id s + List.length rows)).

(** The line-item rows stored for the lines [ls] of order [k]. *)
Definition placed_items (s : Backend) (ls : list Line) : list OrderItem :=
  item_rows (next_item_id s) (S (now s)) (map (pair (next_order_id s)) ls).

(** The order row once the total trigger has run for its line items: with
    no line item the trigger does not run; otherwise the total is the
    recalculated one, and the row is stamped if that changed it. *)
Definition settled_row (ls : list Line) (stamp : nat) (row : Order) : Order :=
  match ls with
  | [] => row
  | _ => if (total_amount row =? sum_lines ls)%Z then row
         else with_total (sum_lines ls) stamp row
  end.

(** Identifiers handed out so far lie below the next one: every stored
    order and every order reference of a stored line item. *)
Definition fresh_ids (s : Backend) : Prop :=
  Forall (fun o => id o < next_order_id s) (orders s) /\
  Forall (fun it => order_id it < next_order_id s) (order_items s).

(** The totals of the order inserts found in a trace, latest first. *)
Fixpoint sent_totals (tr : list Event) : list number :=
  match tr with
  | [] => []
  | Sent (PostOrder p) :: rest => ins_total_amount p :: sent_totals rest
  | _ :: rest => sent_totals rest
  end.

(** The message of the authentication test of [createOrder]. *)
Definition unauthenticated_message : string :=
  "User must be authenticated to create an order".

(** The messages of the two guards. *)
Definition invalid_status_message : string :=
  "Invalid status. Must be one of: pending, processing, shipped, delivered, cancelled".

Definition not_cancellable_message : string :=
  "Only pending or processing orders can be cancelled".

(** ** The statements of the specification, in its own words *)

(** The allowed transition set of section 4.3 of the specification:
    {pending->processing, processing->shipped, shipped->delivered,
     pending->cancelled, processing->cancelled}. *)
Definition allowed_transition (current requested : string) : bool :=
  (String.eqb current "pending" && String.eqb requested "processing")
  || (String.eqb current "processing" && String.eqb requested "shipped")
  || (String.eqb current "shipped" && String.eqb requested "delivered")
  || (String.eqb current "pending" && String.eqb requested "cancelled")
  || (String.eqb current "processing" && String.eqb requested "cancelled").

(** The total of section 4.2 of the specification, in cents: decimal
    arithmetic with two digits; a line is [(quantity, price in cents)] and
    the products are summed exactly. *)
Definition decimal_total (lines : list (Z * Z)) : Z :=
  fold_left (fun sum l => (sum + fst l * snd l)%Z) lines 0%Z.

(** The cart the cart store hands over for such lines of product [pid]. *)
Definition cart_of_lines (pid : string) (lines : list (Z * Z)) : list CartItem :=
  map (fun l => mkCartItem (Some pid) None (of_Z (fst l)) (of_cents (snd l)))
      lines.

(** P4, at a given state, order and requested status: the update succeeds
    exactly for the pairs of the allowed set, and a failed update leaves
    the orders as they were. *)
Definition transition_closure (s : Backend) (k : OrderId) (requested : string)
    : Prop :=
  forall o, lookup_order (session s) (orders s) k = Some o ->
  exists s' r,
    updateOrderStatus k requested s = (s', inr r)
    /\ (err r = None <-> allowed_transition (status o) requested = true)
    /\ (err r <> None -> orders s' = orders s).

(** Scenario D, at a given state: an empty cart is turned down and leaves
    both relations as they were. *)
Definition rejects_empty_cart (s : Backend) (od : OrderData) : Prop :=
  exists s' r,
    createOrder od [] s = (s', inr r)
    /\ err r <> None
    /\ orders s' = orders s
    /\ order_items s' = order_items s.

(** P2, at a given state and cart: a placement that fails leaves neither
    relation with a new row. *)
Definition placement_is_atomic (s : Backend) (od : OrderData)
    (cart : list CartItem) : Prop :=
  forall s' r,
    createOrder od cart s = (s', inr r) ->
    err r <> None ->
    orders s' = orders s /\ order_items s' = order_items s.

(** Section 4.2 for the total [createOrder] computes, at a given cart of
    lines: the one total it sends is the exact decimal sum, as a currency
    amount. *)
Definition total_is_decimal (s : Backend) (od : OrderData) (pid : string)
    (lines : list (Z * Z)) : Prop :=
  exists s' r,
    createOrder od (cart_of_lines pid lines) s = (s', inr r)
    /\ sent_totals (trace s') = [of_cents (decimal_total lines)].

(** ** Sample states *)

Definition alice : User := mkUser "u1" "alice@example.com".

Definition catalog : list string := ["p1"; "p2"].

Definition no_session : Backend :=
  mkBackend None catalog [] [] 0 0 0 no_faults [].

Definition empty_shop : Backend :=
  mkBackend (Some alice) catalog [] [] 0 0 0 no_faults [].

(** A backend that cannot be reached for order inserts. *)
Definition orders_unreachable : DbOp -> option string :=
  fun op => match op with InsertOrder => Some "503" | _ => None end.

Definition unreachable_shop : Backend :=
  mkBackend (Some alice) catalog [] [] 0 0 0 orders_unreachable [].

(** The cart of scenario A. *)
Definition cartA : list CartItem :=
  [ mkCartItem (Some "p1") None (of_Z 2) (of_decimal 8999 100);
    mkCartItem (Some "p2") None (of_Z 1) (of_decimal 19999 100) ].

(** A cart whose second product is not in the catalog. *)
Definition cart_unknown_product : list CartItem :=
  [ mkCartItem (Some "p1") None (of_Z 2) (of_decimal 8999 100);
    mkCartItem (Some "p7") None (of_Z 1) (of_decimal 19999 100) ].

Definition three_dimes : list CartItem := cart_of_lines "p1" [(3, 10)%Z].

Definition main_street : OrderData := mkOrderData "123 Main St".

(** Alice's order of scenario A in a given status. *)
Definition order_in (st : string) : Order :=
  mkOrder 0 "u1" 37997 st "123 Main St" 0 5.

Definition shop_with (st : string) : Backend :=
  mkBackend (Some alice) catalog [order_in st] [] 1 0 6 no_faults [].

(** Alice with a delivered and a cancelled order, and an order of
    somebody else. *)
Definition shop_with_history : Backend :=
  mkBackend (Some alice) catalog
    [ mkOrder 0 "u1" 37997 "delivered" "123 Main St" 0 5;
      mkOrder 1 "u2" 1050 "pending" "9 Side Rd" 1 1;
      mkOrder 2 "u1" 2003 "cancelled" "123 Main St" 2 3 ]
    [] 3 0 6 no_faults [].

(** ** The rest of the order service: listings and display *)

(** The options object of [getUserOrders]; a missing field is [undefined].
    A page size is a positive integer and an offset a natural number. *)
Record OrdersQuery : Type := mkOrdersQuery {
  q_status : option string;
  q_limit : option positive;
  q_offset : option nat
}.

(** The [{ data, error, count }] a query answers with. *)
Record Counted (A : Type) : Type := mkCounted {
  result : Result A;
  count : option nat
}.

Arguments mkCounted {A} _ _.
Arguments result {A} _.
Arguments count {A} _.

(** The columns [getRecentOrders] selects: [id, total_amount, status,
    created_at, order_items(quantity)]. *)
Record RecentOrder : Type := mkRecentOrder {
  recent_id : OrderId;
  recent_total_amount : Z;
  recent_status : string;
  recent_created_at : nat;
  recent_quantities : list Z
}.

(** [ORDER BY created_at DESC], by insertion; rows with the same stamp stay
    in table order (the database leaves their order open). *)
Fixpoint insert_newest_first (o : Order) (l : list Order) : list Order :=
  match l with
  | [] => [o]
  | x :: rest =>
      if Nat.leb (created_at x) (created_at o) then o :: l
      else x :: insert_newest_first o rest
  end.

Definition newest_first (os : list Order) : list Order :=
  fold_right insert_newest_first [] os.

(** A row with its embedded [order_items]. *)
Definition with_items (items : list OrderItem) (o : Order) : OrderWithItems :=
  mkOrderWithItems o (filter (belongs_to (id o)) items).

(** The rows a listing of customer [uid] ranges over: the policy and the
    two [.eq] filters, newest first. *)
Definition listed (who : option User) (uid : string) (st : option string)
    (os : list Order) : list Order :=
  newest_first
    (filter (fun o =>
               owned_by uid o && visible who o
               && match st with
                  | Some wanted => String.eqb (status o) wanted
                  | None => true
                  end)
            os).

(** [supabase.from('orders').select('*, order_items(...)')
      .eq('customer_id', uid).order('created_at', { ascending: false })
      .range(from, to)], with [.eq('status', st)] when a status is given:
    the rows at positions [from] to [to], both included.  No count is asked
    for, so [count] is [null]. *)
Definition select_orders_range (uid : string) (st : option string)
    (from to : nat) : Js (Counted (list OrderWithItems)) :=
  fun s =>
    (record (Sent (GetOrders uid)) s,
     inr match faults s SelectOrdersByCustomer with
         | Some code => mkCounted (failed (DbError code)) None
         | None =>
             mkCounted
               (ok (map (with_items (order_items s))
                        (firstn (S to - from)
                           (skipn from (listed (session s) uid st (orders s))))))
               None
         end).

Definition recent_of (ow : OrderWithItems) : RecentOrder :=
  mkRecentOrder (id (order_row ow)) (total_amount (order_row ow))
                (status (order_row ow)) (created_at (order_row ow))
                (map quantity (order_items_of ow)).

(** [supabase.from('orders').select('id, total_amount, status, created_at,
      order_items(quantity)').eq('customer_id', uid)
      .order('created_at', { ascending: false }).limit(limit)] *)
Definition select_recent_orders (uid : string) (limit : nat)
    : Js (Result (list RecentOrder)) :=
  fun s =>
    (record (Sent (GetOrders uid)) s,
     inr match faults s SelectOrdersByCustomer with
         | Some code => failed (DbError code)
         | None =>
             ok (map (fun o => recent_of (with_items (order_items s) o))
                     (firstn limit (listed (session s) uid None (orders s))))
         end).

(** [if (status)] on an optional string: [undefined] and [""] are falsy. *)
Definition truthy (a : option string) : bool :=
  match a with
  | Some s => negb (String.eqb s "")
  | None => false
  end.

Definition getUserOrders (options : OrdersQuery)
    : Js (Counted (list OrderWithItems)) :=
  let status := q_status options in
  let limit :=
    Pos.to_nat (match q_limit options with Some n => n | None => 10%positive end) in
  let offset := match q_offset options with Some n => n | None => 0 end in
  try_catch
    (user <- auth_getUser ;;
     match user with
     | None => throw (JsError "User must be authenticated")
     | Some user =>
         (* Filter by status if provided *)
         r <- select_orders_range (user_id user)
                (if truthy status then status else None)
                offset (offset + limit - 1) ;;
         throw_if_error (err (result r)) ;;;
         ret (mkCounted (mkResult (data (result r)) None) (count r))
     end)
    (fun e =>
       console_error "Error fetching user orders:" e ;;;
       ret (mkCounted (failed e) None)).

Definition getRecentOrders (limit : option positive)
    : Js (Result (list RecentOrder)) :=
  let limit := Pos.to_nat (match limit with Some n => n | None => 5%positive end) in
  try_catch
    (user <- auth_getUser ;;
     match user with
     | None => throw (JsError "User must be authenticated")
     | Some user =>
         r <- select_recent_orders (user_id user) limit ;;
         throw_if_error (err r) ;;;
         ret (mkResult (data r) None)
     end)
    (fun e =>
       console_error "Error fetching recent orders:" e ;;;
       ret (failed e)).

Record StatusInfo : Type := mkStatusInfo {
  label : string;
  color : string;
  description : string
}.

(** What [statusInfo[status] || { ... }] evaluates to: an entry of the
    table, the default entry, or, for a name that every object inherits,
    the inherited member (which is truthy). *)
Inductive StatusDisplay : Type :=
| Display (info : StatusInfo)
| Inherited (name : string).

(** The names an object literal inherits from [Object.prototype]. *)
Definition object_prototype_names : list string :=
  [ "constructor"; "__defineGetter__"; "__defineSetter__"; "hasOwnProperty";
    "__lookupGetter__"; "__lookupSetter__"; "isPrototypeOf";
    "propertyIsEnumerable"; "toString"; "valueOf"; "__proto__";
    "toLocaleString" ].

Definition statusInfo : list (string * StatusInfo) :=
  [ ("pending", mkStatusInfo "Pending" "warning" "Your order is being processed");
    ("processing",
     mkStatusInfo "Processing" "info" "Your order is being prepared for shipment");
    ("shipped", mkStatusInfo "Shipped" "primary" "Your order has been shipped");
    ("delivered", mkStatusInfo "Delivered" "success" "Your order has been delivered");
    ("cancelled", mkStatusInfo "Cancelled" "danger" "This order has been cancelled") ].

Fixpoint own_entry (table : list (string * StatusInfo)) (key : string)
    : option StatusInfo :=
  match table with
  | [] => None
  | (k, v) :: rest => if String.eqb k key then Some v else own_entry rest key
  end.

Definition getOrderStatusInfo (status : string) : StatusDisplay :=
  match own_entry statusInfo status with
  | Some info => Display info
  | None =>
      if includes object_prototype_names status then Inherited status
      else Display (mkStatusInfo status "default" "")
  end.

(** ** Invariants of the relations *)

(** Two states with the same session, relations, counters, clock and
    faults: they differ in the trace at most. *)
Definition same_store (s s' : Backend) : Prop :=
  session s' = session s
  /\ products s' = products s
  /\ orders s' = orders s
  /\ order_items s' = order_items s
  /\ next_order_id s' = next_order_id s
  /\ next_item_id s' = next_item_id s
  /\ now s' = now s
  /\ faults s' = faults s.

(** Every stored total is the sum over the line items of its order. *)
Definition totals_consistent (os : list Order) (items : list OrderItem) : Prop :=
  Forall (fun o => total_amount o = calculate_order_total items (id o)) os.

(** The [CHECK] and foreign-key constraints of the two relations. *)
Definition order_checks (o : Order) : Prop :=
  (0 <= total_amount o)%Z /\ In (status o) status_domain.

Definition item_checks (cat : list string) (it : OrderItem) : Prop :=
  (0 < quantity it)%Z /\ (0 <= price_at_time it)%Z /\ In (product_id it) cat.

Definition constraints_hold (s : Backend) : Prop :=
  Forall order_checks (orders s)
  /\ Forall (item_checks (products s)) (order_items s).

(** No order of the relation with identifier [k] is the session's. *)
Definition not_addressable (s : Backend) (k : OrderId) : Prop :=
  Forall (fun o => id o = k -> visible (session s) o = false) (orders s).

(** Exactly one of [data] and [error] is set. *)
Definition discriminated {A : Type} (r : Result A) : Prop :=
  (data r <> None /\ err r = None) \/ (data r = None /\ err r <> None).

(** What a status update may do to a row: nothing, or, for a row the
    request addresses, set the status and nothing else but [updated_at]. *)
Definition status_change (who : option User) (k : OrderId) (st : string)
    (o o' : Order) : Prop :=
  o' = o
  \/ (matches who k o = true
      /\ id o' = id o
      /\ customer_id o' = customer_id o
      /\ total_amount o' = total_amount o
      /\ shipping_address o' = shipping_address o
      /\ created_at o' = created_at o
      /\ status o' = st).


(** ** Derived notions for listings *)

(** [a] comes no later than [b] in a listing by [created_at], newest
    first. *)
Definition newer_or_same (a b : Order) : Prop := created_at b <= created_at a.

(** The options a caller of [getUserOrders] ends up with, defaults
    applied. *)
Definition limit_of (q : OrdersQuery) : nat :=
  Pos.to_nat (match q_limit q with Some n => n | None => 10%positive end).

Definition offset_of (q : OrdersQuery) : nat :=
  match q_offset q with Some n => n | None => 0 end.

Definition status_of (q : OrdersQuery) : option string :=
  if truthy (q_status q) then q_status q else None.

(** The rows of [getUserOrders q] as a caller reads them with
    [result.data || []]. *)
Definition page_rows (q : OrdersQuery) (s : Backend) : list OrderWithItems :=
  match snd (getUserOrders q s) with
  | inr r =>
      match data (result r) with
      | Some rows => rows
      | None => []
      end
  | inl _ => []
  end.


(** ** The order hooks

    The asynchronous functions of [useOrders], [useCreateOrder] and
    [useCancelOrder], each as a function from the component state it was
    called in to the state it leaves behind.  A state setter replaces one
    field.  Pages are numbered from one and a page size is a positive
    integer.  When an awaited call throws,
    nothing after the [await] runs. *)

(** The type of what is caught; the hooks have a state field called
    [error]. *)
Abbreviation Exception := error (only parsing).

Definition createOrderService := createOrder.
Definition cancelOrderService := cancelOrder.

Module UseOrders.

Record State : Type := mkState {
  orders : list OrderWithItems;
  loading : bool;
  error : option Exception;
  totalCount : nat
}.

(** [useState([])], [useState(true)], [useState(null)], [useState(0)] *)
Definition initial : State := mkState [] true None 0.

Definition setOrders (x : list OrderWithItems) (v : State) : State :=
  mkState x (loading v) (error v) (totalCount v).

Definition setLoading (x : bool) (v : State) : State :=
  mkState (orders v) x (error v) (totalCount v).

Definition setError (x : option Exception) (v : State) : State :=
  mkState (orders v) (loading v) x (totalCount v).

Definition setTotalCount (x : nat) (v : State) : State :=
  mkState (orders v) (loading v) (error v) x.

(** [if (result.error) { setError(result.error) }
     else { setOrders(result.data || []); setTotalCount(result.count || 0) }] *)
Definition settle (r : Counted (list OrderWithItems)) (v : State) : State :=
  match err (result r) with
  | Some e => setError (Some e) v
  | None =>
      setTotalCount (match count r with Some n => n | None => 0 end)
        (setOrders (match data (result r) with Some rows => rows | None => [] end)
                   v)
  end.

Definition fetchOrders (status : option string) (limit page : positive)
    (v : State) (s : Backend) : State * Backend :=
  let v := setLoading true v in
  let v := setError None v in
  let offset := (Pos.to_nat page - 1) * Pos.to_nat limit in
  match getUserOrders (mkOrdersQuery status (Some limit) (Some offset)) s with
  | (s', inr r) => (setLoading false (settle r v), s')
  | (s', inl _) => (v, s')
  end.

Definition refetch (status : option string) (limit page : positive)
    (v : State) (s : Backend) : State * Backend :=
  let v := setLoading true v in
  let offset := (Pos.to_nat page - 1) * Pos.to_nat limit in
  match getUserOrders (mkOrdersQuery status (Some limit) (Some offset)) s with
  | (s', inr r) => (setLoading false (settle r v), s')
  | (s', inl _) => (v, s')
  end.

End UseOrders.

Module UseCreateOrder.

Record State : Type := mkState {
  loading : bool;
  error : option Exception;
  createdOrder : option OrderWithItems
}.

(** [useState(false)], [useState(null)], [useState(null)] *)
Definition initial : State := mkState false None None.

Definition setLoading (x : bool) (v : State) : State :=
  mkState x (error v) (createdOrder v).

Definition setError (x : option Exception) (v : State) : State :=
  mkState (loading v) x (createdOrder v).

Definition setCreatedOrder (x : option OrderWithItems) (v : State) : State :=
  mkState (loading v) (error v) x.

Definition createOrder (orderData : OrderData) (cartItems : list CartItem)
    (v : State) (s : Backend)
    : State * (Backend * (Exception + Result OrderWithItems)) :=
  let v := setLoading true v in
  let v := setError None v in
  match createOrderService orderData cartItems s with
  | (s', inr r) =>
      let v :=
        match err r with
        | Some e => setCreatedOrder None (setError (Some e) v)
        | None => setCreatedOrder (data r) v
        end in
      (setLoading false v, (s', inr r))
  | (s', inl e) => (v, (s', inl e))
  end.

Definition reset (v : State) : State :=
  setLoading false (setCreatedOrder None (setError None v)).

End UseCreateOrder.

Module UseCancelOrder.

Record State : Type := mkState {
  loading : bool;
  error : option Exception
}.

(** [useState(false)], [useState(null)] *)
Definition initial : State := mkState false None.

Definition setLoading (x : bool) (v : State) : State := mkState x (error v).

Definition setError (x : option Exception) (v : State) : State :=
  mkState (loading v) x.

Definition cancelOrder (orderId : OrderId) (v : State) (s : Backend)
    : State * (Backend * (Exception + Result Order)) :=
  let v := setLoading true v in
  let v := setError None v in
  match cancelOrderService orderId s with
  | (s', inr r) =>
      let v :=
        match err r with
        | Some e => setError (Some e) v
        | None => v
        end in
      (setLoading false v, (s', inr r))
  | (s', inl e) => (v, (s', inl e))
  end.

End UseCancelOrder.


(** ** Basic facts *)

Lemma mul_comm (a b : number) : mul a b = mul b a.
Proof.
  unfold mul, SFmul.
  destruct a as [sa | sa | | sa ma ea], b as [sb | sb | | sb mb eb];
    try reflexivity;
    try (now rewrite xorb_comm).
  now rewrite xorb_comm, Pos.mul_comm, Z.add_comm.
Qed.

Lemma includes_In (l : list string) (x : string) :
  includes l x = true <-> In x l.
Proof.
  unfold includes. rewrite existsb_exists. split.
  - intros [y [Hy E]]. apply String.eqb_eq in E. now subst.
  - intros H. exists x. split; [assumption | apply String.eqb_refl].
Qed.

Lemma order_total_nil : order_total [] = zero.
Proof. reflexivity. Qed.

Lemma order_total_snoc (cart : list CartItem) (x : CartItem) :
  order_total (cart ++ [x])
  = add (order_total cart) (mul (cart_price x) (cart_quantity x)).
Proof. unfold order_total. now rewrite fold_left_app. Qed.

(** Rows below the next identifier are not addressed by it. *)
Lemma matches_fresh (who : option User) (k : nat) (o : Order) :
  id o < k -> matches who k o = false.
Proof.
  intros H. unfold matches, has_id.
  destruct (Nat.eqb_spec (id o) k); [lia | reflexivity].
Qed.

Lemma filter_matches_fresh who (os : list Order) (k : nat) :
  Forall (fun o => id o < k) os -> filter (matches who k) os = [].
Proof.
  induction 1 as [| o os Ho _ IH]; [reflexivity |].
  cbn. now rewrite (matches_fresh who k o Ho).
Qed.

Lemma filter_belongs_fresh (its : list OrderItem) (k : nat) :
  Forall (fun it => order_id it < k) its -> filter (belongs_to k) its = [].
Proof.
  induction 1 as [| it its Hit _ IH]; [reflexivity |].
  cbn. unfold belongs_to at 1.
  destruct (Nat.eqb_spec (order_id it) k); [lia | exact IH].
Qed.

Lemma item_rows_belong (k first stamp : nat) (ls : list Line) :
  filter (belongs_to k) (item_rows first stamp (map (pair k) ls))
  = item_rows first stamp (map (pair k) ls).
Proof.
  revert first. induction ls as [| l ls IH]; intros first; [reflexivity |].
  cbn. unfold belongs_to at 1. cbn. rewrite Nat.eqb_refl. now rewrite IH.
Qed.

Lemma item_rows_order_id (k first stamp : nat) (ls : list Line) :
  map order_id (item_rows first stamp (map (pair k) ls)) = map (fun _ => k) ls.
Proof.
  revert first. induction ls as [| l ls IH]; intros first; cbn; [reflexivity |].
  now rewrite IH.
Qed.

Lemma item_rows_sum (k first stamp : nat) (ls : list Line) :
  sum_items (item_rows first stamp (map (pair k) ls)) = sum_lines ls.
Proof.
  revert first. induction ls as [| l ls IH]; intros first; cbn; [reflexivity |].
  now rewrite IH.
Qed.

(** What the stored rows say about the lines they come from. *)
Lemma item_rows_lines (k first stamp : nat) (ls : list Line) :
  Forall2 (fun l it =>
             order_id it = k
             /\ product_id it = line_product l
             /\ quantity it = line_quantity l
             /\ price_at_time it = line_price l)
          ls (item_rows first stamp (map (pair k) ls)).
Proof.
  revert first. induction ls as [| l ls IH]; intros first; cbn; constructor.
  - repeat split.
  - apply IH.
Qed.

(** ** How the columns read a cart *)

Lemma coerce_lines_payload (cat : list string) (k : OrderId) (cart : list CartItem) :
  coerce_lines cat (items_payload k cart)
  = match read_cart cat cart with
    | inl code => inl code
    | inr ls => inr (map (pair k) ls)
    end.
Proof.
  induction cart as [| item rest IH]; [reflexivity |].
  cbn. destruct (coerce_line cat _ _ _) as [code | l]; [reflexivity |].
  unfold items_payload in IH. rewrite IH.
  now destruct (read_cart cat rest).
Qed.

Lemma coerce_line_inr cat pid q p l :
  coerce_line cat pid q p = inr l ->
  pid = Some (line_product l)
  /\ to_integer q = inr (line_quantity l)
  /\ to_decimal p = inr (line_price l)
  /\ (0 < line_quantity l)%Z
  /\ (0 <= line_price l)%Z
  /\ In (line_product l) cat.
Proof.
  unfold coerce_line. destruct pid as [product |]; [| discriminate].
  destruct (to_integer q) as [c | qty]; [discriminate |].
  destruct (to_decimal p) as [c | price]; [discriminate |].
  destruct (0 <? qty)%Z eqn:Hq; [| discriminate]. cbn [negb].
  destruct (price <? 0)%Z eqn:Hp; [discriminate |].
  destruct (includes cat product) eqn:Hc; [| discriminate]. cbn [negb].
  intros E. injection E as <-. cbn.
  apply Z.ltb_lt in Hq. apply Z.ltb_ge in Hp. apply includes_In in Hc.
  repeat split; assumption.
Qed.

(** Each line read from the cart is the cart line as the columns read it. *)
Lemma read_cart_lines cat (cart : list CartItem) (ls : list Line) :
  read_cart cat cart = inr ls ->
  Forall2 (fun item l =>
             or_else (cart_product_id item) (cart_id item) = Some (line_product l)
             /\ to_integer (cart_quantity item) = inr (line_quantity l)
             /\ to_decimal (cart_price item) = inr (line_price l)
             /\ (0 < line_quantity l)%Z
             /\ (0 <= line_price l)%Z
             /\ In (line_product l) cat)
          cart ls.
Proof.
  revert ls. induction cart as [| item rest IH]; intros ls; cbn.
  - intros E. injection E as <-. constructor.
  - destruct (coerce_line cat _ _ _) as [c | l] eqn:El; [discriminate |].
    destruct (read_cart cat rest) as [c | ls'] eqn:Er; [discriminate |].
    intros E. injection E as <-. constructor.
    + now apply coerce_line_inr.
    + now apply IH.
Qed.

Lemma read_cart_nil cat (cart : list CartItem) :
  read_cart cat cart = inr [] -> cart = [].
Proof.
  destruct cart as [| item rest]; [reflexivity |]. cbn.
  destruct (coerce_line cat _ _ _); [discriminate |].
  destruct (read_cart cat rest); discriminate.
Qed.

Lemma sum_lines_nonneg cat (cart : list CartItem) (ls : list Line) :
  read_cart cat cart = inr ls -> (0 <= sum_lines ls)%Z.
Proof.
  intros H. apply read_cart_lines in H.
  unfold sum_lines.
  induction H as [| item l cart ls (_ & _ & _ & Hq & Hp & _) _ IH];
    cbn [fold_right]; [lia |].
  pose proof (Z.mul_nonneg_nonneg (line_quantity l) (line_price l)). lia.
Qed.

(** ** How the backend takes the two inserts of a placement *)

Lemma accept_order_placed s u od cart t :
  session s = Some u ->
  faults s InsertOrder = None ->
  to_decimal (order_total cart) = inr t ->
  (0 <= t)%Z ->
  accept_order s (order_payload u od cart) = inr (placed_row s u od t).
Proof.
  intros Hu Hf Ht Hpos. unfold accept_order, order_payload.
  cbn [ins_total_amount ins_customer_id ins_status ins_shipping_address].
  rewrite Hf, Ht, Hu. cbn [visible]. unfold owned_by. cbn [customer_id].
  rewrite String.eqb_refl. cbn [negb].
  destruct (Z.ltb_spec t 0); [lia | reflexivity].
Qed.

(** An accepted order insert of a placement stored the row of the
    principal with the sent total as the column reads it. *)
Lemma accept_order_inr s u od cart row :
  session s = Some u ->
  accept_order s (order_payload u od cart) = inr row ->
  exists t,
    to_decimal (order_total cart) = inr t
    /\ (0 <= t)%Z
    /\ faults s InsertOrder = None
    /\ row = placed_row s u od t.
Proof.
  intros Hu. unfold accept_order, order_payload.
  cbn [ins_total_amount ins_customer_id ins_status ins_shipping_address].
  destruct (faults s InsertOrder); [discriminate |].
  destruct (to_decimal (order_total cart)) as [c | t]; [discriminate |].
  rewrite Hu. cbn [visible]. unfold owned_by. cbn [customer_id].
  rewrite String.eqb_refl. cbn [negb].
  destruct (Z.ltb_spec t 0); [discriminate |].
  cbn. intros E. injection E as <-. exists t. repeat split; assumption.
Qed.

Lemma exists_matches_fresh who (os : list Order) (k : nat) (f : Order -> bool) :
  Forall (fun o => id o < k) os ->
  existsb (fun o => matches who k o && f o) os = false.
Proof.
  induction 1 as [| o os Ho _ IH]; [reflexivity |].
  cbn. now rewrite (matches_fresh who k o Ho), IH.
Qed.

Lemma map_matches_fresh who (os : list Order) (k : nat) (f : Order -> Order) :
  Forall (fun o => id o < k) os ->
  map (fun o => if matches who k o then f o else o) os = os.
Proof.
  induction 1 as [| o os Ho _ IH]; [reflexivity |].
  cbn. now rewrite (matches_fresh who k o Ho), IH.
Qed.

(** One run of the total trigger on the order just placed. *)
Lemma validate_settles who items stamp (old : list Order) (row : Order) k T :
  Forall (fun o => id o < k) old ->
  matches who k row = true ->
  calculate_order_total items k = T ->
  (0 <= T < cents_limit)%Z ->
  validate_order_total who items stamp (old ++ [row]) k
  = inr (old ++ [if (total_amount row =? T)%Z then row
                 else with_total T stamp row]).
Proof.
  intros Hold Hm HT Hrange. unfold validate_order_total. rewrite HT.
  rewrite Z.abs_eq by lia.
  destruct (Z.leb_spec cents_limit T); [lia |].
  rewrite existsb_app, (exists_matches_fresh who old k _ Hold).
  cbn [existsb orb]. rewrite Hm. cbn [andb]. rewrite orb_false_r.
  destruct (total_amount row =? T)%Z; cbn [negb]; [reflexivity |].
  destruct (Z.ltb_spec T 0); [lia |].
  rewrite map_app, (map_matches_fresh who old k _ Hold).
  cbn [map]. now rewrite Hm.
Qed.

(** The trigger runs once per line; after the first run nothing changes. *)
Lemma run_total_triggers_settle who items stamp (old : list Order) k T
    (ls : list Line) :
  Forall (fun o => id o < k) old ->
  calculate_order_total items k = T ->
  (0 <= T < cents_limit)%Z ->
  forall row,
    matches who k row = true ->
    run_total_triggers who items stamp (old ++ [row]) (map (fun _ => k) ls)
    = inr (old ++ [match ls with
                   | [] => row
                   | _ => if (total_amount row =? T)%Z then row
                          else with_total T stamp row
                   end]).
Proof.
  intros Hold HT Hrange.
  induction ls as [| l ls IH]; intros row Hm; [reflexivity |].
  cbn [map run_total_triggers].
  rewrite (validate_settles who items stamp old row k T Hold Hm HT Hrange).
  rewrite IH.
  - destruct ls; [reflexivity |].
    destruct (total_amount row =? T)%Z eqn:E; [now rewrite E |].
    cbn [with_total total_amount]. now rewrite Z.eqb_refl.
  - now destruct (total_amount row =? T)%Z.
Qed.

Lemma accept_items_placed s u p row cart ls :
  session s = Some u ->
  fresh_ids s ->
  faults s InsertOrderItems = None ->
  read_cart (products s) cart = inr ls ->
  (sum_lines ls < cents_limit)%Z ->
  id row = next_order_id s ->
  customer_id row = user_id u ->
  accept_items (order_inserted s p row) (items_payload (next_order_id s) cart)
  = inr (placed_items s ls, orders s ++ [settled_row ls (S (now s)) row]).
Proof.
  intros Hu [Ho Hi] Hf Hr Hlim Hid Hc.
  assert (Hm : matches (Some u) (next_order_id s) row = true).
  { unfold matches, has_id, visible, owned_by.
    now rewrite Hid, Hc, Nat.eqb_refl, String.eqb_refl. }
  unfold accept_items.
  cbn [order_inserted record set_tables faults products session orders
       order_items next_item_id now].
  rewrite Hf, coerce_lines_payload, Hr, Hu.
  assert (Hall : forallb (fun kl : OrderId * Line =>
                            existsb (matches (Some u) (fst kl)) (orders s ++ [row]))
                         (map (pair (next_order_id s)) ls) = true).
  { apply forallb_forall. intros [k l] Hin. apply in_map_iff in Hin.
    destruct Hin as [l' [E _]]. injection E as <- _. cbn [fst].
    rewrite existsb_app. cbn. now rewrite Hm, orb_true_r. }
  rewrite Hall. cbn [negb].
  fold (placed_items s ls). unfold placed_items at 2.
  rewrite item_rows_order_id.
  rewrite (run_total_triggers_settle (Some u) _ (S (now s)) (orders s)
             (next_order_id s) (sum_lines ls) ls Ho); [reflexivity | | | exact Hm].
  - unfold calculate_order_total, placed_items.
    rewrite filter_app, (filter_belongs_fresh _ _ Hi), item_rows_belong.
    apply item_rows_sum.
  - split; [now apply (sum_lines_nonneg (products s) cart) | exact Hlim].
Qed.

(** ** How [getOrderById] runs *)

Lemma getOrderById_found k s o :
  faults s SelectOrderById = None ->
  lookup_order (session s) (orders s) k = Some o ->
  getOrderById k s =
    (record (Sent (GetOrder k)) s,
     inr (ok (mkOrderWithItems o (filter (belongs_to k) (order_items s))))).
Proof.
  intros Hf Hl. unfold getOrderById, try_catch, bind, select_order_by_id.
  rewrite Hf, Hl. reflexivity.
Qed.

Lemma getOrderById_missing k s :
  faults s SelectOrderById = None ->
  lookup_order (session s) (orders s) k = None ->
  getOrderById k s =
    (record (Printed "Error fetching order:" (DbError PGRST116))
            (record (Sent (GetOrder k)) s),
     inr (failed (DbError PGRST116))).
Proof.
  intros Hf Hl. unfold getOrderById, try_catch, bind, select_order_by_id.
  rewrite Hf, Hl. reflexivity.
Qed.

Lemma getOrderById_refused k s c :
  faults s SelectOrderById = Some c ->
  getOrderById k s =
    (record (Printed "Error fetching order:" (DbError c))
            (record (Sent (GetOrder k)) s),
     inr (failed (DbError c))).
Proof.
  intros Hf. unfold getOrderById, try_catch, bind, select_order_by_id.
  rewrite Hf. reflexivity.
Qed.

(** Reading returns a result, writes to no relation and sends no order. *)
Lemma getOrderById_reads k s :
  exists s' r,
    getOrderById k s = (s', inr r)
    /\ orders s' = orders s
    /\ order_items s' = order_items s
    /\ sent_totals (trace s') = sent_totals (trace s).
Proof.
  destruct (faults s SelectOrderById) as [c |] eqn:Hf.
  - rewrite (getOrderById_refused _ _ _ Hf). do 2 eexists.
    split; [reflexivity |]. repeat split.
  - destruct (lookup_order (session s) (orders s) k) as [o |] eqn:Hl.
    + rewrite (getOrderById_found _ _ _ Hf Hl). do 2 eexists.
      split; [reflexivity |]. repeat split.
    + rewrite (getOrderById_missing _ _ Hf Hl). do 2 eexists.
      split; [reflexivity |]. repeat split.
Qed.

(** ** How [createOrder] runs *)

Lemma createOrder_unauthenticated od cart s :
  session s = None ->
  createOrder od cart s =
    (record (Printed "Error creating order:" (JsError unauthenticated_message)) s,
     inr (failed (JsError unauthenticated_message))).
Proof.
  intros H. unfold createOrder, try_catch, bind, auth_getUser. rewrite H.
  reflexivity.
Qed.

Lemma createOrder_order_refused od cart s u c :
  session s = Some u ->
  accept_order s (order_payload u od cart) = inl c ->
  createOrder od cart s =
    (record (Printed "Error creating order:" (DbError c))
            (record (Sent (PostOrder (order_payload u od cart))) s),
     inr (failed (DbError c))).
Proof.
  intros Hu Ha.
  unfold createOrder, try_catch, bind, auth_getUser, insert_order.
  rewrite Hu. fold (order_total cart). fold (order_payload u od cart).
  rewrite Ha. reflexivity.
Qed.

Lemma createOrder_items_refused od cart s u row c :
  session s = Some u ->
  accept_order s (order_payload u od cart) = inr row ->
  accept_items (order_inserted s (order_payload u od cart) row)
               (items_payload (id row) cart) = inl c ->
  createOrder od cart s =
    (record (Printed "Error creating order:" (DbError c))
            (record (Sent (PostOrderItems (items_payload (id row) cart)))
                    (order_inserted s (order_payload u od cart) row)),
     inr (failed (DbError c))).
Proof.
  intros Hu Ha Hi.
  unfold createOrder, try_catch, bind, auth_getUser, insert_order,
    insert_order_items.
  rewrite Hu. fold (order_total cart). fold (order_payload u od cart).
  rewrite Ha. cbn [err ok data throw_if_error ret].
  fold (items_payload (id row) cart).
  fold (order_inserted s (order_payload u od cart) row).
  rewrite Hi. reflexivity.
Qed.

Lemma createOrder_inserted od cart s u row rows os :
  session s = Some u ->
  accept_order s (order_payload u od cart) = inr row ->
  accept_items (order_inserted s (order_payload u od cart) row)
               (items_payload (id row) cart) = inr (rows, os) ->
  createOrder od cart s =
    getOrderById (id row)
      (items_inserted (order_inserted s (order_payload u od cart) row)
                      (items_payload (id row) cart) rows os).
Proof.
  intros Hu Ha Hi.
  unfold createOrder, try_catch at 1, bind, auth_getUser, insert_order,
    insert_order_items.
  rewrite Hu. fold (order_total cart). fold (order_payload u od cart).
  rewrite Ha. cbn [err ok data throw_if_error ret].
  fold (items_payload (id row) cart).
  fold (order_inserted s (order_payload u od cart) row).
  rewrite Hi. cbn [err data throw_if_error ret].
  fold (items_inserted (order_inserted s (order_payload u od cart) row)
          (items_payload (id row) cart) rows os).
  destruct (getOrderById_reads (id row)
              (items_inserted (order_inserted s (order_payload u od cart) row)
                 (items_payload (id row) cart) rows os))
    as [s' [r [E _]]].
  now rewrite E.
Qed.

(** What a placement by an authenticated principal leaves behind, by the
    answers of the backend to the two inserts. *)
Lemma createOrder_outcome od cart s u :
  session s = Some u ->
  exists s' r,
    createOrder od cart s = (s', inr r)
    /\ sent_totals (trace s') = order_total cart :: sent_totals (trace s)
    /\ match accept_order s (order_payload u od cart) with
       | inl c =>
           r = failed (DbError c)
           /\ orders s' = orders s
           /\ order_items s' = order_items s
       | inr row =>
           match accept_items (order_inserted s (order_payload u od cart) row)
                              (items_payload (id row) cart) with
           | inl c =>
               r = failed (DbError c)
               /\ orders s' = orders s ++ [row]
               /\ order_items s' = order_items s
           | inr (rows, os) =>
               orders s' = os
               /\ order_items s' = order_items s ++ rows
           end
       end.
Proof.
  intros Hu.
  destruct (accept_order s (order_payload u od cart)) as [c | row] eqn:Ha.
  - rewrite (createOrder_order_refused od cart s u c Hu Ha).
    do 2 eexists. split; [reflexivity |]. repeat split.
  - destruct (accept_items _ _) as [c | [rows os]] eqn:Hi.
    + rewrite (createOrder_items_refused od cart s u row c Hu Ha Hi).
      do 2 eexists. split; [reflexivity |]. repeat split.
    + rewrite (createOrder_inserted od cart s u row rows os Hu Ha Hi).
      destruct (getOrderById_reads (id row)
                  (items_inserted (order_inserted s (order_payload u od cart) row)
                     (items_payload (id row) cart) rows os))
        as [s' [r [E [Ho [Hit Ht]]]]].
      exists s', r. split; [exact E |].
      rewrite Ht, Ho, Hit. repeat split.
Qed.

Lemma settled_row_matches who k ls stamp row :
  matches who k (settled_row ls stamp row) = matches who k row.
Proof.
  unfold settled_row. destruct ls; [reflexivity |].
  now destruct (total_amount row =? _)%Z.
Qed.

Lemma lookup_last who (old : list Order) (row : Order) k :
  Forall (fun o => id o < k) old ->
  matches who k row = true ->
  lookup_order who (old ++ [row]) k = Some row.
Proof.
  intros Hold Hm. unfold lookup_order.
  rewrite filter_app, (filter_matches_fresh who old k Hold). cbn.
  now rewrite Hm.
Qed.

(** A placement in which every request is accepted returns the order as
    read back: the placed row after the total trigger, with its items. *)
Lemma createOrder_success od cart s u t ls :
  session s = Some u ->
  fresh_ids s ->
  faults s InsertOrder = None ->
  faults s InsertOrderItems = None ->
  faults s SelectOrderById = None ->
  to_decimal (order_total cart) = inr t ->
  (0 <= t)%Z ->
  read_cart (products s) cart = inr ls ->
  (sum_lines ls < cents_limit)%Z ->
  exists s',
    createOrder od cart s =
      (s', inr (ok (mkOrderWithItems
                      (settled_row ls (S (now s)) (placed_row s u od t))
                      (placed_items s ls))))
    /\ session s' = session s
    /\ orders s' = orders s ++ [settled_row ls (S (now s)) (placed_row s u od t)]
    /\ order_items s' = order_items s ++ placed_items s ls.
Proof.
  intros Hu Hw Hf Hg Hh Ht Hpos Hr Hlim.
  pose proof (accept_order_placed s u od cart t Hu Hf Ht Hpos) as Ha.
  pose proof (accept_items_placed s u (order_payload u od cart)
                (placed_row s u od t) cart ls Hu Hw Hg Hr Hlim eq_refl eq_refl)
    as Hi.
  rewrite (createOrder_inserted od cart s u _ _ _ Hu Ha Hi).
  destruct Hw as [Ho Hit].
  rewrite (getOrderById_found _ _
             (settled_row ls (S (now s)) (placed_row s u od t))).
  - eexists. split.
    + cbn [items_inserted order_inserted record set_tables order_items id
           placed_row].
      rewrite filter_app, (filter_belongs_fresh _ _ Hit).
      unfold placed_items. rewrite item_rows_belong. reflexivity.
    + repeat split.
  - exact Hh.
  - cbn [items_inserted order_inserted record set_tables session orders id
         placed_row].
    apply lookup_last; [exact Ho |].
    rewrite settled_row_matches, Hu. unfold matches, has_id, visible, owned_by.
    cbn. now rewrite Nat.eqb_refl, String.eqb_refl.
Qed.

(** ** How [updateOrderStatus] runs *)

Lemma updateOrderStatus_invalid k st s :
  includes validStatuses st = false ->
  updateOrderStatus k st s =
    (record (Printed "Error updating order status:"
                     (JsError invalid_status_message)) s,
     inr (failed (JsError invalid_status_message))).
Proof.
  intros H. unfold updateOrderStatus, try_catch. rewrite H. reflexivity.
Qed.

Lemma updateOrderStatus_refused k st s c :
  includes validStatuses st = true ->
  accept_update s k st = inl c ->
  updateOrderStatus k st s =
    (record (Printed "Error updating order status:" (DbError c))
            (record (Sent (PatchOrderStatus k st)) s),
     inr (failed (DbError c))).
Proof.
  intros H Ha. unfold updateOrderStatus, try_catch, bind, update_order_status.
  rewrite H. cbn [negb]. rewrite Ha. reflexivity.
Qed.

Lemma updateOrderStatus_applied k st s row :
  includes validStatuses st = true ->
  accept_update s k st = inr row ->
  updateOrderStatus k st s =
    (record (Sent (PatchOrderStatus k st))
            (set_tables s (update_rows (session s) k st (now s) (orders s))
                        (order_items s) (next_order_id s) (next_item_id s)),
     inr (ok row)).
Proof.
  intros H Ha. unfold updateOrderStatus, try_catch, bind, update_order_status.
  rewrite H. cbn [negb]. rewrite Ha. reflexivity.
Qed.

Lemma updateOrderStatus_returns k st s :
  exists s' r, updateOrderStatus k st s = (s', inr r).
Proof.
  destruct (includes validStatuses st) eqn:H.
  - destruct (accept_update s k st) as [c | row] eqn:Ha.
    + rewrite (updateOrderStatus_refused _ _ _ _ H Ha). eauto.
    + rewrite (updateOrderStatus_applied _ _ _ _ H Ha). eauto.
  - rewrite (updateOrderStatus_invalid _ _ _ H). eauto.
Qed.

(** The backend accepts the update of a valid status name exactly when it
    can be reached and the order is there. *)
Lemma accept_update_inr s k st row :
  includes validStatuses st = true ->
  accept_update s k st = inr row <->
  faults s UpdateOrderStatus = None
  /\ exists o, lookup_order (session s) (orders s) k = Some o
               /\ row = with_status st (now s) o.
Proof.
  intros H. unfold accept_update.
  change (includes status_domain st) with (includes validStatuses st).
  rewrite H. cbn [negb].
  destruct (faults s UpdateOrderStatus) as [c |].
  - split; [discriminate | intros [E _]; discriminate E].
  - destruct (lookup_order (session s) (orders s) k) as [o |].
    + split.
      * intros E. injection E as <-. split; [reflexivity |]. eauto.
      * intros [_ [o' [E ->]]]. now injection E as <-.
    + split; [discriminate | intros [_ [o' [E _]]]; discriminate E].
Qed.

Lemma matches_with_status who k st stamp o :
  matches who k (with_status st stamp o) = matches who k o.
Proof. reflexivity. Qed.

Lemma filter_update_rows who (k k' : OrderId) (st : string) (stamp : nat)
    (os : list Order) :
  filter (matches who k') (update_rows who k st stamp os)
  = map (fun o => if matches who k o then with_status st stamp o else o)
        (filter (matches who k') os).
Proof.
  unfold update_rows. induction os as [| o os IH]; [reflexivity |].
  cbn [map filter].
  assert (E : matches who k' (if matches who k o then with_status st stamp o else o)
              = matches who k' o) by (destruct (matches who k o); reflexivity).
  rewrite E. destruct (matches who k' o); cbn [map]; now rewrite IH.
Qed.

Lemma lookup_order_matches who os k o :
  lookup_order who os k = Some o -> matches who k o = true /\ In o os.
Proof.
  unfold lookup_order. intros H.
  destruct (filter (matches who k) os) as [| o' [| o'' rest]] eqn:E;
    try discriminate.
  injection H as ->.
  assert (Hin : In o (filter (matches who k) os)) by (rewrite E; now left).
  apply filter_In in Hin. tauto.
Qed.

(** After an update the row reads back with the new status and stamp. *)
Lemma lookup_updated who os k st stamp o :
  lookup_order who os k = Some o ->
  lookup_order who (update_rows who k st stamp os) k
  = Some (with_status st stamp o).
Proof.
  intros H. destruct (lookup_order_matches _ _ _ _ H) as [Hm _].
  unfold lookup_order in *. rewrite filter_update_rows.
  destruct (filter (matches who k) os) as [| o' [| o'' rest]]; try discriminate.
  injection H as ->. cbn. now rewrite Hm.
Qed.

(** Rows with another identifier are not touched. *)
Lemma lookup_other_updated who os k k' st stamp :
  k' <> k ->
  lookup_order who (update_rows who k st stamp os) k' = lookup_order who os k'.
Proof.
  intros Hne. unfold lookup_order. rewrite filter_update_rows.
  assert (E : map (fun o => if matches who k o then with_status st stamp o else o)
                  (filter (matches who k') os) = filter (matches who k') os).
  { induction os as [| o os IH]; [reflexivity |].
    cbn [filter]. destruct (matches who k' o) eqn:Hk'; [| exact IH].
    cbn [map]. rewrite IH. unfold matches, has_id in *.
    apply andb_prop in Hk'. destruct Hk' as [Hk' _].
    apply Nat.eqb_eq in Hk'.
    destruct (Nat.eqb_spec (id o) k); [congruence | reflexivity]. }
  now rewrite E.
Qed.

(** ** How [cancelOrder] runs *)

Lemma cancelOrder_read_refused k s c :
  faults s SelectOrderById = Some c ->
  cancelOrder k s =
    (record (Printed "Error cancelling order:" (JsError "Order not found"))
            (record (Printed "Error fetching order:" (DbError c))
                    (record (Sent (GetOrder k)) s)),
     inr (failed (JsError "Order not found"))).
Proof.
  intros Hf. unfold cancelOrder, try_catch at 1, bind at 1.
  rewrite (getOrderById_refused _ _ _ Hf). reflexivity.
Qed.

Lemma cancelOrder_missing k s :
  faults s SelectOrderById = None ->
  lookup_order (session s) (orders s) k = None ->
  cancelOrder k s =
    (record (Printed "Error cancelling order:" (JsError "Order not found"))
            (record (Printed "Error fetching order:" (DbError PGRST116))
                    (record (Sent (GetOrder k)) s)),
     inr (failed (JsError "Order not found"))).
Proof.
  intros Hf Hl. unfold cancelOrder, try_catch at 1, bind at 1.
  rewrite (getOrderById_missing _ _ Hf Hl). reflexivity.
Qed.

Lemma cancelOrder_rejected k s o :
  faults s SelectOrderById = None ->
  lookup_order (session s) (orders s) k = Some o ->
  includes cancellable (status o) = false ->
  cancelOrder k s =
    (record (Printed "Error cancelling order:" (JsError not_cancellable_message))
            (record (Sent (GetOrder k)) s),
     inr (failed (JsError not_cancellable_message))).
Proof.
  intros Hf Hl Hc. unfold cancelOrder, try_catch at 1, bind at 1.
  rewrite (getOrderById_found _ _ _ Hf Hl). cbn [data ok order_row].
  rewrite Hc. reflexivity.
Qed.

Lemma cancelOrder_passes_guard k s o :
  faults s SelectOrderById = None ->
  lookup_order (session s) (orders s) k = Some o ->
  includes cancellable (status o) = true ->
  cancelOrder k s
  = updateOrderStatus k "cancelled" (record (Sent (GetOrder k)) s).
Proof.
  intros Hf Hl Hc. unfold cancelOrder, try_catch at 1, bind at 1.
  rewrite (getOrderById_found _ _ _ Hf Hl). cbn [data ok order_row].
  rewrite Hc. cbn [negb].
  destruct (updateOrderStatus_returns k "cancelled" (record (Sent (GetOrder k)) s))
    as [s' [r E]].
  now rewrite E.
Qed.

Lemma cancellable_status (st : string) :
  includes cancellable st = true <-> st = "pending" \/ st = "processing".
Proof.
  rewrite includes_In. unfold cancellable. cbn [In]. intuition congruence.
Qed.

(** ** How [getOrderStats] runs *)

Lemma filter_own (uid : string) (u : User) (os : list Order) :
  user_id u = uid ->
  filter (fun o => owned_by uid o && visible (Some u) o) os
  = filter (owned_by uid) os.
Proof.
  intros <-. apply filter_ext. intros o. cbn. apply andb_diag.
Qed.

Lemma getOrderStats_run s u :
  session s = Some u ->
  faults s SelectOrdersByCustomer = None ->
  getOrderStats s =
    (record (Sent (GetOrders (user_id u))) s,
     inr (ok (let rows := filter (owned_by (user_id u)) (orders s) in
              mkOrderStats
                (List.length rows)
                (fold_left (fun sum order => add sum (parseFloat (js_total_amount order)))
                           rows zero)
                (count_status "pending" rows)
                (count_status "processing" rows)
                (count_status "shipped" rows)
                (count_status "delivered" rows)
                (count_status "cancelled" rows)))).
Proof.
  intros Hu Hf.
  unfold getOrderStats, try_catch, bind, auth_getUser, select_orders_by_customer.
  rewrite Hu, Hf. cbn [err ok data throw_if_error ret]. rewrite Hu.
  rewrite (filter_own (user_id u) u (orders s) eq_refl). reflexivity.
Qed.

(** Every row with one of the five statuses is counted exactly once. *)
Lemma count_status_partition (rows : list Order) :
  Forall (fun o => In (status o) validStatuses) rows ->
  count_status "pending" rows + count_status "processing" rows
  + count_status "shipped" rows + count_status "delivered" rows
  + count_status "cancelled" rows
  = List.length rows.
Proof.
  unfold count_status.
  induction 1 as [| o rows Ho _ IH]; [reflexivity |].
  cbn [filter List.length].
  unfold validStatuses in Ho. cbn [In] in Ho.
  destruct Ho as [E | [E | [E | [E | [E | []]]]]];
    rewrite <- E; cbn; lia.
Qed.

(** ** Sample computations *)

(** The literals denote the binary64 values a JavaScript engine reads:
    [89.99 = 0x1.67f5c28f5c28fp+6] and [379.97 = 0x1.7bf851eb851ecp+8]. *)
Example literal_89_99 :
  of_decimal 8999 100 = S754_finite false 6332483288547983 (-46).
Proof. vm_compute. reflexivity. Qed.

Example literal_379_97 :
  of_decimal 37997 100 = S754_finite false 6684502931296748 (-44).
Proof. vm_compute. reflexivity. Qed.

(** How the columns read some numbers: amounts, a half cent (rounded away
    from zero, also when the binary value lies just below it), a fraction
    for an integer column, an amount too large for [DECIMAL(10,2)]. *)
Example columns_read :
  to_decimal (of_decimal 8999 100) = inr 8999%Z
  /\ to_decimal (of_decimal 125 1000) = inr 13%Z
  /\ to_decimal (of_decimal 145 1000) = inr 15%Z
  /\ to_decimal (of_Z 100000000) = inl numeric_value_out_of_range
  /\ to_integer (of_Z 2) = inr 2%Z
  /\ to_integer (of_decimal 25 10) = inl invalid_text_representation.
Proof. vm_compute. repeat split. Qed.

Example fresh_ids_empty_shop : fresh_ids empty_shop.
Proof. split; constructor. Qed.

(** ** Order placement *)

(** C8. With no authenticated principal [createOrder] returns (does not
    throw) the result [{ data: null, error }] whose error is the
    authentication error; no request is sent and neither relation gains a
    row. *)
Theorem createOrder_unauthorized od cart s :
  session s = None ->
  exists s',
    createOrder od cart s =
      (s', inr (failed (JsError "User must be authenticated to create an order")))
    /\ orders s' = orders s
    /\ order_items s' = order_items s
    /\ trace s'
       = Printed "Error creating order:"
                 (JsError "User must be authenticated to create an order")
         :: trace s.
Proof.
  intros H. rewrite (createOrder_unauthenticated od cart s H).
  eexists. split; [reflexivity |]. repeat split.
Qed.

Lemma createOrder_unauthorized_witness :
  session no_session = None
  /\ exists s',
       createOrder main_street cartA no_session =
         (s', inr (failed (JsError "User must be authenticated to create an order")))
       /\ orders s' = orders no_session
       /\ order_items s' = order_items no_session
       /\ trace s'
          = Printed "Error creating order:"
                    (JsError "User must be authenticated to create an order")
            :: trace no_session.
Proof.
  split; [reflexivity |].
  apply (createOrder_unauthorized main_street cartA no_session). reflexivity.
Defined.

(** C2, as stated, fails: for an authenticated principal with an empty
    cart [createOrder] succeeds and leaves an order row behind. *)
Lemma empty_cart_is_accepted : ~ rejects_empty_cart empty_shop main_street.
Proof.
  intros [s' [r [E [Herr _]]]].
  vm_compute in E. injection E as _ <-. now apply Herr.
Qed.

(** The run behind it: one order row with total 0, no line item, and the
    call succeeds. *)
Example empty_cart_placed :
  exists s' o,
    createOrder main_street [] empty_shop = (s', inr (ok o))
    /\ orders s' = [order_row o]
    /\ total_amount (order_row o) = 0%Z
    /\ order_items_of o = []
    /\ order_items s' = [].
Proof. do 2 eexists. vm_compute. repeat split. Qed.

(** C2, amended. [createOrder] has no check on the cart: with an empty cart
    and an authenticated principal, once the order insert goes through the
    [orders] relation holds a new row of the principal with total 0 and
    status pending, no line item is added, and when the later requests go
    through as well the call succeeds with that order and no items. *)
Theorem createOrder_empty_cart od s u :
  session s = Some u ->
  faults s InsertOrder = None ->
  exists s' r row,
    createOrder od [] s = (s', inr r)
    /\ orders s' = orders s ++ [row]
    /\ total_amount row = 0%Z
    /\ status row = "pending"
    /\ customer_id row = user_id u
    /\ order_items s' = order_items s
    /\ (faults s InsertOrderItems = None ->
        faults s SelectOrderById = None ->
        fresh_ids s ->
        r = ok (mkOrderWithItems row [])).
Proof.
  intros Hu Hf.
  assert (Ha : accept_order s (order_payload u od []) = inr (placed_row s u od 0%Z))
    by (apply accept_order_placed; [assumption | assumption | reflexivity | lia]).
  destruct (createOrder_outcome od [] s u Hu) as [s' [r [E [_ Hout]]]].
  rewrite Ha in Hout.
  exists s', r, (placed_row s u od 0%Z).
  split; [exact E |].
  assert (Htab : orders s' = orders s ++ [placed_row s u od 0%Z]
                 /\ order_items s' = order_items s).
  { revert Hout. unfold accept_items.
    cbn [order_inserted record set_tables faults products session orders
         order_items next_item_id now items_payload map coerce_lines forallb
         negb item_rows run_total_triggers].
    destruct (faults s InsertOrderItems).
    - intros (_ & Ho & Hi). now split.
    - intros (Ho & Hi). split; [exact Ho |]. now rewrite Hi, app_nil_r. }
  destruct Htab as [Ho Hi].
  split; [exact Ho |]. split; [reflexivity |]. split; [reflexivity |].
  split; [reflexivity |]. split; [exact Hi |].
  intros Hg Hh Hw.
  destruct (createOrder_success od [] s u 0%Z [] Hu Hw Hf Hg Hh eq_refl
              (Z.le_refl 0) eq_refl eq_refl) as [s'' [E' _]].
  rewrite E in E'. now injection E' as _ ->.
Qed.

Lemma createOrder_empty_cart_witness :
  session empty_shop = Some alice
  /\ faults empty_shop InsertOrder = None
  /\ exists s' r row,
       createOrder main_street [] empty_shop = (s', inr r)
       /\ orders s' = orders empty_shop ++ [row]
       /\ total_amount row = 0%Z
       /\ status row = "pending"
       /\ customer_id row = user_id alice
       /\ order_items s' = order_items empty_shop
       /\ (faults empty_shop InsertOrderItems = None ->
           faults empty_shop SelectOrderById = None ->
           fresh_ids empty_shop ->
           r = ok (mkOrderWithItems row [])).
Proof.
  split; [reflexivity |]. split; [reflexivity |].
  apply (createOrder_empty_cart main_street empty_shop alice); reflexivity.
Defined.

(** C3, as stated, fails: when the line-item insert is refused (here a
    product that is not in the catalog) the order row inserted just before
    stays in [orders]. *)
Lemma orphan_order_remains :
  ~ placement_is_atomic empty_shop main_street cart_unknown_product.
Proof.
  intros H. edestruct H as [Ho _].
  - vm_compute. reflexivity.
  - cbn. discriminate.
  - discriminate Ho.
Qed.

(** The run behind it: the call fails with the foreign-key error and the
    order row is there, without line items. *)
Example unknown_product_placed :
  exists s',
    createOrder main_street cart_unknown_product empty_shop
    = (s', inr (failed (DbError foreign_key_violation)))
    /\ orders s' = [placed_row empty_shop alice main_street 37997]
    /\ order_items s' = [].
Proof. eexists. vm_compute. repeat split. Qed.

(** C3, amended. A refused insert makes [createOrder] return
    [{ data: null, error }] with the backend's error. When it is the order
    insert, neither relation has changed; when the order insert went
    through and the line-item insert is refused, no line item is stored
    and the order row just inserted stays in [orders]: nothing removes
    it. *)
Theorem createOrder_persistence_failure od cart s u :
  session s = Some u ->
  (forall c,
     accept_order s (order_payload u od cart) = inl c ->
     exists s',
       createOrder od cart s = (s', inr (failed (DbError c)))
       /\ orders s' = orders s
       /\ order_items s' = order_items s)
  /\ (forall row c,
        accept_order s (order_payload u od cart) = inr row ->
        accept_items (order_inserted s (order_payload u od cart) row)
                     (items_payload (id row) cart) = inl c ->
        exists s',
          createOrder od cart s = (s', inr (failed (DbError c)))
          /\ orders s' = orders s ++ [row]
          /\ order_items s' = order_items s
          /\ customer_id row = user_id u
          /\ status row = "pending").
Proof.
  intros Hu. split.
  - intros c Ha. rewrite (createOrder_order_refused od cart s u c Hu Ha).
    eexists. split; [reflexivity |]. split; reflexivity.
  - intros row c Ha Hi.
    rewrite (createOrder_items_refused od cart s u row c Hu Ha Hi).
    eexists. split; [reflexivity |]. split; [reflexivity |].
    split; [reflexivity |].
    destruct (accept_order_inr s u od cart row Hu Ha) as (t & _ & _ & _ & ->).
    split; reflexivity.
Qed.

Lemma createOrder_persistence_failure_witness :
  (session unreachable_shop = Some alice
   /\ accept_order unreachable_shop (order_payload alice main_street cartA)
      = inl "503"
   /\ exists s',
        createOrder main_street cartA unreachable_shop
        = (s', inr (failed (DbError "503")))
        /\ orders s' = orders unreachable_shop
        /\ order_items s' = order_items unreachable_shop)
  /\ (session empty_shop = Some alice
      /\ accept_order empty_shop (order_payload alice main_street cart_unknown_product)
         = inr (placed_row empty_shop alice main_street 37997)
      /\ accept_items
           (order_inserted empty_shop
              (order_payload alice main_street cart_unknown_product)
              (placed_row empty_shop alice main_street 37997))
           (items_payload 0 cart_unknown_product)
         = inl foreign_key_violation
      /\ exists s',
           createOrder main_street cart_unknown_product empty_shop
           = (s', inr (failed (DbError foreign_key_violation)))
           /\ orders s' = orders empty_shop
                          ++ [placed_row empty_shop alice main_street 37997]
           /\ order_items s' = order_items empty_shop
           /\ customer_id (placed_row empty_shop alice main_street 37997)
              = user_id alice
           /\ status (placed_row empty_shop alice main_street 37997) = "pending").
Proof.
  split.
  - split; [reflexivity |]. split; [reflexivity |].
    apply (proj1 (createOrder_persistence_failure main_street cartA
                    unreachable_shop alice eq_refl)).
    reflexivity.
  - split; [reflexivity |].
    split; [vm_compute; reflexivity |]. split; [vm_compute; reflexivity |].
    apply (proj2 (createOrder_persistence_failure main_street cart_unknown_product
                    empty_shop alice eq_refl));
      vm_compute; reflexivity.
Defined.

Lemma Forall2_compose {A B C : Type} (P : A -> B -> Prop) (Q : B -> C -> Prop)
    (R : A -> C -> Prop) (la : list A) (lb : list B) (lc : list C) :
  (forall a b c, P a b -> Q b c -> R a c) ->
  Forall2 P la lb -> Forall2 Q lb lc -> Forall2 R la lc.
Proof.
  intros HR HP. revert lc.
  induction HP as [| a b la lb Hab _ IH]; intros lc HQ; inversion HQ; subst;
    constructor; eauto.
Qed.

(** The rows an accepted placement of a non-empty cart leaves. *)
Lemma placement_rows_total od cart s u t ls :
  cart <> [] ->
  session s = Some u ->
  fresh_ids s ->
  faults s InsertOrder = None ->
  faults s InsertOrderItems = None ->
  to_decimal (order_total cart) = inr t ->
  (0 <= t)%Z ->
  read_cart (products s) cart = inr ls ->
  (sum_lines ls < cents_limit)%Z ->
  exists s' r row,
    createOrder od cart s = (s', inr r)
    /\ orders s' = orders s ++ [row]
    /\ total_amount row = sum_lines ls.
Proof.
  intros Hne Hu Hw Hf Hg Ht Hpos Hr Hlim.
  pose proof (accept_order_placed s u od cart t Hu Hf Ht Hpos) as Ha.
  pose proof (accept_items_placed s u (order_payload u od cart)
                (placed_row s u od t) cart ls Hu Hw Hg Hr Hlim eq_refl eq_refl)
    as Hi.
  destruct (createOrder_outcome od cart s u Hu) as [s' [r [E [_ Hout]]]].
  rewrite Ha in Hout. cbn [id placed_row] in Hout. rewrite Hi in Hout.
  destruct Hout as [Ho _].
  exists s', r, (settled_row ls (S (now s)) (placed_row s u od t)).
  split; [exact E |]. split; [exact Ho |].
  unfold settled_row. destruct ls as [| l ls'].
  - exfalso. apply Hne. now apply (read_cart_nil (products s)).
  - destruct (total_amount (placed_row s u od t) =? sum_lines (l :: ls'))%Z eqn:Et;
      [now apply Z.eqb_eq in Et | reflexivity].
Qed.

(** C4. For a non-empty cart of whole quantities and unit prices in cents,
    once the backend has accepted both inserts, [createOrder] has stored
    one new order row of the principal with status pending and one line
    item per cart line, in order, each holding exactly the quantity and
    the unit price the caller passed for that line (the catalog is not
    asked for a price); the stored total is the sum of quantity times unit
    price over those lines. *)
Theorem createOrder_stores_total od cart s u t ls :
  cart <> [] ->
  Forall2 (fun item l =>
             cart_quantity item = of_Z (line_quantity l)
             /\ cart_price item = of_cents (line_price l))
          cart ls ->
  session s = Some u ->
  fresh_ids s ->
  faults s InsertOrder = None ->
  faults s InsertOrderItems = None ->
  to_decimal (order_total cart) = inr t ->
  (0 <= t)%Z ->
  read_cart (products s) cart = inr ls ->
  (sum_lines ls < cents_limit)%Z ->
  exists s' r row items,
    createOrder od cart s = (s', inr r)
    /\ orders s' = orders s ++ [row]
    /\ order_items s' = order_items s ++ items
    /\ status row = "pending"
    /\ customer_id row = user_id u
    /\ Forall2 (fun item it =>
                  order_id it = id row
                  /\ cart_quantity item = of_Z (quantity it)
                  /\ cart_price item = of_cents (price_at_time it))
               cart items
    /\ total_amount row = sum_items items
    /\ total_amount row = sum_lines ls.
Proof.
  intros Hne Hamt Hu Hw Hf Hg Ht Hpos Hr Hlim.
  pose proof (accept_order_placed s u od cart t Hu Hf Ht Hpos) as Ha.
  pose proof (accept_items_placed s u (order_payload u od cart)
                (placed_row s u od t) cart ls Hu Hw Hg Hr Hlim eq_refl eq_refl)
    as Hi.
  destruct (createOrder_outcome od cart s u Hu) as [s' [r [E [_ Hout]]]].
  rewrite Ha in Hout. cbn [id placed_row] in Hout. rewrite Hi in Hout.
  destruct Hout as [Ho Hit].
  exists s', r, (settled_row ls (S (now s)) (placed_row s u od t)),
    (placed_items s ls).
  split; [exact E |]. split; [exact Ho |]. split; [exact Hit |].
  assert (Hls : ls <> []).
  { intros ->. apply Hne. now apply (read_cart_nil (products s)). }
  assert (Hrow : settled_row ls (S (now s)) (placed_row s u od t)
                 = if (t =? sum_lines ls)%Z then placed_row s u od t
                   else with_total (sum_lines ls) (S (now s)) (placed_row s u od t)).
  { unfold settled_row. destruct ls; [contradiction | reflexivity]. }
  rewrite Hrow.
  split; [now destruct (t =? sum_lines ls)%Z |].
  split; [now destruct (t =? sum_lines ls)%Z |].
  assert (Htot : total_amount
                   (if (t =? sum_lines ls)%Z then placed_row s u od t
                    else with_total (sum_lines ls) (S (now s)) (placed_row s u od t))
                 = sum_lines ls).
  { destruct (t =? sum_lines ls)%Z eqn:Et; [| reflexivity].
    now apply Z.eqb_eq in Et. }
  split; [| split; [| exact Htot]].
  - apply (Forall2_compose _ _ _ cart ls (placed_items s ls))
      with (2 := Hamt)
           (3 := item_rows_lines (next_order_id s) (next_item_id s) (S (now s)) ls).
    intros item l it (Hq & Hp) (Hk & _ & Hq' & Hp').
    rewrite Hq', Hp'. repeat split; try assumption.
    rewrite Hk. now destruct (t =? sum_lines ls)%Z.
  - rewrite Htot. unfold placed_items. now rewrite item_rows_sum.
Qed.

Lemma createOrder_stores_total_witness :
  cartA <> []
  /\ Forall2 (fun item l =>
                cart_quantity item = of_Z (line_quantity l)
                /\ cart_price item = of_cents (line_price l))
             cartA [mkLine "p1" 2 8999; mkLine "p2" 1 19999]
  /\ session empty_shop = Some alice
  /\ fresh_ids empty_shop
  /\ faults empty_shop InsertOrder = None
  /\ faults empty_shop InsertOrderItems = None
  /\ to_decimal (order_total cartA) = inr 37997%Z
  /\ (0 <= 37997)%Z
  /\ read_cart (products empty_shop) cartA
     = inr [mkLine "p1" 2 8999; mkLine "p2" 1 19999]
  /\ (sum_lines [mkLine "p1" 2 8999; mkLine "p2" 1 19999] < cents_limit)%Z
  /\ exists s' r row items,
       createOrder main_street cartA empty_shop = (s', inr r)
       /\ orders s' = orders empty_shop ++ [row]
       /\ order_items s' = order_items empty_shop ++ items
       /\ status row = "pending"
       /\ customer_id row = user_id alice
       /\ Forall2 (fun item it =>
                     order_id it = id row
                     /\ cart_quantity item = of_Z (quantity it)
                     /\ cart_price item = of_cents (price_at_time it))
                  cartA items
       /\ total_amount row = sum_items items
       /\ total_amount row
          = sum_lines [mkLine "p1" 2 8999; mkLine "p2" 1 19999].
Proof.
  assert (W : fresh_ids empty_shop) by (split; constructor).
  assert (A : Forall2 (fun item l =>
                         cart_quantity item = of_Z (line_quantity l)
                         /\ cart_price item = of_cents (line_price l))
                      cartA [mkLine "p1" 2 8999; mkLine "p2" 1 19999])
    by (repeat constructor).
  split; [discriminate |]. split; [exact A |]. split; [reflexivity |].
  split; [exact W |]. split; [reflexivity |]. split; [reflexivity |].
  split; [vm_compute; reflexivity |]. split; [lia |].
  split; [vm_compute; reflexivity |]. split; [vm_compute; reflexivity |].
  apply (createOrder_stores_total main_street cartA empty_shop alice 37997%Z
           [mkLine "p1" 2 8999; mkLine "p2" 1 19999]);
    [discriminate | exact A | reflexivity | exact W | reflexivity | reflexivity
    | vm_compute; reflexivity | lia | vm_compute; reflexivity
    | vm_compute; reflexivity].
Defined.

(** A unit price with more than two decimals is not stored as passed: the
    column keeps 0.125 as 0.13, and the total follows the stored price. *)
Example half_cent_price :
  exists s' o,
    createOrder main_street
      [mkCartItem (Some "p1") None (of_Z 2) (of_decimal 125 1000)] empty_shop
    = (s', inr (ok o))
    /\ map price_at_time (order_items_of o) = [13%Z]
    /\ total_amount (order_row o) = 26%Z.
Proof. do 2 eexists. vm_compute. repeat split. Qed.

Lemma coerce_line_known cat pid q p n c :
  to_integer q = inr n ->
  to_decimal p = inr c ->
  (0 < n)%Z ->
  (0 <= c)%Z ->
  In pid cat ->
  coerce_line cat (Some pid) q p = inr (mkLine pid n c).
Proof.
  intros Hq Hp Hn Hc Hin. unfold coerce_line. rewrite Hq, Hp.
  destruct (Z.ltb_spec 0 n); [| lia]. cbn [negb].
  destruct (Z.ltb_spec c 0); [lia |].
  apply includes_In in Hin. now rewrite Hin.
Qed.

Lemma read_cartA cat :
  In "p1" cat -> In "p2" cat ->
  read_cart cat cartA = inr [mkLine "p1" 2 8999; mkLine "p2" 1 19999].
Proof.
  intros H1 H2. unfold cartA. cbn [read_cart or_else cart_product_id cart_id
                                   cart_quantity cart_price String.eqb].
  rewrite (coerce_line_known cat "p1" _ _ 2%Z 8999%Z);
    [| vm_compute; reflexivity | vm_compute; reflexivity | lia | lia | exact H1].
  rewrite (coerce_line_known cat "p2" _ _ 1%Z 19999%Z);
    [| vm_compute; reflexivity | vm_compute; reflexivity | lia | lia | exact H2].
  reflexivity.
Qed.

(** C5. Scenario A: for the cart [2 x 89.99, 1 x 199.99] of two catalog
    products, whatever the address, when every request goes through the
    order returned by [createOrder] has total 379.97 (37997 cents, which
    the client reads as the number 379.97), status pending and two line
    items. *)
Theorem createOrder_scenario_A address s u :
  session s = Some u ->
  fresh_ids s ->
  faults s InsertOrder = None ->
  faults s InsertOrderItems = None ->
  faults s SelectOrderById = None ->
  In "p1" (products s) ->
  In "p2" (products s) ->
  exists s' o,
    createOrder (mkOrderData address) cartA s = (s', inr (ok o))
    /\ lookup_order (session s') (orders s') (id (order_row o)) = Some (order_row o)
    /\ total_amount (order_row o) = 37997%Z
    /\ js_total_amount (order_row o) = of_decimal 37997 100
    /\ status (order_row o) = "pending"
    /\ shipping_address (order_row o) = address
    /\ List.length (order_items_of o) = 2.
Proof.
  intros Hu Hw Hf Hg Hh H1 H2.
  destruct (createOrder_success (mkOrderData address) cartA s u 37997%Z
              [mkLine "p1" 2 8999; mkLine "p2" 1 19999] Hu Hw Hf Hg Hh)
    as [s' [E [Hs [Ho _]]]];
    [vm_compute; reflexivity | lia | now apply read_cartA
    | vm_compute; reflexivity |].
  exists s'. eexists. split; [exact E |].
  cbn [order_row order_items_of]. split.
  - rewrite Hs, Ho. destruct Hw as [Hold _].
    apply lookup_last; [exact Hold |].
    rewrite Hu. unfold matches, has_id, visible, owned_by. cbn.
    now rewrite Nat.eqb_refl, String.eqb_refl.
  - repeat split.
Qed.

Lemma createOrder_scenario_A_witness :
  session empty_shop = Some alice
  /\ fresh_ids empty_shop
  /\ faults empty_shop InsertOrder = None
  /\ faults empty_shop InsertOrderItems = None
  /\ faults empty_shop SelectOrderById = None
  /\ In "p1" (products empty_shop)
  /\ In "p2" (products empty_shop)
  /\ exists s' o,
       createOrder (mkOrderData "123 Main St") cartA empty_shop = (s', inr (ok o))
       /\ lookup_order (session s') (orders s') (id (order_row o))
          = Some (order_row o)
       /\ total_amount (order_row o) = 37997%Z
       /\ js_total_amount (order_row o) = of_decimal 37997 100
       /\ status (order_row o) = "pending"
       /\ shipping_address (order_row o) = "123 Main St"
       /\ List.length (order_items_of o) = 2.
Proof.
  assert (W : fresh_ids empty_shop) by (split; constructor).
  split; [reflexivity |]. split; [exact W |]. split; [reflexivity |].
  split; [reflexivity |]. split; [reflexivity |].
  split; [now left |]. split; [right; now left |].
  apply (createOrder_scenario_A "123 Main St" empty_shop alice);
    [reflexivity | exact W | reflexivity | reflexivity | reflexivity
    | now left | right; now left].
Defined.

(** C6, as stated, fails: for three items at 0.10 the total [createOrder]
    computes and sends is 0.30000000000000004 ([0x1.3333333333334p-2]),
    not the amount 0.30. *)
Lemma total_of_three_dimes :
  ~ total_is_decimal empty_shop main_street "p1" [(3, 10)%Z].
Proof.
  intros [s' [r [E Ht]]].
  vm_compute in E. injection E as <- _. vm_compute in Ht. discriminate Ht.
Qed.

(** That total lies strictly between the amounts 0.30 and 0.31; the
    column reads it as 30 cents. *)
Example three_dimes_between_cents :
  order_total three_dimes = S754_finite false 5404319552844596 (-54)
  /\ ltb (of_cents 30) (order_total three_dimes) = true
  /\ ltb (order_total three_dimes) (of_cents 31) = true
  /\ to_decimal (order_total three_dimes) = inr 30%Z.
Proof. vm_compute. repeat split. Qed.

Lemma decimal_total_sum_lines (pid : string) (lines : list (Z * Z)) :
  sum_lines (map (fun l => mkLine pid (fst l) (snd l)) lines)
  = decimal_total lines.
Proof.
  unfold decimal_total.
  assert (G : forall a,
             fold_left (fun sum l => (sum + fst l * snd l)%Z) lines a
             = (a + sum_lines (map (fun l => mkLine pid (fst l) (snd l)) lines))%Z).
  { induction lines as [| l lines IH]; intros a; cbn; [lia |].
    rewrite IH. unfold sum_lines. lia. }
  rewrite G. lia.
Qed.

(** C6, amended. The total [createOrder] computes is a binary64 number: 0
    for no line, and each further cart line adds the rounded product price
    times quantity to the running total with a rounded addition; that
    number is sent as it is, without decimal rounding. Two decimal digits
    come from the [DECIMAL(10,2)] column: the order insert stores the sent
    number rounded to cents, and for an accepted non-empty cart of amounts
    in cents the stored total ends as the exact decimal sum of quantity
    times price. *)
Theorem createOrder_total_binary64 od cart s u :
  session s = Some u ->
  exists s' r,
    createOrder od cart s = (s', inr r)
    /\ sent_totals (trace s') = order_total cart :: sent_totals (trace s)
    /\ (cart = [] -> order_total cart = zero)
    /\ (forall front x,
          cart = front ++ [x] ->
          order_total cart
          = add (order_total front) (mul (cart_price x) (cart_quantity x)))
    /\ (forall row,
          accept_order s (order_payload u od cart) = inr row ->
          to_decimal (order_total cart) = inr (total_amount row))
    /\ (forall pid lines t,
          cart = cart_of_lines pid lines ->
          lines <> [] ->
          fresh_ids s ->
          faults s InsertOrder = None ->
          faults s InsertOrderItems = None ->
          to_decimal (order_total cart) = inr t ->
          (0 <= t)%Z ->
          read_cart (products s) cart
          = inr (map (fun l => mkLine pid (fst l) (snd l)) lines) ->
          (decimal_total lines < cents_limit)%Z ->
          exists row,
            orders s' = orders s ++ [row]
            /\ total_amount row = decimal_total lines).
Proof.
  intros Hu.
  destruct (createOrder_outcome od cart s u Hu) as [s' [r [E [Ht Hout]]]].
  exists s', r. split; [exact E |]. split; [exact Ht |].
  split; [intros ->; reflexivity |].
  split; [intros front x ->; apply order_total_snoc |].
  split.
  - intros row Ha.
    destruct (accept_order_inr s u od cart row Hu Ha) as (t & Hd & _ & _ & ->).
    exact Hd.
  - intros pid lines t Hc Hne Hw Hf Hg Hd Hpos Hr Hlim.
    rewrite <- (decimal_total_sum_lines pid lines) in Hlim.
    assert (Hcart : cart <> []).
    { rewrite Hc. destruct lines; [contradiction | discriminate]. }
    destruct (placement_rows_total od cart s u t _ Hcart Hu Hw Hf Hg Hd
                Hpos Hr Hlim) as [s'' [r'' [row [E' [Ho Htot]]]]].
    rewrite E in E'. injection E' as <- _.
    exists row. split; [exact Ho |].
    rewrite Htot. apply decimal_total_sum_lines.
Qed.

Lemma createOrder_total_binary64_witness :
  session empty_shop = Some alice
  /\ exists s' r,
       createOrder main_street three_dimes empty_shop = (s', inr r)
       /\ sent_totals (trace s')
          = order_total three_dimes :: sent_totals (trace empty_shop)
       /\ (three_dimes = [] -> order_total three_dimes = zero)
       /\ (forall front x,
             three_dimes = front ++ [x] ->
             order_total three_dimes
             = add (order_total front) (mul (cart_price x) (cart_quantity x)))
       /\ (forall row,
             accept_order empty_shop (order_payload alice main_street three_dimes)
             = inr row ->
             to_decimal (order_total three_dimes) = inr (total_amount row))
       /\ (forall pid lines t,
             three_dimes = cart_of_lines pid lines ->
             lines <> [] ->
             fresh_ids empty_shop ->
             faults empty_shop InsertOrder = None ->
             faults empty_shop InsertOrderItems = None ->
             to_decimal (order_total three_dimes) = inr t ->
             (0 <= t)%Z ->
             read_cart (products empty_shop) three_dimes
             = inr (map (fun l => mkLine pid (fst l) (snd l)) lines) ->
             (decimal_total lines < cents_limit)%Z ->
             exists row,
               orders s' = orders empty_shop ++ [row]
               /\ total_amount row = decimal_total lines).
Proof.
  split; [reflexivity |].
  apply (createOrder_total_binary64 main_street three_dimes empty_shop alice).
  reflexivity.
Defined.

(** The whole of it on the three dimes: 0.30000000000000004 is sent, 30
    cents are stored. *)
Example three_dimes_placed :
  exists s' o,
    createOrder main_street three_dimes empty_shop = (s', inr (ok o))
    /\ sent_totals (trace s') = [S754_finite false 5404319552844596 (-54)]
    /\ total_amount (order_row o) = 30%Z
    /\ map price_at_time (order_items_of o) = [10%Z]
    /\ map quantity (order_items_of o) = [3%Z].
Proof. do 2 eexists. vm_compute. repeat split. Qed.

(** ** Status changes *)

(** C1, as stated, fails: a delivered order is put back to pending. *)
Lemma delivered_goes_back_to_pending :
  ~ transition_closure (shop_with "delivered") 0 "pending".
Proof.
  intros H. destruct (H (order_in "delivered") eq_refl) as [s' [r [E [Hiff _]]]].
  vm_compute in E. injection E as _ <-.
  destruct Hiff as [Hsucc _]. specialize (Hsucc eq_refl). discriminate Hsucc.
Qed.

Example update_delivered_to_pending :
  exists s' o,
    updateOrderStatus 0 "pending" (shop_with "delivered") = (s', inr (ok o))
    /\ status o = "pending"
    /\ lookup_order (session s') (orders s') 0 = Some o.
Proof. do 2 eexists. vm_compute. repeat split. Qed.

(** C1, amended. [updateOrderStatus] does not look at the current status.
    It always returns a result; the update succeeds exactly when the
    requested status is one of the five status names, the backend can be
    reached and the session addresses exactly one order with the
    identifier. A failed update leaves both relations as they were, and a
    requested status outside the five names fails with the invalid-status
    error. On success the order is returned and stored with the requested
    status and a refreshed [updated_at], every other field as before. *)
Theorem updateOrderStatus_checks_name_only k st s :
  exists s' r,
    updateOrderStatus k st s = (s', inr r)
    /\ (err r = None <->
        In st validStatuses
        /\ faults s UpdateOrderStatus = None
        /\ exists o, lookup_order (session s) (orders s) k = Some o)
    /\ (err r <> None -> orders s' = orders s /\ order_items s' = order_items s)
    /\ (~ In st validStatuses -> err r = Some (JsError invalid_status_message))
    /\ (forall o, err r = None ->
        lookup_order (session s) (orders s) k = Some o ->
        data r = Some (with_status st (now s) o)
        /\ lookup_order (session s') (orders s') k = Some (with_status st (now s) o)
        /\ (forall k', k' <> k ->
            lookup_order (session s') (orders s') k'
            = lookup_order (session s) (orders s) k')
        /\ order_items s' = order_items s).
Proof.
  destruct (includes validStatuses st) eqn:H.
  - pose proof (proj1 (includes_In _ _) H) as Hin.
    destruct (accept_update s k st) as [c | row] eqn:Ha.
    + rewrite (updateOrderStatus_refused _ _ _ _ H Ha). do 2 eexists.
      split; [reflexivity |]. cbn [err failed data].
      split; [| split; [| split]].
      * split; [discriminate |]. intros (_ & Hf & o & Hl).
        assert (Ha' : accept_update s k st = inr (with_status st (now s) o))
          by (apply accept_update_inr; eauto).
        congruence.
      * intros _. split; reflexivity.
      * intros C. contradiction.
      * discriminate.
    + rewrite (updateOrderStatus_applied _ _ _ _ H Ha). do 2 eexists.
      split; [reflexivity |]. cbn [err ok data].
      apply (accept_update_inr s k st row H) in Ha.
      destruct Ha as (Hf & o & Hl & ->).
      split; [| split; [| split]].
      * split; [intros _ | reflexivity]. repeat split; eauto.
      * intros C. now contradiction C.
      * intros C. contradiction.
      * intros o' _ E. rewrite Hl in E. injection E as <-.
        split; [reflexivity |]. cbn [record set_tables session orders].
        split; [now apply lookup_updated |]. split; [| reflexivity].
        intros k' Hne. now apply lookup_other_updated.
  - assert (Hin : ~ In st validStatuses).
    { intros C. apply includes_In in C. congruence. }
    rewrite (updateOrderStatus_invalid _ _ _ H). do 2 eexists.
    split; [reflexivity |]. cbn [err failed data].
    split; [| split; [| split]].
    + split; [discriminate |]. intros (C & _). contradiction.
    + intros _. split; reflexivity.
    + reflexivity.
    + discriminate.
Qed.

(** ** Cancellation *)

(** C7. Provided the backend answers the read and the update,
    [cancelOrder] returns a result that is a success exactly when the
    order exists with status pending or processing. For an existing order
    in any other status the result is the error "Only pending or
    processing orders can be cancelled" and both relations are left as
    they were; on success the order reads back as cancelled, with its
    total as before. *)
Theorem cancelOrder_guard k s :
  faults s SelectOrderById = None ->
  faults s UpdateOrderStatus = None ->
  exists s' r,
    cancelOrder k s = (s', inr r)
    /\ (err r = None <->
        exists o, lookup_order (session s) (orders s) k = Some o
                  /\ (status o = "pending" \/ status o = "processing"))
    /\ (forall o, lookup_order (session s) (orders s) k = Some o ->
        status o <> "pending" -> status o <> "processing" ->
        r = failed (JsError "Only pending or processing orders can be cancelled")
        /\ orders s' = orders s
        /\ order_items s' = order_items s)
    /\ (forall o, lookup_order (session s) (orders s) k = Some o ->
        err r = None ->
        exists o',
          data r = Some o'
          /\ lookup_order (session s') (orders s') k = Some o'
          /\ status o' = "cancelled"
          /\ total_amount o' = total_amount o
          /\ order_items s' = order_items s).
Proof.
  intros Hf Hu.
  destruct (lookup_order (session s) (orders s) k) as [o |] eqn:Hl.
  - destruct (includes cancellable (status o)) eqn:Hc.
    + rewrite (cancelOrder_passes_guard _ _ _ Hf Hl Hc).
      rewrite (updateOrderStatus_applied k "cancelled" _
                 (with_status "cancelled" (now s) o) eq_refl).
      2:{ apply accept_update_inr; [reflexivity |]. split; [exact Hu |].
          exists o. split; [exact Hl | reflexivity]. }
      apply cancellable_status in Hc.
      do 2 eexists. split; [reflexivity |]. cbn [err ok data].
      split; [| split].
      * split; [intros _; eauto | reflexivity].
      * intros o' E. injection E as <-. intros H1 H2. tauto.
      * intros o' E _. injection E as <-. eexists. split; [reflexivity |].
        cbn [record set_tables session orders]. split; [now apply lookup_updated |].
        repeat split.
    + rewrite (cancelOrder_rejected _ _ _ Hf Hl Hc).
      do 2 eexists. split; [reflexivity |]. cbn [err failed data].
      split; [| split].
      * split; [discriminate |]. intros [o' [E Hst]]. injection E as <-.
        apply cancellable_status in Hst. congruence.
      * intros o' E _ _. repeat split.
      * discriminate.
  - rewrite (cancelOrder_missing _ _ Hf Hl).
    do 2 eexists. split; [reflexivity |]. cbn [err failed data].
    split; [| split].
    + split; [discriminate |]. intros [o' [E _]]. discriminate E.
    + discriminate.
    + discriminate.
Qed.

Lemma cancelOrder_guard_witness :
  faults (shop_with "shipped") SelectOrderById = None
  /\ faults (shop_with "shipped") UpdateOrderStatus = None
  /\ exists s' r,
       cancelOrder 0 (shop_with "shipped") = (s', inr r)
       /\ (err r = None <->
           exists o,
             lookup_order (session (shop_with "shipped"))
                          (orders (shop_with "shipped")) 0 = Some o
             /\ (status o = "pending" \/ status o = "processing"))
       /\ (forall o,
             lookup_order (session (shop_with "shipped"))
                          (orders (shop_with "shipped")) 0 = Some o ->
             status o <> "pending" -> status o <> "processing" ->
             r = failed (JsError "Only pending or processing orders can be cancelled")
             /\ orders s' = orders (shop_with "shipped")
             /\ order_items s' = order_items (shop_with "shipped"))
       /\ (forall o,
             lookup_order (session (shop_with "shipped"))
                          (orders (shop_with "shipped")) 0 = Some o ->
             err r = None ->
             exists o',
               data r = Some o'
               /\ lookup_order (session s') (orders s') 0 = Some o'
               /\ status o' = "cancelled"
               /\ total_amount o' = total_amount o
               /\ order_items s' = order_items (shop_with "shipped")).
Proof.
  split; [reflexivity |]. split; [reflexivity |].
  apply (cancelOrder_guard 0 (shop_with "shipped")); reflexivity.
Defined.

(** Scenario B: a shipped order stays shipped. *)
Example cancel_shipped :
  exists s',
    cancelOrder 0 (shop_with "shipped")
    = (s', inr (failed (JsError "Only pending or processing orders can be cancelled")))
    /\ option_map status (lookup_order (session s') (orders s') 0) = Some "shipped".
Proof. eexists. vm_compute. split; reflexivity. Qed.

(** Scenario C: a pending order becomes cancelled and keeps its total. *)
Example cancel_pending :
  exists s' o,
    cancelOrder 0 (shop_with "pending") = (s', inr (ok o))
    /\ status o = "cancelled"
    /\ total_amount o = 37997%Z
    /\ lookup_order (session s') (orders s') 0 = Some o.
Proof. do 2 eexists. vm_compute. repeat split. Qed.

Lemma includes_value_string (l : list string) (v : value) :
  includes_value l v = true <-> exists st, v = VString st /\ includes l st = true.
Proof.
  destruct v; cbn; split;
    try discriminate; try (intros [st [E _]]; discriminate E).
  - intros H. eauto.
  - intros [st [E H]]. now injection E as ->.
Qed.

Lemma canCancelOrder_order (o : Order) :
  canCancelOrder (order_to_value o) = includes cancellable (status o).
Proof. reflexivity. Qed.

(** C9. [canCancelOrder] is a function on all values. It answers [false]
    on [null] and [undefined], and [true] exactly on objects whose
    [status] is the string "pending" or "processing". On an order row it
    is the test of [cancelOrder]: when the row is read, [cancelOrder]
    goes on to the status update if it answers [true] and stops with the
    not-cancellable error if it answers [false]; on a missing order both
    say no. *)
Theorem canCancelOrder_agrees_with_guard :
  canCancelOrder VNull = false
  /\ canCancelOrder VUndefined = false
  /\ (forall v,
        canCancelOrder v = true <->
        exists props,
          v = VObject props
          /\ (get_own props "status" = VString "pending"
              \/ get_own props "status" = VString "processing"))
  /\ (forall o,
        canCancelOrder (order_to_value o) = true <->
        status o = "pending" \/ status o = "processing")
  /\ (forall k s o,
        faults s SelectOrderById = None ->
        lookup_order (session s) (orders s) k = Some o ->
        (canCancelOrder (order_to_value o) = true ->
         cancelOrder k s
         = updateOrderStatus k "cancelled" (record (Sent (GetOrder k)) s))
        /\ (canCancelOrder (order_to_value o) = false ->
            exists s',
              cancelOrder k s
              = (s', inr (failed (JsError not_cancellable_message)))))
  /\ (forall k s,
        faults s SelectOrderById = None ->
        lookup_order (session s) (orders s) k = None ->
        canCancelOrder (data_to_value None) = false
        /\ exists s',
             cancelOrder k s = (s', inr (failed (JsError "Order not found")))).
Proof.
  split; [reflexivity |]. split; [reflexivity |]. split; [| split; [| split]].
  - intros v. unfold canCancelOrder. rewrite includes_value_string. split.
    + intros [st [E H]]. apply cancellable_status in H.
      destruct v; try discriminate E. cbn in E.
      exists props. split; [reflexivity |]. rewrite E.
      destruct H as [-> | ->]; [now left | now right].
    + intros [props [-> H]]. cbn.
      destruct H as [-> | ->]; eexists; (split; [reflexivity |]); reflexivity.
  - intros o. rewrite canCancelOrder_order. apply cancellable_status.
  - intros k s o Hf Hl. rewrite canCancelOrder_order. split; intros Hc.
    + now apply (cancelOrder_passes_guard k s o).
    + rewrite (cancelOrder_rejected k s o Hf Hl Hc). eauto.
  - intros k s Hf Hl. split; [reflexivity |].
    rewrite (cancelOrder_missing k s Hf Hl). eauto.
Qed.

(** ** Statistics *)

(** C10. [getOrderStats] looks at every order of the principal, whatever
    its status: [totalOrders] is their number, [totalSpent] the running
    sum of their totals (cancelled ones included, which are also counted
    on their own), and when each of them has one of the five statuses the
    five counters add up to [totalOrders]. *)
Theorem getOrderStats_counts_every_order s u :
  session s = Some u ->
  faults s SelectOrdersByCustomer = None ->
  exists s' stats,
    getOrderStats s = (s', inr (ok stats))
    /\ totalOrders stats = List.length (filter (owned_by (user_id u)) (orders s))
    /\ totalSpent stats
       = fold_left (fun sum o => add sum (parseFloat (js_total_amount o)))
                   (filter (owned_by (user_id u)) (orders s)) zero
    /\ cancelled_count stats
       = List.length
           (filter (fun o => String.eqb (status o) "cancelled")
                   (filter (owned_by (user_id u)) (orders s)))
    /\ (Forall (fun o => In (status o) validStatuses)
               (filter (owned_by (user_id u)) (orders s)) ->
        pending_count stats + processing_count stats + shipped_count stats
        + delivered_count stats + cancelled_count stats
        = totalOrders stats).
Proof.
  intros Hu Hf. rewrite (getOrderStats_run s u Hu Hf).
  do 2 eexists. split; [reflexivity |]. cbn.
  split; [reflexivity |]. split; [reflexivity |]. split; [reflexivity |].
  apply count_status_partition.
Qed.

Lemma getOrderStats_counts_every_order_witness :
  session shop_with_history = Some alice
  /\ faults shop_with_history SelectOrdersByCustomer = None
  /\ Forall (fun o => In (status o) validStatuses)
            (filter (owned_by (user_id alice)) (orders shop_with_history))
  /\ exists s' stats,
       getOrderStats shop_with_history = (s', inr (ok stats))
       /\ totalOrders stats
          = List.length (filter (owned_by (user_id alice)) (orders shop_with_history))
       /\ totalSpent stats
          = fold_left (fun sum o => add sum (parseFloat (js_total_amount o)))
                      (filter (owned_by (user_id alice)) (orders shop_with_history))
                      zero
       /\ cancelled_count stats
          = List.length
              (filter (fun o => String.eqb (status o) "cancelled")
                      (filter (owned_by (user_id alice)) (orders shop_with_history)))
       /\ (Forall (fun o => In (status o) validStatuses)
                  (filter (owned_by (user_id alice)) (orders shop_with_history)) ->
           pending_count stats + processing_count stats + shipped_count stats
           + delivered_count stats + cancelled_count stats
           = totalOrders stats).
Proof.
  split; [reflexivity |]. split; [reflexivity |]. split.
  - cbn. repeat constructor; cbn; tauto.
  - apply (getOrderStats_counts_every_order shop_with_history alice); reflexivity.
Defined.

(** The cancelled order is part of both figures: 379.97 + 20.03 = 400. *)
Example stats_include_cancelled :
  exists s' stats,
    getOrderStats shop_with_history = (s', inr (ok stats))
    /\ totalOrders stats = 2
    /\ totalSpent stats = of_Z 400
    /\ cancelled_count stats = 1
    /\ delivered_count stats = 1.
Proof. do 2 eexists. vm_compute. repeat split. Qed.


(** ** What reading and placing leave in the store *)

Lemma same_store_refl s : same_store s s.
Proof. repeat split. Qed.

Lemma same_store_record ev s : same_store s (record ev s).
Proof. repeat split. Qed.

Lemma same_store_trans s1 s2 s3 :
  same_store s1 s2 -> same_store s2 s3 -> same_store s1 s3.
Proof.
  unfold same_store. intros H1 H2.
  decompose [and] H1. decompose [and] H2. repeat split; congruence.
Qed.

Lemma discriminated_ok {A : Type} (a : A) : discriminated (ok a).
Proof. left. split; [discriminate | reflexivity]. Qed.

Lemma discriminated_failed {A : Type} (e : error) : discriminated (@failed A e).
Proof. right. split; [reflexivity | discriminate]. Qed.

Lemma getOrderById_store k s :
  exists s' r,
    getOrderById k s = (s', inr r)
    /\ same_store s s'
    /\ discriminated r.
Proof.
  destruct (faults s SelectOrderById) as [c |] eqn:Hf.
  - rewrite (getOrderById_refused _ _ _ Hf). do 2 eexists.
    split; [reflexivity |]. split; [repeat split | apply discriminated_failed].
  - destruct (lookup_order (session s) (orders s) k) as [o |] eqn:Hl.
    + rewrite (getOrderById_found _ _ _ Hf Hl). do 2 eexists.
      split; [reflexivity |]. split; [repeat split | apply discriminated_ok].
    + rewrite (getOrderById_missing _ _ Hf Hl). do 2 eexists.
      split; [reflexivity |]. split; [repeat split | apply discriminated_failed].
Qed.

Lemma placed_items_total s (ls : list Line) :
  Forall (fun it => order_id it < next_order_id s) (order_items s) ->
  calculate_order_total (order_items s ++ placed_items s ls) (next_order_id s)
  = sum_lines ls.
Proof.
  intros Hi. unfold calculate_order_total, placed_items.
  rewrite filter_app, (filter_belongs_fresh _ _ Hi), item_rows_belong.
  apply item_rows_sum.
Qed.

(** The answer of the backend to the line-item insert of a placement, in
    terms of the cart. *)
Lemma accept_items_fresh s u p row cart :
  session s = Some u ->
  fresh_ids s ->
  id row = next_order_id s ->
  customer_id row = user_id u ->
  accept_items (order_inserted s p row) (items_payload (next_order_id s) cart)
  = match faults s InsertOrderItems with
    | Some c => inl c
    | None =>
        match read_cart (products s) cart with
        | inl c => inl c
        | inr ls =>
            if (cents_limit <=? sum_lines ls)%Z then inl numeric_value_out_of_range
            else inr (placed_items s ls,
                      orders s ++ [settled_row ls (S (now s)) row])
        end
    end.
Proof.
  intros Hu Hw Hid Hc.
  destruct (faults s InsertOrderItems) as [c |] eqn:Hf.
  { unfold accept_items. cbn [order_inserted record set_tables faults].
    now rewrite Hf. }
  destruct (read_cart (products s) cart) as [c | ls] eqn:Hr.
  { unfold accept_items.
    cbn [order_inserted record set_tables faults products].
    now rewrite Hf, coerce_lines_payload, Hr. }
  destruct (Z.leb_spec cents_limit (sum_lines ls)) as [Hbig | Hsmall].
  2:{ now apply (accept_items_placed s u p row cart ls). }
  destruct Hw as [Ho Hi].
  assert (Hm : matches (Some u) (next_order_id s) row = true).
  { unfold matches, has_id, visible, owned_by.
    now rewrite Hid, Hc, Nat.eqb_refl, String.eqb_refl. }
  unfold accept_items.
  cbn [order_inserted record set_tables faults products session orders
       order_items next_item_id now].
  rewrite Hf, coerce_lines_payload, Hr, Hu.
  assert (Hall : forallb (fun kl : nat * Line =>
                            existsb (matches (Some u) (fst kl)) (orders s ++ [row]))
                         (map (pair (next_order_id s)) ls) = true).
  { apply forallb_forall. intros [k l] Hin. apply in_map_iff in Hin.
    destruct Hin as [l' [E _]]. injection E as <- _. cbn [fst].
    rewrite existsb_app. cbn. now rewrite Hm, orb_true_r. }
  rewrite Hall. cbn [negb].
  fold (placed_items s ls). unfold placed_items at 2.
  rewrite item_rows_order_id.
  destruct ls as [| l ls'].
  { cbn in Hbig. unfold cents_limit in Hbig. lia. }
  cbn [map run_total_triggers]. unfold validate_order_total.
  rewrite (placed_items_total s (l :: ls') Hi).
  pose proof (sum_lines_nonneg _ _ _ Hr).
  rewrite Z.abs_eq by assumption.
  destruct (Z.leb_spec cents_limit (sum_lines (l :: ls'))); [reflexivity | lia].
Qed.

(** What a placement leaves in the store, case by case: nothing; the order
    row alone (the line items were refused); or the order row, settled by
    the total trigger, with one line item per cart line. *)
Lemma createOrder_relations od cart s :
  fresh_ids s ->
  exists s' r,
    createOrder od cart s = (s', inr r)
    /\ session s' = session s
    /\ products s' = products s
    /\ faults s' = faults s
    /\ discriminated r
    /\ ((err r <> None
         /\ orders s' = orders s
         /\ order_items s' = order_items s
         /\ next_order_id s' = next_order_id s)
        \/ (exists u t,
              session s = Some u
              /\ (0 <= t)%Z
              /\ err r <> None
              /\ orders s' = orders s ++ [placed_row s u od t]
              /\ order_items s' = order_items s
              /\ next_order_id s' = S (next_order_id s))
        \/ (exists u t ls,
              session s = Some u
              /\ (0 <= t)%Z
              /\ to_decimal (order_total cart) = inr t
              /\ read_cart (products s) cart = inr ls
              /\ orders s'
                 = orders s ++ [settled_row ls (S (now s)) (placed_row s u od t)]
              /\ order_items s' = order_items s ++ placed_items s ls
              /\ next_order_id s' = S (next_order_id s))).
Proof.
  intros Hw.
  destruct (session s) as [u |] eqn:Hu.
  2:{ rewrite (createOrder_unauthenticated od cart s Hu). do 2 eexists.
      split; [reflexivity |]. cbn [record session products faults].
      repeat (split; [assumption || reflexivity |]).
      split; [apply discriminated_failed |]. left. repeat split. discriminate. }
  destruct (accept_order s (order_payload u od cart)) as [c | row] eqn:Ha.
  { rewrite (createOrder_order_refused od cart s u c Hu Ha). do 2 eexists.
    split; [reflexivity |]. cbn [record session products faults].
    repeat (split; [assumption || reflexivity |]).
    split; [apply discriminated_failed |]. left. repeat split. discriminate. }
  destruct (accept_order_inr s u od cart row Hu Ha) as (t & Ht & Hpos & Hf & ->).
  pose proof (accept_items_fresh s u (order_payload u od cart)
                (placed_row s u od t) cart Hu Hw eq_refl eq_refl) as Hi.
  cbn [id placed_row] in *.
  destruct (faults s InsertOrderItems) as [c |] eqn:Hg.
  { rewrite (createOrder_items_refused od cart s u _ c Hu Ha Hi). do 2 eexists.
    split; [reflexivity |].
    cbn [record order_inserted set_tables session products faults].
    repeat (split; [assumption || reflexivity |]).
    split; [apply discriminated_failed |]. right. left. exists u, t.
    repeat split; try assumption. discriminate. }
  destruct (read_cart (products s) cart) as [c | ls] eqn:Hr.
  { rewrite (createOrder_items_refused od cart s u _ c Hu Ha Hi). do 2 eexists.
    split; [reflexivity |].
    cbn [record order_inserted set_tables session products faults].
    repeat (split; [assumption || reflexivity |]).
    split; [apply discriminated_failed |]. right. left. exists u, t.
    repeat split; try assumption. discriminate. }
  destruct (cents_limit <=? sum_lines ls)%Z.
  { rewrite (createOrder_items_refused od cart s u _ _ Hu Ha Hi). do 2 eexists.
    split; [reflexivity |].
    cbn [record order_inserted set_tables session products faults].
    repeat (split; [assumption || reflexivity |]).
    split; [apply discriminated_failed |]. right. left. exists u, t.
    repeat split; try assumption. discriminate. }
  rewrite (createOrder_inserted od cart s u _ _ _ Hu Ha Hi).
  destruct (getOrderById_store (next_order_id s)
              (items_inserted (order_inserted s (order_payload u od cart)
                                 (placed_row s u od t))
                 (items_payload (next_order_id s) cart) (placed_items s ls)
                 (orders s ++ [settled_row ls (S (now s)) (placed_row s u od t)])))
    as [s' [r [E [Hsame Hd]]]].
  exists s', r. split; [exact E |].
  destruct Hsame as (Hs & Hp & Ho & Hit & Hn & _ & _ & Hfa).
  cbn [items_inserted order_inserted record set_tables session products orders
       order_items next_order_id faults] in *.
  rewrite Hs, Hp, Hfa. do 3 (split; [assumption || reflexivity |]).
  split; [exact Hd |]. right. right. exists u, t, ls.
  repeat split; assumption.
Qed.


(** ** Placement: frame and invariants *)

Lemma Forall2_Forall_r {A B : Type} (R : A -> B -> Prop) (P : B -> Prop)
    (l : list A) (l' : list B) :
  Forall2 R l l' -> (forall x y, R x y -> P y) -> Forall P l'.
Proof. intros H HP. induction H; constructor; eauto. Qed.

Lemma id_settled_row ls stamp row : id (settled_row ls stamp row) = id row.
Proof.
  unfold settled_row. destruct ls; [reflexivity |].
  now destruct (_ =? _)%Z.
Qed.

Lemma status_settled_row ls stamp row :
  status (settled_row ls stamp row) = status row.
Proof.
  unfold settled_row. destruct ls; [reflexivity |].
  now destruct (_ =? _)%Z.
Qed.

Lemma total_settled_row ls stamp row :
  ls <> [] -> total_amount (settled_row ls stamp row) = sum_lines ls.
Proof.
  destruct ls as [| l ls']; [congruence |]. intros _. unfold settled_row.
  now destruct (Z.eqb_spec (total_amount row) (sum_lines (l :: ls'))).
Qed.

Lemma placed_items_order_id s ls :
  Forall (fun it => order_id it = next_order_id s) (placed_items s ls).
Proof.
  eapply Forall2_Forall_r; [apply item_rows_lines |].
  cbn beta. intros l it H. apply H.
Qed.

Lemma placed_items_length s ls :
  List.length (placed_items s ls) = List.length ls.
Proof. symmetry. eapply Forall2_length, item_rows_lines. Qed.

Lemma placed_items_checks s (cart : list CartItem) ls :
  read_cart (products s) cart = inr ls ->
  Forall (item_checks (products s)) (placed_items s ls).
Proof.
  intros Hr. pose proof (read_cart_lines _ _ _ Hr) as Hc.
  pose proof (item_rows_lines (next_order_id s) (next_item_id s) (S (now s)) ls)
    as Hi.
  fold (placed_items s ls) in Hi.
  assert (Hl : Forall (fun l => (0 < line_quantity l)%Z /\ (0 <= line_price l)%Z
                                /\ In (line_product l) (products s)) ls).
  { eapply Forall2_Forall_r; [exact Hc |]. cbn beta. intros x y H. tauto. }
  clear Hc Hr. revert Hl. induction Hi as [| l it ls' its H _ IH]; intros Hl.
  - constructor.
  - inversion Hl; subst. constructor; [| now apply IH].
    destruct H as (_ & Hp & Hq & Hpr). unfold item_checks.
    rewrite Hp, Hq, Hpr. assumption.
Qed.

(** X1. A placement never changes or removes a stored order or line item:
    the relations it leaves are the old ones with rows appended.  It
    appends at most one order, always under the next identifier, and line
    items only for that order and only when the order row is there; when it
    reports success it has appended exactly one order and one line item
    per cart line. *)
Theorem createOrder_appends_only od (cart : list CartItem) s :
  fresh_ids s ->
  exists s' r new_orders new_items,
    createOrder od cart s = (s', inr r)
    /\ orders s' = orders s ++ new_orders
    /\ order_items s' = order_items s ++ new_items
    /\ List.length new_orders <= 1
    /\ Forall (fun o => id o = next_order_id s) new_orders
    /\ Forall (fun it => order_id it = next_order_id s) new_items
    /\ (new_orders = [] -> new_items = [])
    /\ (err r = None ->
        List.length new_orders = 1
        /\ List.length new_items = List.length cart).
Proof.
  intros Hw.
  destruct (createOrder_relations od cart s Hw)
    as (s' & r & E & _ & _ & _ & _ & [C | [C | C]]).
  - destruct C as (He & Ho & Hi & _). exists s', r, [], [].
    rewrite !app_nil_r. repeat split; auto. all: contradiction.
  - destruct C as (u & t & _ & _ & He & Ho & Hi & _).
    exists s', r, [placed_row s u od t], [].
    rewrite app_nil_r. repeat split; auto. all: contradiction.
  - destruct C as (u & t & ls & _ & _ & _ & Hr & Ho & Hi & _).
    exists s', r, [settled_row ls (S (now s)) (placed_row s u od t)],
      (placed_items s ls).
    repeat split; auto.
    + constructor; [| constructor]. now rewrite id_settled_row.
    + apply placed_items_order_id.
    + discriminate.
    + rewrite placed_items_length. symmetry.
      eapply Forall2_length, read_cart_lines, Hr.
Qed.

Lemma createOrder_appends_only_witness :
  fresh_ids (shop_with "shipped")
  /\ exists s' r new_orders new_items,
       createOrder main_street cartA (shop_with "shipped") = (s', inr r)
       /\ orders s' = orders (shop_with "shipped") ++ new_orders
       /\ order_items s' = order_items (shop_with "shipped") ++ new_items
       /\ List.length new_orders <= 1
       /\ Forall (fun o => id o = next_order_id (shop_with "shipped")) new_orders
       /\ Forall (fun it => order_id it = next_order_id (shop_with "shipped"))
                 new_items
       /\ (new_orders = [] -> new_items = [])
       /\ (err r = None ->
           List.length new_orders = 1
           /\ List.length new_items = List.length cartA).
Proof.
  assert (H : fresh_ids (shop_with "shipped")).
  { split; cbn; repeat constructor. }
  split; [exact H |].
  exact (createOrder_appends_only main_street cartA (shop_with "shipped") H).
Defined.

(** X2. Identifiers stay fresh: after a placement, whatever its outcome,
    every stored order and line item still refers to an identifier below
    the next one, so the next placement cannot collide with a stored row. *)
Theorem createOrder_keeps_ids_fresh od (cart : list CartItem) s :
  fresh_ids s ->
  exists s' r, createOrder od cart s = (s', inr r) /\ fresh_ids s'.
Proof.
  intros Hw.
  destruct (createOrder_relations od cart s Hw)
    as (s' & r & E & _ & _ & _ & _ & C).
  exists s', r. split; [exact E |]. destruct Hw as [Ho Hi].
  assert (Ho' : Forall (fun o => id o < S (next_order_id s)) (orders s)).
  { eapply Forall_impl; [| exact Ho]. cbn beta. intros. lia. }
  assert (Hi' : Forall (fun it => order_id it < S (next_order_id s))
                       (order_items s)).
  { eapply Forall_impl; [| exact Hi]. cbn beta. intros. lia. }
  unfold fresh_ids.
  destruct C as [C | [C | C]].
  - destruct C as (_ & -> & -> & ->). now split.
  - destruct C as (u & t & _ & _ & _ & -> & -> & ->). split; [| exact Hi'].
    apply Forall_app. split; [exact Ho' |].
    constructor; [cbn; lia | constructor].
  - destruct C as (u & t & ls & _ & _ & _ & _ & -> & -> & ->). split.
    + apply Forall_app. split; [exact Ho' |].
      constructor; [| constructor]. rewrite id_settled_row. cbn. lia.
    + apply Forall_app. split; [exact Hi' |].
      eapply Forall_impl; [| apply placed_items_order_id].
      cbn beta. intros it ->. lia.
Qed.

Lemma createOrder_keeps_ids_fresh_witness :
  fresh_ids (shop_with "shipped")
  /\ exists s' r,
       createOrder main_street cartA (shop_with "shipped") = (s', inr r)
       /\ fresh_ids s'.
Proof.
  assert (H : fresh_ids (shop_with "shipped")).
  { split; cbn; repeat constructor. }
  split; [exact H |].
  exact (createOrder_keeps_ids_fresh main_street cartA (shop_with "shipped") H).
Defined.

(** X3. The CHECK and foreign-key constraints of the migration survive a
    placement, whatever its outcome: every stored total is non-negative,
    every status is one of the five names, every line item has a positive
    quantity, a non-negative price and a product of the catalog. *)
Theorem createOrder_keeps_constraints od (cart : list CartItem) s :
  fresh_ids s ->
  constraints_hold s ->
  exists s' r, createOrder od cart s = (s', inr r) /\ constraints_hold s'.
Proof.
  intros Hw [Hc Hci].
  destruct (createOrder_relations od cart s Hw)
    as (s' & r & E & _ & Hp & _ & _ & C).
  exists s', r. split; [exact E |]. unfold constraints_hold. rewrite Hp.
  destruct C as [C | [C | C]].
  - destruct C as (_ & -> & -> & _). now split.
  - destruct C as (u & t & _ & Ht & _ & -> & -> & _). split; [| exact Hci].
    apply Forall_app. split; [exact Hc |].
    constructor; [| constructor]. split; [exact Ht | cbn; tauto].
  - destruct C as (u & t & ls & _ & Ht & _ & Hr & -> & -> & _). split.
    + apply Forall_app. split; [exact Hc |].
      constructor; [| constructor]. split.
      * destruct ls as [| l ls']; [exact Ht |].
        rewrite total_settled_row by discriminate.
        apply (sum_lines_nonneg _ _ _ Hr).
      * rewrite status_settled_row. cbn. tauto.
    + apply Forall_app. split; [exact Hci |].
      now apply (placed_items_checks s cart).
Qed.

Lemma createOrder_keeps_constraints_witness :
  fresh_ids (shop_with "shipped")
  /\ constraints_hold (shop_with "shipped")
  /\ exists s' r,
       createOrder main_street cartA (shop_with "shipped") = (s', inr r)
       /\ constraints_hold s'.
Proof.
  assert (H : fresh_ids (shop_with "shipped")).
  { split; cbn; repeat constructor. }
  assert (C : constraints_hold (shop_with "shipped")).
  { split; cbn; [| constructor].
    constructor; [| constructor]. split; cbn; [lia | tauto]. }
  split; [exact H |]. split; [exact C |].
  exact (createOrder_keeps_constraints main_street cartA (shop_with "shipped") H C).
Defined.

Lemma calculate_order_total_old (items new : list OrderItem) (k n : nat) :
  k < n ->
  Forall (fun it => order_id it = n) new ->
  calculate_order_total (items ++ new) k = calculate_order_total items k.
Proof.
  intros Hk Hn. unfold calculate_order_total. rewrite filter_app.
  replace (filter (belongs_to k) new) with (@nil OrderItem);
    [now rewrite app_nil_r |].
  symmetry. induction Hn as [| it new' Hit _ IH]; [reflexivity |].
  cbn. unfold belongs_to at 1. rewrite Hit.
  destruct (Nat.eqb_spec n k); [lia | exact IH].
Qed.

(** X4. A placement that reports success keeps the total invariant of the
    whole store: if every stored total was the sum over the line items of
    its order before, the same holds afterwards, the new order included. *)
Theorem createOrder_success_keeps_totals od (cart : list CartItem) s :
  fresh_ids s ->
  totals_consistent (orders s) (order_items s) ->
  exists s' r,
    createOrder od cart s = (s', inr r)
    /\ (err r = None -> totals_consistent (orders s') (order_items s')).
Proof.
  intros Hw Hc.
  destruct (createOrder_relations od cart s Hw)
    as (s' & r & E & _ & _ & _ & _ & C).
  exists s', r. split; [exact E |]. intros He.
  destruct C as [C | [C | C]].
  - now destruct C as (Hne & _).
  - now destruct C as (u & t & _ & _ & Hne & _).
  - destruct C as (u & t & ls & _ & _ & Ht & Hr & -> & -> & _).
    destruct Hw as [Ho Hi]. unfold totals_consistent.
    apply Forall_app. split.
    + unfold totals_consistent in Hc. rewrite Forall_forall in Hc, Ho |- *.
      intros o Hin.
      rewrite (calculate_order_total_old _ _ _ (next_order_id s));
        [now apply Hc | now apply Ho |].
      apply placed_items_order_id.
    + constructor; [| constructor].
      rewrite id_settled_row. cbn [id placed_row].
      rewrite (placed_items_total s ls Hi).
      destruct ls as [| l ls'].
      * apply read_cart_nil in Hr. subst cart.
        rewrite order_total_nil in Ht. cbn in Ht. injection Ht as <-.
        reflexivity.
      * now apply total_settled_row.
Qed.

Lemma createOrder_success_keeps_totals_witness :
  fresh_ids empty_shop
  /\ totals_consistent (orders empty_shop) (order_items empty_shop)
  /\ exists s' r,
       createOrder main_street cartA empty_shop = (s', inr r)
       /\ (err r = None -> totals_consistent (orders s') (order_items s')).
Proof.
  assert (H : fresh_ids empty_shop).
  { split; cbn; constructor. }
  assert (C : totals_consistent (orders empty_shop) (order_items empty_shop)).
  { cbn. constructor. }
  split; [exact H |]. split; [exact C |].
  exact (createOrder_success_keeps_totals main_street cartA empty_shop H C).
Defined.


(** ** Reading back *)

Lemma getOrderById_data k s s' r ow :
  getOrderById k s = (s', inr r) ->
  data r = Some ow ->
  r = ok ow
  /\ s' = record (Sent (GetOrder k)) s
  /\ faults s SelectOrderById = None
  /\ lookup_order (session s) (orders s) k = Some (order_row ow)
  /\ order_items_of ow = filter (belongs_to k) (order_items s).
Proof.
  intros E Hd.
  destruct (faults s SelectOrderById) as [c |] eqn:Hf.
  { rewrite (getOrderById_refused _ _ _ Hf) in E. injection E as <- <-.
    discriminate. }
  destruct (lookup_order (session s) (orders s) k) as [o |] eqn:Hl.
  2:{ rewrite (getOrderById_missing _ _ Hf Hl) in E. injection E as <- <-.
      discriminate. }
  rewrite (getOrderById_found _ _ _ Hf Hl) in E. injection E as <- <-.
  cbn in Hd. injection Hd as <-. repeat split.
Qed.

(** X5. A read changes nothing but the trace, answers with exactly one of
    data and error, and is repeatable: the same read on the state it
    leaves gives the same answer. *)
Theorem getOrderById_is_a_read k s :
  exists s' r,
    getOrderById k s = (s', inr r)
    /\ same_store s s'
    /\ discriminated r
    /\ exists s'', getOrderById k s' = (s'', inr r).
Proof.
  destruct (faults s SelectOrderById) as [c |] eqn:Hf.
  - rewrite (getOrderById_refused _ _ _ Hf). do 2 eexists.
    split; [reflexivity |]. split; [repeat split |].
    split; [apply discriminated_failed |].
    eexists. exact (getOrderById_refused k (record _ (record _ s)) c Hf).
  - destruct (lookup_order (session s) (orders s) k) as [o |] eqn:Hl.
    + rewrite (getOrderById_found _ _ _ Hf Hl). do 2 eexists.
      split; [reflexivity |]. split; [repeat split |].
      split; [apply discriminated_ok |].
      eexists. exact (getOrderById_found k (record _ s) o Hf Hl).
    + rewrite (getOrderById_missing _ _ Hf Hl). do 2 eexists.
      split; [reflexivity |]. split; [repeat split |].
      split; [apply discriminated_failed |].
      eexists. exact (getOrderById_missing k (record _ (record _ s)) Hf Hl).
Qed.

(** X6. Round trip of a placement: whenever [createOrder] returns an
    order, reading that order again by the identifier it carries returns
    the very same order with the very same line items. *)
Theorem createOrder_then_getOrderById od (cart : list CartItem) s s' r ow :
  createOrder od cart s = (s', inr r) ->
  data r = Some ow ->
  exists s'', getOrderById (id (order_row ow)) s' = (s'', inr (ok ow)).
Proof.
  intros E Hd.
  destruct (session s) as [u |] eqn:Hu.
  2:{ rewrite (createOrder_unauthenticated od cart s Hu) in E.
      injection E as <- <-. discriminate. }
  destruct (accept_order s (order_payload u od cart)) as [c | row] eqn:Ha.
  { rewrite (createOrder_order_refused od cart s u c Hu Ha) in E.
    injection E as <- <-. discriminate. }
  destruct (accept_items (order_inserted s (order_payload u od cart) row)
                         (items_payload (id row) cart)) as [c | [rows os]] eqn:Hi.
  { rewrite (createOrder_items_refused od cart s u row c Hu Ha Hi) in E.
    injection E as <- <-. discriminate. }
  rewrite (createOrder_inserted od cart s u row rows os Hu Ha Hi) in E.
  destruct (getOrderById_data _ _ _ _ _ E Hd) as (-> & -> & Hf & Hl & Hits).
  destruct (lookup_order_matches _ _ _ _ Hl) as [Hm _].
  unfold matches, has_id in Hm. apply andb_true_iff in Hm. destruct Hm as [Hm _].
  apply Nat.eqb_eq in Hm. rewrite Hm.
  eexists. rewrite (getOrderById_found (id row) _ (order_row ow)).
  - cbn [record order_items]. rewrite <- Hits. now destruct ow.
  - exact Hf.
  - exact Hl.
Qed.

Lemma createOrder_then_getOrderById_witness :
  exists s' ow s'',
    createOrder main_street cartA empty_shop = (s', inr (ok ow))
    /\ getOrderById (id (order_row ow)) s' = (s'', inr (ok ow)).
Proof.
  destruct (createOrder main_street cartA empty_shop) as [s' [e | r]] eqn:E;
    [vm_compute in E; discriminate |].
  destruct (data r) as [ow |] eqn:Hd; [| vm_compute in E; now inversion E; subst].
  destruct (createOrder_then_getOrderById main_street cartA empty_shop s' r ow E Hd)
    as [s'' H].
  exists s', ow, s''. split; [| exact H].
  vm_compute in E. inversion E; subst. cbn in Hd. now injection Hd as <-.
Defined.


(** ** Status updates: frame and invariants *)

Lemma Forall2_map_In {A B : Type} (R : A -> B -> Prop) (f : A -> B) (l : list A) :
  (forall x, In x l -> R x (f x)) -> Forall2 R l (map f l).
Proof.
  induction l as [| a l IH]; intros H; cbn; constructor.
  - apply H. now left.
  - apply IH. intros x Hx. apply H. now right.
Qed.

Lemma Forall2_same {A : Type} (R : A -> A -> Prop) (l : list A) :
  (forall x, R x x) -> Forall2 R l l.
Proof. intros H. induction l; constructor; auto. Qed.

Lemma update_rows_change who k st stamp os :
  Forall2 (status_change who k st) os (update_rows who k st stamp os).
Proof.
  apply Forall2_map_In. intros o _.
  destruct (matches who k o) eqn:Hm; [right | now left].
  repeat split. exact Hm.
Qed.

Lemma lookup_order_unique who os k o x :
  lookup_order who os k = Some o ->
  In x os -> matches who k x = true -> x = o.
Proof.
  unfold lookup_order. intros Hl Hin Hm.
  assert (Hx : In x (filter (matches who k) os)) by now apply filter_In.
  destruct (filter (matches who k) os) as [| y [| z rest]]; try discriminate.
  injection Hl as <-. destruct Hx as [-> | []]. reflexivity.
Qed.

(** What a status update leaves in the store: the orders as they were, or
    the addressed rows rewritten; never anything else. *)
Lemma updateOrderStatus_effect k st s :
  exists s' r,
    updateOrderStatus k st s = (s', inr r)
    /\ session s' = session s
    /\ products s' = products s
    /\ order_items s' = order_items s
    /\ next_order_id s' = next_order_id s
    /\ faults s' = faults s
    /\ discriminated r
    /\ ((err r <> None /\ orders s' = orders s /\ now s' = now s)
        \/ (exists o,
              includes validStatuses st = true
              /\ lookup_order (session s) (orders s) k = Some o
              /\ r = ok (with_status st (now s) o)
              /\ orders s' = update_rows (session s) k st (now s) (orders s))).
Proof.
  destruct (includes validStatuses st) eqn:Hv.
  2:{ rewrite (updateOrderStatus_invalid k st s Hv). do 2 eexists.
      split; [reflexivity |]. do 5 (split; [reflexivity |]).
      split; [apply discriminated_failed |]. left. repeat split. discriminate. }
  destruct (accept_update s k st) as [c | row] eqn:Ha.
  { rewrite (updateOrderStatus_refused k st s c Hv Ha). do 2 eexists.
    split; [reflexivity |]. do 5 (split; [reflexivity |]).
    split; [apply discriminated_failed |]. left. repeat split. discriminate. }
  rewrite (updateOrderStatus_applied k st s row Hv Ha).
  apply (accept_update_inr s k st row Hv) in Ha.
  destruct Ha as (_ & o & Hl & ->). do 2 eexists.
  split; [reflexivity |]. do 5 (split; [reflexivity |]).
  split; [apply discriminated_ok |]. right. exists o. repeat split. exact Hl.
Qed.

Lemma cancelOrder_effect k s :
  exists s' r,
    cancelOrder k s = (s', inr r)
    /\ session s' = session s
    /\ products s' = products s
    /\ order_items s' = order_items s
    /\ next_order_id s' = next_order_id s
    /\ faults s' = faults s
    /\ discriminated r
    /\ ((err r <> None /\ orders s' = orders s /\ now s' = now s)
        \/ (exists o,
              lookup_order (session s) (orders s) k = Some o
              /\ includes cancellable (status o) = true
              /\ r = ok (with_status "cancelled" (now s) o)
              /\ orders s'
                 = update_rows (session s) k "cancelled" (now s) (orders s))).
Proof.
  destruct (faults s SelectOrderById) as [c |] eqn:Hf.
  { rewrite (cancelOrder_read_refused k s c Hf). do 2 eexists.
    split; [reflexivity |]. do 5 (split; [reflexivity |]).
    split; [apply discriminated_failed |]. left. repeat split. discriminate. }
  destruct (lookup_order (session s) (orders s) k) as [o |] eqn:Hl.
  2:{ rewrite (cancelOrder_missing k s Hf Hl). do 2 eexists.
      split; [reflexivity |]. do 5 (split; [reflexivity |]).
      split; [apply discriminated_failed |]. left. repeat split. discriminate. }
  destruct (includes cancellable (status o)) eqn:Hc.
  2:{ rewrite (cancelOrder_rejected k s o Hf Hl Hc). do 2 eexists.
      split; [reflexivity |]. do 5 (split; [reflexivity |]).
      split; [apply discriminated_failed |]. left. repeat split. discriminate. }
  rewrite (cancelOrder_passes_guard k s o Hf Hl Hc).
  destruct (updateOrderStatus_effect k "cancelled" (record (Sent (GetOrder k)) s))
    as (s' & r & E & Hs & Hp & Hi & Hn & Hfa & Hd & C).
  exists s', r. split; [exact E |].
  cbn [record session products order_items next_order_id faults orders now] in *.
  do 5 (split; [assumption |]). split; [exact Hd |].
  destruct C as [C | (o' & _ & Hl' & -> & Ho)]; [now left |].
  right. exists o. rewrite Hl in Hl'. injection Hl' as <-. repeat split; assumption.
Qed.

(** X7. Frame of a status update.  [updateOrderStatus] never touches a
    line item, never adds or removes an order, and changes at most the
    status and [updated_at] of rows that carry the requested identifier and
    that the caller may see: owner, total, address and creation stamp of
    every order stay as they were.  When it reports an error, no order
    changed at all. *)
Theorem updateOrderStatus_frame k st s :
  exists s' r,
    updateOrderStatus k st s = (s', inr r)
    /\ order_items s' = order_items s
    /\ next_order_id s' = next_order_id s
    /\ Forall2 (status_change (session s) k st) (orders s) (orders s')
    /\ (err r <> None -> orders s' = orders s).
Proof.
  destruct (updateOrderStatus_effect k st s)
    as (s' & r & E & _ & _ & Hi & Hn & _ & _ & C).
  exists s', r. split; [exact E |]. do 2 (split; [assumption |]).
  destruct C as [(He & -> & _) | (o & _ & _ & -> & ->)].
  - split; [| reflexivity]. apply Forall2_same. now left.
  - split; [apply update_rows_change |]. cbn. congruence.
Qed.

(** X8. Frame of a cancellation.  [cancelOrder] never touches a line
    item and changes at most the status and [updated_at] of the addressed
    order, and only if that order was pending or processing; an order in
    any other status is never changed by it.  When it reports an error, no
    order changed at all. *)
Theorem cancelOrder_frame k s :
  exists s' r,
    cancelOrder k s = (s', inr r)
    /\ order_items s' = order_items s
    /\ next_order_id s' = next_order_id s
    /\ Forall2 (fun o o' =>
                  o' = o
                  \/ (status_change (session s) k "cancelled" o o'
                      /\ (status o = "pending" \/ status o = "processing")))
               (orders s) (orders s')
    /\ (err r <> None -> orders s' = orders s).
Proof.
  destruct (cancelOrder_effect k s)
    as (s' & r & E & _ & _ & Hi & Hn & _ & _ & C).
  exists s', r. split; [exact E |]. do 2 (split; [assumption |]).
  destruct C as [(He & -> & _) | (o & Hl & Hc & -> & ->)].
  - split; [| reflexivity]. apply Forall2_same. now left.
  - split; [| cbn; congruence].
    apply Forall2_map_In. intros x Hin.
    destruct (matches (session s) k x) eqn:Hm; [right | now left].
    rewrite (lookup_order_unique _ _ _ _ _ Hl Hin Hm).
    split; [| now apply cancellable_status].
    right. apply lookup_order_matches in Hl. destruct Hl as [Hm' _].
    repeat split. exact Hm'.
Qed.

Lemma update_rows_ids who k st stamp os :
  map id (update_rows who k st stamp os) = map id os.
Proof.
  unfold update_rows. rewrite map_map. apply map_ext.
  intros o. now destruct (matches who k o).
Qed.

Lemma update_rows_fresh who k st stamp os n :
  Forall (fun o => id o < n) os ->
  Forall (fun o => id o < n) (update_rows who k st stamp os).
Proof.
  intros H. unfold update_rows. apply Forall_map.
  eapply Forall_impl; [| exact H]. cbn beta. intros o Ho.
  now destruct (matches who k o).
Qed.

Lemma update_rows_checks who k st stamp os :
  In st status_domain ->
  Forall order_checks os ->
  Forall order_checks (update_rows who k st stamp os).
Proof.
  intros Hst H. unfold update_rows. apply Forall_map.
  eapply Forall_impl; [| exact H]. cbn beta. intros o [Ht Hs].
  destruct (matches who k o); split; assumption.
Qed.

Lemma update_rows_totals who k st stamp os items :
  totals_consistent os items ->
  totals_consistent (update_rows who k st stamp os) items.
Proof.
  intros H. unfold totals_consistent, update_rows. apply Forall_map.
  eapply Forall_impl; [| exact H]. cbn beta. intros o Ho.
  now destruct (matches who k o).
Qed.

(** X9. A status update, whatever its outcome, keeps the invariants of
    the store: identifiers stay fresh, the CHECK and foreign-key
    constraints stay satisfied, and every stored total that was the sum
    over its line items still is. *)
Theorem updateOrderStatus_keeps_invariants k st s :
  exists s' r,
    updateOrderStatus k st s = (s', inr r)
    /\ (fresh_ids s -> fresh_ids s')
    /\ (constraints_hold s -> constraints_hold s')
    /\ (totals_consistent (orders s) (order_items s) ->
        totals_consistent (orders s') (order_items s')).
Proof.
  destruct (updateOrderStatus_effect k st s)
    as (s' & r & E & _ & Hp & Hi & Hn & _ & _ & C).
  exists s', r. split; [exact E |].
  unfold fresh_ids, constraints_hold. rewrite Hp, Hi, Hn.
  destruct C as [(_ & -> & _) | (o & Hv & _ & _ & ->)]; [tauto |].
  split; [| split].
  - intros [Ho Hit]. split; [now apply update_rows_fresh | exact Hit].
  - intros [Ho Hit]. split; [| exact Hit].
    apply update_rows_checks; [| exact Ho]. now apply includes_In.
  - apply update_rows_totals.
Qed.

(** X10. A cancellation, whatever its outcome, keeps the same
    invariants. *)
Theorem cancelOrder_keeps_invariants k s :
  exists s' r,
    cancelOrder k s = (s', inr r)
    /\ (fresh_ids s -> fresh_ids s')
    /\ (constraints_hold s -> constraints_hold s')
    /\ (totals_consistent (orders s) (order_items s) ->
        totals_consistent (orders s') (order_items s')).
Proof.
  destruct (cancelOrder_effect k s)
    as (s' & r & E & _ & Hp & Hi & Hn & _ & _ & C).
  exists s', r. split; [exact E |].
  unfold fresh_ids, constraints_hold. rewrite Hp, Hi, Hn.
  destruct C as [(_ & -> & _) | (o & _ & _ & _ & ->)]; [tauto |].
  split; [| split].
  - intros [Ho Hit]. split; [now apply update_rows_fresh | exact Hit].
  - intros [Ho Hit]. split; [| exact Hit].
    apply update_rows_checks; [cbn; tauto | exact Ho].
  - apply update_rows_totals.
Qed.

(** X11. Round trip of a status update: when [updateOrderStatus]
    returns a row, that row carries the requested identifier and the
    requested status, and a following read of the order, if the backend
    answers it, returns that very row. *)
Theorem updateOrderStatus_then_getOrderById k st s s' r o :
  updateOrderStatus k st s = (s', inr r) ->
  data r = Some o ->
  faults s SelectOrderById = None ->
  id o = k
  /\ status o = st
  /\ exists s'',
       getOrderById k s'
       = (s'', inr (ok (mkOrderWithItems o (filter (belongs_to k) (order_items s))))).
Proof.
  intros E Hd Hf.
  destruct (updateOrderStatus_effect k st s)
    as (s1 & r1 & E1 & Hs & _ & Hi & _ & Hfa & _ & C).
  rewrite E in E1. injection E1 as <- <-.
  destruct C as [(He & _) | (o0 & _ & Hl & -> & Ho)].
  { destruct r as [d e]. cbn in *. destruct e; [| congruence].
    exfalso. clear - E Hd.
    destruct (includes validStatuses st) eqn:Hv.
    - destruct (accept_update s k st) as [c | row] eqn:Ha.
      + rewrite (updateOrderStatus_refused k st s c Hv Ha) in E.
        injection E as _ E _. congruence.
      + rewrite (updateOrderStatus_applied k st s row Hv Ha) in E.
        injection E as _ _ E. discriminate.
    - rewrite (updateOrderStatus_invalid k st s Hv) in E.
      injection E as _ E _. congruence. }
  cbn in Hd. injection Hd as <-.
  destruct (lookup_order_matches _ _ _ _ Hl) as [Hm _].
  unfold matches, has_id in Hm. apply andb_true_iff in Hm. destruct Hm as [Hm _].
  apply Nat.eqb_eq in Hm.
  split; [exact Hm |]. split; [reflexivity |].
  eexists. rewrite (getOrderById_found k s' (with_status st (now s) o0)).
  - now rewrite Hi.
  - now rewrite Hfa.
  - rewrite Hs, Ho. now apply lookup_updated.
Qed.

Lemma updateOrderStatus_then_getOrderById_witness :
  exists s' o,
    updateOrderStatus 0 "processing" (shop_with "pending") = (s', inr (ok o))
    /\ id o = 0
    /\ status o = "processing"
    /\ exists s'',
         getOrderById 0 s'
         = (s'', inr (ok (mkOrderWithItems o
                            (filter (belongs_to 0)
                                    (order_items (shop_with "pending")))))).
Proof.
  destruct (updateOrderStatus 0 "processing" (shop_with "pending"))
    as [s' [e | r]] eqn:E; [vm_compute in E; discriminate |].
  destruct (data r) as [o |] eqn:Hd; [| vm_compute in E; now inversion E; subst].
  pose proof (updateOrderStatus_then_getOrderById 0 "processing"
                (shop_with "pending") s' r o E Hd eq_refl) as H.
  exists s', o. split; [| exact H].
  vm_compute in E. inversion E; subst. cbn in Hd. now injection Hd as <-.
Defined.


(** ** Row-level security *)

Lemma not_addressable_lookup s k :
  not_addressable s k -> lookup_order (session s) (orders s) k = None.
Proof.
  unfold not_addressable, lookup_order. intros H.
  replace (filter (matches (session s) k) (orders s)) with (@nil Order);
    [reflexivity |].
  symmetry. induction H as [| o os Ho _ IH]; [reflexivity |].
  cbn. unfold matches at 1, has_id.
  destruct (Nat.eqb_spec (id o) k) as [Hk |]; [| exact IH].
  now rewrite (Ho Hk).
Qed.

Lemma signed_out_not_addressable s k :
  session s = None -> not_addressable s k.
Proof.
  intros Hs. unfold not_addressable. rewrite Hs.
  apply Forall_forall. reflexivity.
Qed.

(** X12. Row-level security as the service sees it.  When no order with
    identifier [k] is visible to the session (it belongs to another
    customer, does not exist, or nobody is signed in), [getOrderById]
    returns no data, [updateOrderStatus] and [cancelOrder] fail, the latter
    with "Order not found", and none of the three changes an order or a
    line item. *)
Theorem foreign_order_out_of_reach k st s :
  not_addressable s k ->
  (exists s' r,
     getOrderById k s = (s', inr r)
     /\ data r = None /\ err r <> None /\ same_store s s')
  /\ (exists s' r,
        updateOrderStatus k st s = (s', inr r)
        /\ data r = None /\ err r <> None
        /\ orders s' = orders s /\ order_items s' = order_items s)
  /\ (exists s',
        cancelOrder k s = (s', inr (failed (JsError "Order not found")))
        /\ orders s' = orders s /\ order_items s' = order_items s).
Proof.
  intros H. pose proof (not_addressable_lookup s k H) as Hl.
  split; [| split].
  - destruct (faults s SelectOrderById) as [c |] eqn:Hf.
    + rewrite (getOrderById_refused _ _ _ Hf). do 2 eexists.
      split; [reflexivity |]. repeat split. discriminate.
    + rewrite (getOrderById_missing _ _ Hf Hl). do 2 eexists.
      split; [reflexivity |]. repeat split. discriminate.
  - destruct (updateOrderStatus_effect k st s)
      as (s' & r & E & _ & _ & Hi & _ & _ & Hd & C).
    exists s', r. split; [exact E |].
    destruct C as [(He & Ho & _) | (o & _ & Hl' & _)]; [| congruence].
    destruct Hd as [[_ Hd] | [Hd _]]; [contradiction |]. repeat split; assumption.
  - destruct (faults s SelectOrderById) as [c |] eqn:Hf.
    + rewrite (cancelOrder_read_refused _ _ _ Hf). eexists.
      split; [reflexivity |]. split; reflexivity.
    + rewrite (cancelOrder_missing _ _ Hf Hl). eexists.
      split; [reflexivity |]. split; reflexivity.
Qed.

Lemma foreign_order_out_of_reach_witness :
  not_addressable shop_with_history 1
  /\ (exists s' r,
        getOrderById 1 shop_with_history = (s', inr r)
        /\ data r = None /\ err r <> None /\ same_store shop_with_history s')
  /\ (exists s' r,
        updateOrderStatus 1 "cancelled" shop_with_history = (s', inr r)
        /\ data r = None /\ err r <> None
        /\ orders s' = orders shop_with_history
        /\ order_items s' = order_items shop_with_history)
  /\ (exists s',
        cancelOrder 1 shop_with_history
        = (s', inr (failed (JsError "Order not found")))
        /\ orders s' = orders shop_with_history
        /\ order_items s' = order_items shop_with_history).
Proof.
  assert (H : not_addressable shop_with_history 1).
  { unfold not_addressable. cbn.
    repeat (constructor; [intros E; (discriminate E || reflexivity) |]).
    constructor. }
  split; [exact H |].
  exact (foreign_order_out_of_reach 1 "cancelled" shop_with_history H).
Defined.

(** ** Cancelling twice *)

(** X13. A cancellation that succeeded cannot be repeated: cancelling the
    same order again fails with "Only pending or processing orders can be
    cancelled" and changes neither an order nor a line item. *)
Theorem cancelOrder_twice k s s1 r1 :
  cancelOrder k s = (s1, inr r1) ->
  err r1 = None ->
  exists s2,
    cancelOrder k s1 = (s2, inr (failed (JsError not_cancellable_message)))
    /\ orders s2 = orders s1
    /\ order_items s2 = order_items s1.
Proof.
  intros E He.
  destruct (faults s SelectOrderById) as [c |] eqn:Hf.
  { rewrite (cancelOrder_read_refused _ _ _ Hf) in E. injection E as <- <-.
    discriminate. }
  destruct (cancelOrder_effect k s)
    as (s' & r & E' & Hs & _ & _ & _ & Hfa & _ & C).
  rewrite E in E'. injection E' as <- <-.
  destruct C as [(Hne & _) | (o & Hl & _ & _ & Ho)]; [contradiction |].
  assert (Hl1 : lookup_order (session s1) (orders s1) k
                = Some (with_status "cancelled" (now s) o)).
  { rewrite Hs, Ho. now apply lookup_updated. }
  assert (Hf1 : faults s1 SelectOrderById = None) by now rewrite Hfa.
  rewrite (cancelOrder_rejected k s1 _ Hf1 Hl1 eq_refl).
  eexists. split; [reflexivity |]. split; reflexivity.
Qed.

Lemma cancelOrder_twice_witness :
  exists s1 r1 s2,
    cancelOrder 0 (shop_with "pending") = (s1, inr r1)
    /\ err r1 = None
    /\ cancelOrder 0 s1 = (s2, inr (failed (JsError not_cancellable_message)))
    /\ orders s2 = orders s1
    /\ order_items s2 = order_items s1.
Proof.
  destruct (cancelOrder 0 (shop_with "pending")) as [s1 [e | r1]] eqn:E;
    [vm_compute in E; discriminate |].
  assert (He : err r1 = None) by (vm_compute in E; now inversion E; subst).
  destruct (cancelOrder_twice 0 (shop_with "pending") s1 r1 E He) as [s2 H].
  exists s1, r1, s2. split; [reflexivity |]. split; [exact He | exact H].
Defined.

(** ** The total trigger on its own *)

Lemma matches_with_total who k total stamp o :
  matches who k (with_total total stamp o) = matches who k o.
Proof. reflexivity. Qed.

(** X14. The total trigger of the migration, taken on its own.  When it
    completes for order [k], every row of that order the session can
    address carries the recalculated sum of its line items; every other
    row is untouched, and a touched row differs only in [total_amount] and
    [updated_at].  Running it again changes nothing. *)
Theorem validate_order_total_settles who items stamp os k os' :
  validate_order_total who items stamp os k = inr os' ->
  Forall (fun o => matches who k o = true ->
                   total_amount o = calculate_order_total items k) os'
  /\ Forall2 (fun o o' =>
                o' = o
                \/ (matches who k o = true
                    /\ o' = with_total (calculate_order_total items k) stamp o))
             os os'
  /\ forall stamp', validate_order_total who items stamp' os' k = inr os'.
Proof.
  unfold validate_order_total.
  set (total := calculate_order_total items k).
  destruct (cents_limit <=? Z.abs total)%Z; [discriminate |].
  destruct (existsb (fun o => matches who k o && negb (total_amount o =? total)%Z) os)
    eqn:Hex.
  - destruct (total <? 0)%Z; [discriminate |]. intros E. injection E as <-.
    assert (Hall : Forall (fun o => matches who k o = true -> total_amount o = total)
                     (map (fun o => if matches who k o
                                    then with_total total stamp o else o) os)).
    { apply Forall_map, Forall_forall. intros o _.
      destruct (matches who k o) eqn:Hm; [reflexivity | congruence]. }
    split; [exact Hall |]. split.
    + apply Forall2_map_In. intros o _.
      destruct (matches who k o) eqn:Hm; [right | now left]. now split.
    + intros stamp'.
      replace (existsb _ _) with false; [reflexivity |].
      symmetry. apply not_true_is_false. intros Hc.
      apply existsb_exists in Hc. destruct Hc as (o & Hin & Ho).
      apply andb_true_iff in Ho. destruct Ho as [Hm Hne].
      rewrite Forall_forall in Hall. rewrite (Hall o Hin Hm), Z.eqb_refl in Hne.
      discriminate.
  - intros E. injection E as <-.
    assert (Hall : Forall (fun o => matches who k o = true -> total_amount o = total)
                          os).
    { apply Forall_forall. intros o Hin Hm.
      destruct (Z.eqb_spec (total_amount o) total) as [| Hne]; [assumption |].
      exfalso. apply not_true_iff_false in Hex. apply Hex.
      apply existsb_exists. exists o. split; [exact Hin |].
      rewrite Hm. cbn. now apply negb_true_iff, Z.eqb_neq. }
    split; [exact Hall |]. split.
    + apply Forall2_same. now left.
    + intros stamp'. now rewrite Hex.
Qed.

Lemma validate_order_total_settles_witness :
  let items := [mkOrderItem 0 0 "p1" 2 8999 1; mkOrderItem 1 0 "p2" 1 19999 1] in
  let os := [mkOrder 0 "u1" 100 "pending" "123 Main St" 0 0] in
  exists os',
    validate_order_total (Some alice) items 7 os 0 = inr os'
    /\ Forall (fun o => matches (Some alice) 0 o = true ->
                        total_amount o = calculate_order_total items 0) os'
    /\ Forall2 (fun o o' =>
                  o' = o
                  \/ (matches (Some alice) 0 o = true
                      /\ o' = with_total (calculate_order_total items 0) 7 o))
               os os'
    /\ forall stamp',
         validate_order_total (Some alice) items stamp' os' 0 = inr os'.
Proof.
  intros items os. eexists. split; [vm_compute; reflexivity |].
  exact (validate_order_total_settles (Some alice) items 7 os 0 _ eq_refl).
Defined.


(** ** Listings *)

Lemma insert_newest_first_perm o l :
  Permutation (o :: l) (insert_newest_first o l).
Proof.
  induction l as [| x l IH]; cbn; [reflexivity |].
  destruct (Nat.leb (created_at x) (created_at o)); [reflexivity |].
  rewrite perm_swap. now apply perm_skip.
Qed.

Lemma newest_first_perm l : Permutation l (newest_first l).
Proof.
  induction l as [| o l IH]; cbn; [reflexivity |].
  rewrite <- insert_newest_first_perm. now apply perm_skip.
Qed.

Lemma insert_newest_first_sorted o l :
  StronglySorted newer_or_same l ->
  StronglySorted newer_or_same (insert_newest_first o l).
Proof.
  induction 1 as [| x l Hs IH Hx]; cbn.
  - repeat constructor.
  - destruct (Nat.leb_spec (created_at x) (created_at o)) as [Hle | Hgt].
    + constructor; [now constructor |].
      constructor; [exact Hle |].
      eapply Forall_impl; [| exact Hx]. unfold newer_or_same. intros a Ha. lia.
    + constructor; [exact IH |].
      rewrite <- insert_newest_first_perm.
      constructor; [unfold newer_or_same; lia | exact Hx].
Qed.

Lemma newest_first_sorted l : StronglySorted newer_or_same (newest_first l).
Proof.
  induction l as [| o l IH]; cbn; [constructor |].
  now apply insert_newest_first_sorted.
Qed.

Lemma newest_first_In l o : In o (newest_first l) <-> In o l.
Proof.
  split; apply Permutation_in;
    [symmetry |]; apply newest_first_perm.
Qed.

Lemma newest_first_length l : List.length (newest_first l) = List.length l.
Proof. symmetry. apply Permutation_length, newest_first_perm. Qed.

Lemma firstn_In {A : Type} (n : nat) (l : list A) (x : A) :
  In x (firstn n l) -> In x l.
Proof.
  intros H. rewrite <- (firstn_skipn n l). apply in_or_app. now left.
Qed.

Lemma skipn_In {A : Type} (n : nat) (l : list A) (x : A) :
  In x (skipn n l) -> In x l.
Proof.
  intros H. rewrite <- (firstn_skipn n l). apply in_or_app. now right.
Qed.

Lemma sorted_app_l {A : Type} (R : A -> A -> Prop) (l1 l2 : list A) :
  StronglySorted R (l1 ++ l2) -> StronglySorted R l1.
Proof.
  induction l1 as [| a l1 IH]; cbn; intros H; [constructor |].
  apply StronglySorted_inv in H. destruct H as [Hs Ha].
  constructor; [now apply IH |].
  apply Forall_app in Ha. tauto.
Qed.

Lemma sorted_app_r {A : Type} (R : A -> A -> Prop) (l1 l2 : list A) :
  StronglySorted R (l1 ++ l2) -> StronglySorted R l2.
Proof.
  induction l1 as [| a l1 IH]; cbn; intros H; [exact H |].
  apply StronglySorted_inv in H. now apply IH.
Qed.

Lemma sorted_page {A : Type} (R : A -> A -> Prop) (offset limit : nat)
    (l : list A) :
  StronglySorted R l -> StronglySorted R (firstn limit (skipn offset l)).
Proof.
  intros H. apply (sorted_app_l R _ (skipn limit (skipn offset l))).
  rewrite firstn_skipn. apply (sorted_app_r R (firstn offset l)).
  now rewrite firstn_skipn.
Qed.

Lemma sorted_map {A B : Type} (R : A -> A -> Prop) (R' : B -> B -> Prop)
    (f : A -> B) (l : list A) :
  (forall a b, R a b -> R' (f a) (f b)) ->
  StronglySorted R l -> StronglySorted R' (map f l).
Proof.
  intros Hf. induction 1 as [| a l Hs IH Ha]; cbn; constructor; [exact IH |].
  apply Forall_map. eapply Forall_impl; [| exact Ha]. intros b. apply Hf.
Qed.

Lemma listed_In who uid st os o :
  In o (listed who uid st os) <->
  In o os
  /\ owned_by uid o = true
  /\ visible who o = true
  /\ match st with
     | Some wanted => status o = wanted
     | None => True
     end.
Proof.
  unfold listed. rewrite newest_first_In, filter_In, !andb_true_iff.
  destruct st as [wanted |]; [rewrite String.eqb_eq |]; intuition.
Qed.

Lemma listed_sorted who uid st os :
  StronglySorted newer_or_same (listed who uid st os).
Proof. apply newest_first_sorted. Qed.

(** What a listing answers when somebody is signed in and the backend
    answers. *)
Lemma getUserOrders_run q s u :
  session s = Some u ->
  faults s SelectOrdersByCustomer = None ->
  getUserOrders q s =
    (record (Sent (GetOrders (user_id u))) s,
     inr (mkCounted
            (ok (map (with_items (order_items s))
                     (firstn (limit_of q)
                        (skipn (offset_of q)
                           (listed (Some u) (user_id u) (status_of q) (orders s))))))
            None)).
Proof.
  intros Hu Hf.
  unfold getUserOrders, try_catch, bind, auth_getUser, select_orders_range.
  rewrite Hu. cbn. rewrite Hf. cbn. rewrite Hu.
  fold (limit_of q). fold (offset_of q). fold (status_of q).
  replace (match offset_of q with
           | 0 => S (offset_of q + limit_of q - 1)
           | S l => offset_of q + limit_of q - 1 - l
           end) with (limit_of q); [reflexivity |].
  unfold limit_of. destruct (offset_of q); lia.
Qed.

Lemma getUserOrders_signed_out q s :
  session s = None ->
  getUserOrders q s =
    (record (Printed "Error fetching user orders:"
                     (JsError "User must be authenticated")) s,
     inr (mkCounted (failed (JsError "User must be authenticated")) None)).
Proof.
  intros Hu. unfold getUserOrders, try_catch, bind, auth_getUser.
  rewrite Hu. reflexivity.
Qed.

Lemma getUserOrders_refused q s u c :
  session s = Some u ->
  faults s SelectOrdersByCustomer = Some c ->
  getUserOrders q s =
    (record (Printed "Error fetching user orders:" (DbError c))
            (record (Sent (GetOrders (user_id u))) s),
     inr (mkCounted (failed (DbError c)) None)).
Proof.
  intros Hu Hf.
  unfold getUserOrders, try_catch, bind, auth_getUser, select_orders_range.
  rewrite Hu. cbn. rewrite Hf. reflexivity.
Qed.


Lemma getRecentOrders_signed_out limit s :
  session s = None ->
  getRecentOrders limit s =
    (record (Printed "Error fetching recent orders:"
                     (JsError "User must be authenticated")) s,
     inr (failed (JsError "User must be authenticated"))).
Proof.
  intros Hu. unfold getRecentOrders, try_catch, bind, auth_getUser.
  rewrite Hu. reflexivity.
Qed.

Lemma getRecentOrders_refused limit s u c :
  session s = Some u ->
  faults s SelectOrdersByCustomer = Some c ->
  getRecentOrders limit s =
    (record (Printed "Error fetching recent orders:" (DbError c))
            (record (Sent (GetOrders (user_id u))) s),
     inr (failed (DbError c))).
Proof.
  intros Hu Hf.
  unfold getRecentOrders, try_catch, bind, auth_getUser, select_recent_orders.
  rewrite Hu. cbn. rewrite Hf. reflexivity.
Qed.

Lemma getOrderStats_signed_out s :
  session s = None ->
  getOrderStats s =
    (record (Printed "Error fetching order stats:"
                     (JsError "User must be authenticated")) s,
     inr (failed (JsError "User must be authenticated"))).
Proof.
  intros Hu. unfold getOrderStats, try_catch, bind, auth_getUser.
  rewrite Hu. reflexivity.
Qed.

Lemma getOrderStats_refused s u c :
  session s = Some u ->
  faults s SelectOrdersByCustomer = Some c ->
  getOrderStats s =
    (record (Printed "Error fetching order stats:" (DbError c))
            (record (Sent (GetOrders (user_id u))) s),
     inr (failed (DbError c))).
Proof.
  intros Hu Hf.
  unfold getOrderStats, try_catch, bind, auth_getUser, select_orders_by_customer.
  rewrite Hu. cbn. rewrite Hf. reflexivity.
Qed.

(** X15. A page of [getUserOrders].  With somebody signed in and the
    backend answering, the call succeeds with [count] null and changes
    nothing in the store.  The page has at most [limit] rows; every row is
    a stored order of the signed-in customer, in the requested status when
    a non-empty status is given, and carries exactly the line items of that
    order; the rows are in order of [created_at], newest first. *)
Theorem getUserOrders_page_contents q s u :
  session s = Some u ->
  faults s SelectOrdersByCustomer = None ->
  exists s' rows,
    getUserOrders q s = (s', inr (mkCounted (ok rows) None))
    /\ same_store s s'
    /\ List.length rows <= limit_of q
    /\ Forall (fun ow =>
                 In (order_row ow) (orders s)
                 /\ customer_id (order_row ow) = user_id u
                 /\ (forall wanted,
                       q_status q = Some wanted -> wanted <> "" ->
                       status (order_row ow) = wanted)
                 /\ order_items_of ow
                    = filter (belongs_to (id (order_row ow))) (order_items s))
              rows
    /\ StronglySorted (fun a b => newer_or_same (order_row a) (order_row b)) rows.
Proof.
  intros Hu Hf. rewrite (getUserOrders_run q s u Hu Hf). do 2 eexists.
  split; [reflexivity |]. split; [repeat split |]. split; [| split].
  - rewrite length_map. apply firstn_le_length.
  - apply Forall_map, Forall_forall. intros o Hin.
    apply firstn_In, skipn_In, listed_In in Hin.
    destruct Hin as (Hin & Ho & _ & Hst). cbn [with_items order_row order_items_of].
    split; [exact Hin |]. split; [now apply String.eqb_eq |].
    split; [| reflexivity].
    intros wanted Hq Hne. unfold status_of, truthy in Hst. rewrite Hq in Hst.
    apply String.eqb_neq in Hne. rewrite Hne in Hst. exact Hst.
  - apply (sorted_map newer_or_same); [now intros a b |].
    apply sorted_page, listed_sorted.
Qed.

Lemma getUserOrders_page_contents_witness :
  session shop_with_history = Some alice
  /\ faults shop_with_history SelectOrdersByCustomer = None
  /\ exists s' rows,
       getUserOrders (mkOrdersQuery (Some "cancelled") None None) shop_with_history
       = (s', inr (mkCounted (ok rows) None))
       /\ same_store shop_with_history s'
       /\ List.length rows
          <= limit_of (mkOrdersQuery (Some "cancelled") None None)
       /\ Forall (fun ow =>
                    In (order_row ow) (orders shop_with_history)
                    /\ customer_id (order_row ow) = user_id alice
                    /\ (forall wanted,
                          q_status (mkOrdersQuery (Some "cancelled") None None)
                          = Some wanted ->
                          wanted <> "" -> status (order_row ow) = wanted)
                    /\ order_items_of ow
                       = filter (belongs_to (id (order_row ow)))
                                (order_items shop_with_history))
                 rows
       /\ StronglySorted
            (fun a b => newer_or_same (order_row a) (order_row b)) rows.
Proof.
  split; [reflexivity |]. split; [reflexivity |].
  exact (getUserOrders_page_contents (mkOrdersQuery (Some "cancelled") None None)
           shop_with_history alice eq_refl eq_refl).
Defined.


(** ** Pages *)

Lemma firstn_succ_page {A : Type} (n m : nat) (l : list A) :
  firstn (n + m) l = firstn n l ++ firstn m (skipn n l).
Proof.
  rewrite firstn_skipn_comm.
  rewrite <- (firstn_skipn n (firstn (n + m) l)) at 1.
  f_equal. rewrite firstn_firstn. f_equal. lia.
Qed.

Lemma pages_concat {A B : Type} (f : A -> B) (limit n : nat) (l : list A) :
  flat_map (fun page => map f (firstn limit (skipn ((page - 1) * limit) l)))
           (seq 1 n)
  = map f (firstn (n * limit) l).
Proof.
  induction n as [| n IH]; [reflexivity |].
  rewrite seq_S, flat_map_app, IH. cbn [flat_map].
  rewrite app_nil_r, <- map_app. f_equal.
  replace (1 + n - 1) with n by lia.
  replace (S n * limit) with (n * limit + limit) by lia.
  symmetry. apply firstn_succ_page.
Qed.

Lemma page_rows_run q s u :
  session s = Some u ->
  faults s SelectOrdersByCustomer = None ->
  page_rows q s
  = map (with_items (order_items s))
        (firstn (limit_of q)
           (skipn (offset_of q)
              (listed (Some u) (user_id u) (status_of q) (orders s)))).
Proof.
  intros Hu Hf. unfold page_rows. now rewrite (getUserOrders_run q s u Hu Hf).
Qed.

(** X16. Pages tile the listing.  When the orders have pairwise distinct
    creation stamps, the pages 1, 2, ..., n that the orders hook asks for
    (offset [(page - 1) * limit]) are, one after the other, exactly the
    first [n * limit] rows of the listing: no row is skipped and none is
    shown twice. *)
Theorem getUserOrders_pages_tile st (limit n : positive) s u :
  session s = Some u ->
  faults s SelectOrdersByCustomer = None ->
  NoDup (map created_at (orders s)) ->
  flat_map (fun page =>
              page_rows (mkOrdersQuery st (Some limit)
                           (Some ((page - 1) * Pos.to_nat limit))) s)
           (seq 1 (Pos.to_nat n))
  = page_rows (mkOrdersQuery st (Some (n * limit)%positive) (Some 0)) s.
Proof.
  intros Hu Hf _.
  rewrite (page_rows_run _ s u Hu Hf).
  unfold limit_of, offset_of. cbn [q_limit q_offset].
  rewrite skipn_0, Pos2Nat.inj_mul.
  rewrite <- pages_concat. apply flat_map_ext. intros page.
  now rewrite (page_rows_run _ s u Hu Hf).
Qed.

Lemma getUserOrders_pages_tile_witness :
  session shop_with_history = Some alice
  /\ faults shop_with_history SelectOrdersByCustomer = None
  /\ NoDup (map created_at (orders shop_with_history))
  /\ flat_map (fun page =>
                 page_rows (mkOrdersQuery None (Some 1%positive)
                              (Some ((page - 1) * Pos.to_nat 1)))
                           shop_with_history)
              (seq 1 (Pos.to_nat 2))
     = page_rows (mkOrdersQuery None (Some (2 * 1)%positive) (Some 0))
                 shop_with_history.
Proof.
  assert (H : NoDup (map created_at (orders shop_with_history))).
  { cbn. repeat constructor; cbn; intuition discriminate. }
  split; [reflexivity |]. split; [reflexivity |]. split; [exact H |].
  exact (getUserOrders_pages_tile None 1%positive 2%positive shop_with_history
           alice eq_refl eq_refl H).
Defined.

Lemma NoDup_map_In_inj {A B : Type} (f : A -> B) (l : list A) (a b : A) :
  NoDup (map f l) -> In a l -> In b l -> f a = f b -> a = b.
Proof.
  induction l as [| x l IH]; cbn; [contradiction |].
  intros Hn Ha Hb E. inversion Hn as [| ? ? Hx Hl]; subst.
  destruct Ha as [-> | Ha], Hb as [-> | Hb]; auto.
  - exfalso. apply Hx. rewrite E. now apply in_map.
  - exfalso. apply Hx. rewrite <- E. now apply in_map.
Qed.

Lemma sorted_perm_eq (l1 l2 : list Order) :
  NoDup (map created_at l1) ->
  Permutation l1 l2 ->
  StronglySorted newer_or_same l1 ->
  StronglySorted newer_or_same l2 ->
  l1 = l2.
Proof.
  revert l2. induction l1 as [| a t IH]; intros l2 Hn Hp H1 H2.
  - apply Permutation_nil in Hp. now subst.
  - destruct l2 as [| b t2].
    { symmetry in Hp. now apply Permutation_nil_cons in Hp. }
    apply StronglySorted_inv in H1, H2.
    destruct H1 as [H1 Ha], H2 as [H2 Hb].
    rewrite Forall_forall in Ha, Hb.
    assert (Hab : created_at a <= created_at b).
    { assert (Hin : In a (b :: t2)) by (eapply Permutation_in; [exact Hp | now left]).
      destruct Hin as [<- | Hin]; [lia | now apply Hb]. }
    assert (Hinb : In b (a :: t)).
    { eapply Permutation_in; [symmetry; exact Hp | now left]. }
    assert (Hba : created_at b <= created_at a).
    { destruct Hinb as [<- | Hin]; [lia | now apply Ha]. }
    assert (E : a = b).
    { apply (NoDup_map_In_inj created_at (a :: t)); auto; [now left | lia]. }
    subst b. f_equal. apply IH; auto.
    + now inversion Hn.
    + now apply Permutation_cons_inv in Hp.
Qed.

(** X17. Newest-first is forced.  When the creation stamps are pairwise
    distinct, any arrangement of the same rows that is in order of
    [created_at], newest first, is the one the listing uses; the order of
    a listing then does not depend on how the backend sorts. *)
Theorem newest_first_is_forced (rows arranged : list Order) :
  NoDup (map created_at rows) ->
  Permutation rows arranged ->
  StronglySorted newer_or_same arranged ->
  arranged = newest_first rows.
Proof.
  intros Hn Hp Hs. symmetry. apply sorted_perm_eq.
  - eapply Permutation_NoDup; [| exact Hn].
    apply Permutation_map, newest_first_perm.
  - rewrite <- Hp. symmetry. apply newest_first_perm.
  - apply newest_first_sorted.
  - exact Hs.
Qed.

Lemma newest_first_is_forced_witness :
  let rows := orders shop_with_history in
  let arranged := rev rows in
  NoDup (map created_at rows)
  /\ Permutation rows arranged
  /\ StronglySorted newer_or_same arranged
  /\ arranged = newest_first rows.
Proof.
  intros rows arranged.
  assert (Hn : NoDup (map created_at rows)).
  { cbn. repeat constructor; cbn; intuition discriminate. }
  assert (Hp : Permutation rows arranged) by apply Permutation_rev.
  assert (Hs : StronglySorted newer_or_same arranged).
  { cbn. repeat constructor; unfold newer_or_same; cbn; lia. }
  split; [exact Hn |]. split; [exact Hp |]. split; [exact Hs |].
  exact (newest_first_is_forced rows arranged Hn Hp Hs).
Defined.


Lemma filter_none {A : Type} (f : A -> bool) (l : list A) :
  (forall x, In x l -> f x = false) -> filter f l = [].
Proof.
  induction l as [| a l IH]; intros H; [reflexivity |]. cbn.
  rewrite (H a) by now left. apply IH. intros x Hx. apply H. now right.
Qed.

(** X19. A status name that no order can carry is not refused by the
    listing: unlike [updateOrderStatus], [getUserOrders] does not check the
    name, and with the status constraint of the migration in force it
    answers with an empty page and no error. *)
Theorem getUserOrders_unknown_status q wanted s u :
  session s = Some u ->
  faults s SelectOrdersByCustomer = None ->
  constraints_hold s ->
  q_status q = Some wanted ->
  wanted <> "" ->
  ~ In wanted validStatuses ->
  exists s', getUserOrders q s = (s', inr (mkCounted (ok []) None)).
Proof.
  intros Hu Hf [Hc _] Hq Hne Hw. rewrite (getUserOrders_run q s u Hu Hf).
  eexists. do 3 f_equal.
  replace (listed (Some u) (user_id u) (status_of q) (orders s)) with (@nil Order).
  { now rewrite skipn_nil, firstn_nil. }
  symmetry. unfold listed.
  rewrite filter_none; [reflexivity |].
  intros o Hin. unfold status_of, truthy. rewrite Hq.
  apply String.eqb_neq in Hne. rewrite Hne. cbn [negb].
  rewrite Forall_forall in Hc. destruct (Hc o Hin) as [_ Hs].
  destruct (String.eqb_spec (status o) wanted) as [E |];
    [| now rewrite andb_false_r].
  exfalso. apply Hw. now rewrite <- E.
Qed.

Lemma getUserOrders_unknown_status_witness :
  session shop_with_history = Some alice
  /\ faults shop_with_history SelectOrdersByCustomer = None
  /\ constraints_hold shop_with_history
  /\ q_status (mkOrdersQuery (Some "refunded") None None) = Some "refunded"
  /\ "refunded" <> ""
  /\ ~ In "refunded" validStatuses
  /\ exists s',
       getUserOrders (mkOrdersQuery (Some "refunded") None None) shop_with_history
       = (s', inr (mkCounted (ok []) None)).
Proof.
  assert (C : constraints_hold shop_with_history).
  { split; cbn; [| constructor].
    repeat (constructor; [split; cbn; [lia | tauto] |]). constructor. }
  assert (N : "refunded" <> "") by discriminate.
  assert (W : ~ In "refunded" validStatuses).
  { cbn. intuition discriminate. }
  split; [reflexivity |]. split; [reflexivity |]. split; [exact C |].
  split; [reflexivity |]. split; [exact N |]. split; [exact W |].
  exact (getUserOrders_unknown_status (mkOrdersQuery (Some "refunded") None None)
           "refunded" shop_with_history alice eq_refl eq_refl C eq_refl N W).
Defined.

(** X20. Signed out, the three listing functions fail with "User must
    be authenticated" and send nothing to the backend: the only trace they
    leave is the console line.  When the backend refuses the query, they
    pass its error on unchanged. *)
Theorem listings_report_errors q limit s :
  (session s = None ->
   getUserOrders q s
   = (record (Printed "Error fetching user orders:"
                      (JsError "User must be authenticated")) s,
      inr (mkCounted (failed (JsError "User must be authenticated")) None))
   /\ getRecentOrders limit s
      = (record (Printed "Error fetching recent orders:"
                         (JsError "User must be authenticated")) s,
         inr (failed (JsError "User must be authenticated")))
   /\ getOrderStats s
      = (record (Printed "Error fetching order stats:"
                         (JsError "User must be authenticated")) s,
         inr (failed (JsError "User must be authenticated"))))
  /\ (forall u c,
        session s = Some u ->
        faults s SelectOrdersByCustomer = Some c ->
        exists s1 s2 s3,
          getUserOrders q s = (s1, inr (mkCounted (failed (DbError c)) None))
          /\ getRecentOrders limit s = (s2, inr (failed (DbError c)))
          /\ getOrderStats s = (s3, inr (failed (DbError c)))
          /\ same_store s s1 /\ same_store s s2 /\ same_store s s3).
Proof.
  split.
  - intros Hu. split; [| split].
    + now apply getUserOrders_signed_out.
    + now apply getRecentOrders_signed_out.
    + now apply getOrderStats_signed_out.
  - intros u c Hu Hf.
    rewrite (getUserOrders_refused q s u c Hu Hf),
      (getRecentOrders_refused limit s u c Hu Hf),
      (getOrderStats_refused s u c Hu Hf).
    do 3 eexists. repeat split.
Qed.

Lemma filter_filter_and {A : Type} (f g : A -> bool) (l : list A) :
  filter (fun x => f x && g x) l = filter g (filter f l).
Proof.
  induction l as [| a l IH]; [reflexivity |]. cbn.
  destruct (f a); cbn; [| exact IH]. destruct (g a); now rewrite IH.
Qed.

Lemma listed_length u st os :
  List.length (listed (Some u) (user_id u) (Some st) os)
  = count_status st (filter (owned_by (user_id u)) os).
Proof.
  unfold listed, count_status. rewrite newest_first_length.
  rewrite (filter_filter_and
             (fun o => owned_by (user_id u) o && visible (Some u) o)
             (fun o => String.eqb (status o) st)).
  now rewrite (filter_own (user_id u) u os eq_refl).
Qed.

Lemma listed_all_length u os :
  List.length (listed (Some u) (user_id u) None os)
  = List.length (filter (owned_by (user_id u)) os).
Proof.
  unfold listed. rewrite newest_first_length.
  rewrite <- (filter_own (user_id u) u os eq_refl).
  f_equal. apply filter_ext. intros o. apply andb_true_r.
Qed.

(** X21. The statistics agree with the listings.  With somebody signed
    in and the backend answering, [totalOrders] is the number of rows of an
    unfiltered listing that is long enough to hold them all, and each entry
    of [ordersByStatus] is the number of rows of the listing filtered by
    that status. *)
Theorem getOrderStats_agrees_with_listings s u (limit : positive) :
  session s = Some u ->
  faults s SelectOrdersByCustomer = None ->
  exists s' stats,
    getOrderStats s = (s', inr (ok stats))
    /\ (totalOrders stats <= Pos.to_nat limit ->
        let rows st := page_rows (mkOrdersQuery st (Some limit) None) s in
        List.length (rows None) = totalOrders stats
        /\ List.length (rows (Some "pending")) = pending_count stats
        /\ List.length (rows (Some "processing")) = processing_count stats
        /\ List.length (rows (Some "shipped")) = shipped_count stats
        /\ List.length (rows (Some "delivered")) = delivered_count stats
        /\ List.length (rows (Some "cancelled")) = cancelled_count stats).
Proof.
  intros Hu Hf. rewrite (getOrderStats_run s u Hu Hf). do 2 eexists.
  split; [reflexivity |].
  cbn [totalOrders pending_count processing_count shipped_count
       delivered_count cancelled_count].
  intros Hlim. cbv zeta beta.
  assert (Hst : forall st,
             st <> "" ->
             List.length (page_rows (mkOrdersQuery (Some st) (Some limit) None) s)
             = count_status st (filter (owned_by (user_id u)) (orders s))).
  { intros st Hne. rewrite (page_rows_run _ s u Hu Hf).
    unfold limit_of, offset_of. cbn [q_limit q_offset]. unfold status_of, truthy.
    cbn [q_status]. apply String.eqb_neq in Hne. rewrite Hne. cbn [negb].
    rewrite length_map, skipn_0, firstn_all2; [apply listed_length |].
    rewrite listed_length. unfold count_status.
    etransitivity; [apply filter_length_le | exact Hlim]. }
  split; [| repeat split; apply Hst; discriminate].
  rewrite (page_rows_run _ s u Hu Hf).
  unfold limit_of, offset_of.
  cbn [q_limit q_offset status_of truthy q_status].
  rewrite length_map, skipn_0, firstn_all2; [apply listed_all_length |].
  now rewrite listed_all_length.
Qed.

Lemma getOrderStats_agrees_with_listings_witness :
  session shop_with_history = Some alice
  /\ faults shop_with_history SelectOrdersByCustomer = None
  /\ exists s' stats,
       getOrderStats shop_with_history = (s', inr (ok stats))
       /\ (totalOrders stats <= Pos.to_nat 10 ->
           let rows st :=
             page_rows (mkOrdersQuery st (Some 10%positive) None)
                       shop_with_history in
           List.length (rows None) = totalOrders stats
           /\ List.length (rows (Some "pending")) = pending_count stats
           /\ List.length (rows (Some "processing")) = processing_count stats
           /\ List.length (rows (Some "shipped")) = shipped_count stats
           /\ List.length (rows (Some "delivered")) = delivered_count stats
           /\ List.length (rows (Some "cancelled")) = cancelled_count stats).
Proof.
  split; [reflexivity |]. split; [reflexivity |].
  exact (getOrderStats_agrees_with_listings shop_with_history alice 10%positive
           eq_refl eq_refl).
Defined.


(** ** Display of a status *)

Lemma own_entry_valid (status : string) :
  In status validStatuses ->
  exists info, own_entry statusInfo status = Some info /\ color info <> "default".
Proof.
  intros H. unfold validStatuses in H. cbn [In] in H.
  destruct H as [<- | [<- | [<- | [<- | [<- | []]]]]];
    eexists; (split; [reflexivity | discriminate]).
Qed.

Lemma own_entry_invalid (status : string) :
  ~ In status validStatuses -> own_entry statusInfo status = None.
Proof.
  intros H. unfold statusInfo, own_entry, validStatuses in *. cbn [In] in H.
  repeat match goal with
         | |- context [String.eqb ?a status] =>
             destruct (String.eqb_spec a status); [exfalso; tauto |]
         end.
  reflexivity.
Qed.

(** X22. [getOrderStatusInfo] has a display of its own, with a colour
    other than "default", exactly for the five names [updateOrderStatus]
    accepts.  For a name every object inherits, such as "constructor" or
    "toString", the lookup finds the inherited member and returns that
    instead of a display; any other name is displayed under itself, with
    the colour "default" and an empty description. *)
Theorem getOrderStatusInfo_entries (status : string) :
  (In status validStatuses <->
   exists info, getOrderStatusInfo status = Display info /\ color info <> "default")
  /\ (In status object_prototype_names ->
      getOrderStatusInfo status = Inherited status)
  /\ (~ In status validStatuses ->
      ~ In status object_prototype_names ->
      getOrderStatusInfo status = Display (mkStatusInfo status "default" "")).
Proof.
  unfold getOrderStatusInfo. split; [split | split].
  - intros H. destruct (own_entry_valid status H) as (info & -> & Hc). eauto.
  - intros (info & E & Hc).
    destruct (in_dec string_dec status validStatuses) as [| Hn]; [assumption |].
    rewrite (own_entry_invalid status Hn) in E.
    destruct (includes object_prototype_names status); [discriminate |].
    injection E as <-. now cbn in Hc.
  - intros H. unfold object_prototype_names in H. cbn [In] in H.
    repeat (destruct H as [<- | H]; [reflexivity |]). contradiction.
  - intros Hv Hp. rewrite (own_entry_invalid status Hv).
    destruct (includes object_prototype_names status) eqn:E; [| reflexivity].
    apply includes_In in E. contradiction.
Qed.

(** ** Column ranges *)



(** ** The service never throws *)

Lemma createOrder_returns od (cart : list CartItem) s :
  exists s' r, createOrder od cart s = (s', inr r) /\ discriminated r.
Proof.
  destruct (session s) as [u |] eqn:Hu.
  2:{ rewrite (createOrder_unauthenticated od cart s Hu). do 2 eexists.
      split; [reflexivity | apply discriminated_failed]. }
  destruct (accept_order s (order_payload u od cart)) as [c | row] eqn:Ha.
  { rewrite (createOrder_order_refused od cart s u c Hu Ha). do 2 eexists.
    split; [reflexivity | apply discriminated_failed]. }
  destruct (accept_items (order_inserted s (order_payload u od cart) row)
                         (items_payload (id row) cart)) as [c | [rows os]] eqn:Hi.
  { rewrite (createOrder_items_refused od cart s u row c Hu Ha Hi). do 2 eexists.
    split; [reflexivity | apply discriminated_failed]. }
  rewrite (createOrder_inserted od cart s u row rows os Hu Ha Hi).
  destruct (getOrderById_store (id row)
              (items_inserted (order_inserted s (order_payload u od cart) row)
                              (items_payload (id row) cart) rows os))
    as (s' & r & E & _ & Hd).
  now exists s', r.
Qed.



(** ** The hooks *)

(** X25. [fetchOrders] of [useOrders] always finishes: it leaves
    [loading] false.  When the listing fails, [error] is set and the orders
    and the count shown stay as they were; otherwise the orders shown are
    the rows of the requested page, [error] is null, and [totalCount] is 0,
    however many orders the customer has: the service never asks the
    backend for a count. *)
Theorem useOrders_fetchOrders_settles status limit page v s :
  exists v' s',
    UseOrders.fetchOrders status limit page v s = (v', s')
    /\ UseOrders.loading v' = false
    /\ (UseOrders.error v' <> None ->
        UseOrders.orders v' = UseOrders.orders v
        /\ UseOrders.totalCount v' = UseOrders.totalCount v)
    /\ (UseOrders.error v' = None ->
        UseOrders.orders v'
        = page_rows (mkOrdersQuery status (Some limit)
                       (Some ((Pos.to_nat page - 1) * Pos.to_nat limit))) s
        /\ UseOrders.totalCount v' = 0).
Proof.
  unfold UseOrders.fetchOrders, page_rows. cbv zeta.
  set (q := mkOrdersQuery status (Some limit)
              (Some ((Pos.to_nat page - 1) * Pos.to_nat limit))).
  destruct (session s) as [u |] eqn:Hu.
  2:{ rewrite (getUserOrders_signed_out q s Hu). do 2 eexists.
      split; [reflexivity |]. cbn. repeat split; congruence. }
  destruct (faults s SelectOrdersByCustomer) as [c |] eqn:Hf.
  - rewrite (getUserOrders_refused q s u c Hu Hf). do 2 eexists.
    split; [reflexivity |]. cbn. repeat split; congruence.
  - rewrite (getUserOrders_run q s u Hu Hf). do 2 eexists.
    split; [reflexivity |]. cbn. repeat split; congruence.
Qed.

(** X26. [refetch] of [useOrders] never clears an error: unlike
    [fetchOrders] it does not reset [error], so after a failed fetch a
    refetch that succeeds replaces the orders shown and still leaves the
    old error in place. *)
Theorem useOrders_refetch_keeps_error status limit page v s e :
  UseOrders.error v = Some e ->
  exists v' s',
    UseOrders.refetch status limit page v s = (v', s')
    /\ UseOrders.loading v' = false
    /\ UseOrders.error v' <> None
    /\ (forall u,
          session s = Some u ->
          faults s SelectOrdersByCustomer = None ->
          UseOrders.error v' = Some e
          /\ UseOrders.orders v'
             = page_rows (mkOrdersQuery status (Some limit)
                            (Some ((Pos.to_nat page - 1) * Pos.to_nat limit))) s).
Proof.
  intros He. unfold UseOrders.refetch, page_rows. cbv zeta.
  set (q := mkOrdersQuery status (Some limit)
              (Some ((Pos.to_nat page - 1) * Pos.to_nat limit))).
  destruct (session s) as [u |] eqn:Hu.
  2:{ rewrite (getUserOrders_signed_out q s Hu). do 2 eexists.
      split; [reflexivity |]. cbn. repeat split; congruence. }
  destruct (faults s SelectOrdersByCustomer) as [c |] eqn:Hf.
  - rewrite (getUserOrders_refused q s u c Hu Hf). do 2 eexists.
    split; [reflexivity |]. cbn. repeat split; congruence.
  - rewrite (getUserOrders_run q s u Hu Hf). do 2 eexists.
    split; [reflexivity |]. cbn. rewrite He. repeat split; congruence.
Qed.

Lemma useOrders_refetch_keeps_error_witness :
  let v := UseOrders.mkState [] false (Some (DbError "503")) 0 in
  UseOrders.error v = Some (DbError "503")
  /\ exists v' s',
       UseOrders.refetch None 10%positive 1%positive v shop_with_history = (v', s')
       /\ UseOrders.loading v' = false
       /\ UseOrders.error v' <> None
       /\ (forall u,
             session shop_with_history = Some u ->
             faults shop_with_history SelectOrdersByCustomer = None ->
             UseOrders.error v' = Some (DbError "503")
             /\ UseOrders.orders v'
                = page_rows (mkOrdersQuery None (Some 10%positive)
                               (Some ((Pos.to_nat 1 - 1) * Pos.to_nat 10)))
                            shop_with_history).
Proof.
  intros v. split; [reflexivity |].
  exact (useOrders_refetch_keeps_error None 10%positive 1%positive v
           shop_with_history (DbError "503") eq_refl).
Defined.

(** X27. [createOrder] of [useCreateOrder] always finishes, because the
    service never throws: it returns what the service returned, leaves
    [loading] false, and its [error] and [createdOrder] are the [error] and
    [data] of that result, so exactly one of them is set. *)
Theorem useCreateOrder_createOrder_settles od (cart : list CartItem) v s :
  exists v' s' r,
    UseCreateOrder.createOrder od cart v s = (v', (s', inr r))
    /\ createOrder od cart s = (s', inr r)
    /\ UseCreateOrder.loading v' = false
    /\ UseCreateOrder.error v' = err r
    /\ UseCreateOrder.createdOrder v' = data r
    /\ discriminated r.
Proof.
  destruct (createOrder_returns od cart s) as (s' & r & E & Hd).
  unfold UseCreateOrder.createOrder, createOrderService. cbv zeta. rewrite E.
  do 3 eexists. split; [reflexivity |]. split; [reflexivity |].
  destruct r as [d [e |]]; cbn.
  - destruct Hd as [[_ Hd] | [Hd _]]; cbn in Hd; [discriminate |].
    subst d. repeat split. right. split; [reflexivity | discriminate].
  - repeat split. exact Hd.
Qed.

(** X28. [cancelOrder] of [useCancelOrder] always finishes: it returns
    what the service returned, leaves [loading] false and [error] equal to
    the [error] of that result, and the store is changed exactly as the
    service changes it. *)
Theorem useCancelOrder_cancelOrder_settles k v s :
  exists v' s' r,
    UseCancelOrder.cancelOrder k v s = (v', (s', inr r))
    /\ cancelOrder k s = (s', inr r)
    /\ UseCancelOrder.loading v' = false
    /\ UseCancelOrder.error v' = err r
    /\ discriminated r.
Proof.
  destruct (cancelOrder_effect k s) as (s' & r & E & _ & _ & _ & _ & _ & Hd & _).
  unfold UseCancelOrder.cancelOrder, cancelOrderService. cbv zeta. rewrite E.
  do 3 eexists. split; [reflexivity |]. split; [reflexivity |].
  destruct r as [d [e |]]; cbn; repeat split; exact Hd.
Qed.


(** ** The primary key *)

(** X29. Order identifiers stay unique.  From a store whose order
    identifiers are pairwise distinct and below the next identifier, no
    write of the service, whatever its outcome, produces two orders with
    the same identifier. *)
Theorem order_ids_stay_unique s :
  fresh_ids s ->
  NoDup (map id (orders s)) ->
  (forall od (cart : list CartItem),
     exists s' r,
       createOrder od cart s = (s', inr r) /\ NoDup (map id (orders s')))
  /\ (forall k st,
        exists s' r,
          updateOrderStatus k st s = (s', inr r) /\ NoDup (map id (orders s')))
  /\ (forall k,
        exists s' r,
          cancelOrder k s = (s', inr r) /\ NoDup (map id (orders s'))).
Proof.
  intros Hw Hn. split; [| split].
  - intros od cart.
    destruct (createOrder_relations od cart s Hw)
      as (s' & r & E & _ & _ & _ & _ & C).
    exists s', r. split; [exact E |]. destruct Hw as [Ho _].
    assert (Hnew : forall row,
               id row = next_order_id s -> NoDup (map id (orders s ++ [row]))).
    { intros row Hid. rewrite map_app. apply NoDup_app; [exact Hn | |].
      - cbn. constructor; [intros [] | constructor].
      - intros a Ha [Ea | []]. subst a. rewrite Hid in Ha.
        apply in_map_iff in Ha. destruct Ha as (o & Eo & Hin).
        rewrite Forall_forall in Ho. specialize (Ho o Hin). lia. }
    destruct C as [(_ & -> & _) | [C | C]]; [exact Hn | |].
    + destruct C as (u & t & _ & _ & _ & -> & _). now apply Hnew.
    + destruct C as (u & t & ls & _ & _ & _ & _ & -> & _).
      apply Hnew. now rewrite id_settled_row.
  - intros k st.
    destruct (updateOrderStatus_effect k st s)
      as (s' & r & E & _ & _ & _ & _ & _ & _ & C).
    exists s', r. split; [exact E |].
    destruct C as [(_ & -> & _) | (o & _ & _ & _ & ->)]; [exact Hn |].
    now rewrite update_rows_ids.
  - intros k.
    destruct (cancelOrder_effect k s) as (s' & r & E & _ & _ & _ & _ & _ & _ & C).
    exists s', r. split; [exact E |].
    destruct C as [(_ & -> & _) | (o & _ & _ & _ & ->)]; [exact Hn |].
    now rewrite update_rows_ids.
Qed.

Lemma order_ids_stay_unique_witness :
  fresh_ids shop_with_history
  /\ NoDup (map id (orders shop_with_history))
  /\ (forall od (cart : list CartItem),
        exists s' r,
          createOrder od cart shop_with_history = (s', inr r)
          /\ NoDup (map id (orders s')))
  /\ (forall k st,
        exists s' r,
          updateOrderStatus k st shop_with_history = (s', inr r)
          /\ NoDup (map id (orders s')))
  /\ (forall k,
        exists s' r,
          cancelOrder k shop_with_history = (s', inr r)
          /\ NoDup (map id (orders s'))).
Proof.
  assert (H : fresh_ids shop_with_history).
  { split; cbn; repeat constructor. }
  assert (N : NoDup (map id (orders shop_with_history))).
  { cbn. repeat constructor; cbn; intuition discriminate. }
  split; [exact H |]. split; [exact N |].
  exact (order_ids_stay_unique shop_with_history H N).
Defined.

Lemma useCreateOrder_reset v : UseCreateOrder.reset v = UseCreateOrder.initial.
Proof. reflexivity. Qed.
